(** * Cryptographic artifact bundling: serializer, archiver, chunked
      transfer and deserializer of [crypto-ctxt-ser-des.service.ts], and the
      string helpers of [openfheCommon.service.ts].

    The TypeScript classes are embedded shallowly.  Methods that mutate
    [this] and may throw become computations in a state-and-exception monad;
    the OpenFHE WebAssembly module is a record of functions (its answers are
    opaque to the program); a zip archive is a finite map from entry names to
    buffers; the sparse JavaScript array of the chunk accumulator is a list of
    optional slots. *)

From Stdlib Require Import ZArith NArith List String Ascii Lia.
From Stdlib Require Import Strings.Byte.
From stdpp Require Import base option list strings gmap pretty.

(** ** JavaScript values shared by all components *)

(** A Node [Buffer] / [Uint8Array]: a sequence of bytes. *)
Definition Buffer : Type := list byte.

(** Values a JavaScript [throw] can carry here: an [Error] object with its
    message, or a bare number (the WebAssembly engine throws exception
    pointers, which [getExceptionMessage] decodes). *)
Inductive Thrown : Type :=
| ErrorObj (name : string) (message : string)
| NumberVal (code : Z).

(** [new Error(message)] *)
Definition Error (message : string) : Thrown := ErrorObj "Error" message.

(** How a call ends: it returns a value or it throws. *)
Inductive Outcome (A : Type) : Type :=
| Ok (a : A)
| Throw (e : Thrown).
Arguments Ok {A} a.
Arguments Throw {A} e.

(** A method running on an object of state [S]: field writes made before a
    [throw] stay in the object. *)
Definition M (S A : Type) : Type := S -> Outcome A * S.

#[global] Instance M_ret {S} : MRet (M S) := fun A a s => (Ok a, s).

#[global] Instance M_bind {S} : MBind (M S) := fun A B k m s =>
  match m s with
  | (Ok a, s') => k a s'
  | (Throw e, s') => (Throw e, s')
  end.

Definition throw {S A} (e : Thrown) : M S A := fun s => (Throw e, s).
Definition get {S} : M S S := fun s => (Ok s, s).
Definition modify {S} (f : S -> S) : M S unit := fun s => (Ok tt, f s).

(** A call into the engine: its outcome is the engine's, the object is left
    as it is. *)
Definition call {S A} (r : Outcome A) : M S A := fun s => (r, s).

(** [try { body } catch (error) { handler(error) }]. *)
Definition try_catch {S A} (body : M S A) (handler : Thrown -> M S A) : M S A :=
  fun s => match body s with
           | (Ok a, s') => (Ok a, s')
           | (Throw e, s') => handler e s'
           end.

(** [String(e)] for an [Error] object [e] ([Error.prototype.toString]):
    its name, a colon, its message. *)
Definition error_to_string (name message : string) : string :=
  if decide (name = "") then message
  else if decide (message = "") then name
  else name +:+ ": " +:+ message.

(** ** JavaScript strings as sequences of UTF-16 code units *)

Definition CodeUnit : Type := N.
Definition JsString : Type := list CodeUnit.

(** What the language guarantees of every string: each unit fits 16 bits. *)
Definition wf_string (s : JsString) : Prop := Forall (fun c => (c < 65536)%N) s.

(** The ASCII literals of the source, as code units. *)
Definition lit (s : string) : JsString :=
  map (fun a => N_of_ascii a) (list_ascii_of_string s).

Definition slash : CodeUnit := 47%N.

(** [String.prototype.slice(start, end?)] as ECMAScript defines it. *)
Definition slice (s : JsString) (start : Z) (end_ : option Z) : JsString :=
  let len := Z.of_nat (length s) in
  let clamp (k : Z) := if (k <? 0)%Z then Z.max (len + k) 0 else Z.min k len in
  let from := clamp start in
  let to := match end_ with None => len | Some e => clamp e end in
  let span := Z.max (to - from) 0 in
  firstn (Z.to_nat span) (skipn (Z.to_nat from) s).

(** ** The OpenFHE WebAssembly module *)

(** Engine objects (contexts, keys) are opaque handles. *)
Definition Obj : Type := N.

Inductive SerType : Type := BINARY | JSON.

(** [RingGSWBTKey]: a bootstrapping key pair. *)
Record RingGSWBTKey : Type := { BSkey : Obj; KSkey : Obj }.

(** The map returned by [GetBTKeyMap]: [keys()] is a vector of the indices,
    [get(index)] the pair stored there. *)
Record BTKeyMap : Type := {
  keys : list N;
  get_pair : N -> RingGSWBTKey
}.

(** [vec.get(idx)] of an embind vector ([0] stands for the [undefined] of an
    index out of range, which no caller here reaches). *)
Definition vec_get (vec : list N) (idx : nat) : N := default 0%N (vec !! idx).

(** What the program asks of the engine.  A serializer answers with a buffer
    or with a falsy value ([None]); a deserializer answers with an object or a
    falsy value; each may throw instead.  The first argument of a method of an
    engine object is its receiver. *)
Record OpenFHEModule : Type := {
  SerializeCryptoContextToBuffer : Obj -> SerType -> Outcome (option Buffer);
  SerializePublicKeyToBuffer : Obj -> SerType -> Outcome (option Buffer);
  SerializePrivateKeyToBuffer : Obj -> SerType -> Outcome (option Buffer);
  SerializeEvalMultKeyToBuffer : Obj -> SerType -> Outcome (option Buffer);
  SerializeEvalAutomorphismKeyToBuffer : Obj -> SerType -> Outcome (option Buffer);
  SerializeSwkFC : Obj -> SerType -> Outcome (option Buffer);
  SerializeBinFHECryptoContextToBuffer : Obj -> SerType -> Outcome (option Buffer);
  SerializeBinFHERefreshKeyToBuffer : Obj -> SerType -> Outcome (option Buffer);
  SerializeBinFHESwitchingKeyToBuffer : Obj -> SerType -> Outcome (option Buffer);
  SerializeSeedSeqVector : list N -> SerType -> Outcome (option Buffer);
  GetRefreshKey : Obj -> Obj;
  GetSwitchKey : Obj -> Obj;
  GetBTKeyMap : Obj -> BTKeyMap;
  DeserializeCryptoContextFromBuffer : Buffer -> SerType -> Outcome (option Obj);
  DeserializePublicKeyFromBuffer : Buffer -> SerType -> Outcome (option Obj);
  DeserializePrivateKeyFromBuffer : Buffer -> SerType -> Outcome (option Obj);
  DeserializeSwkFC : Buffer -> SerType -> Outcome (option Obj);
  DeserializeBinFHECryptoContextFromBuffer : Buffer -> SerType -> Outcome (option Obj);
  DeserializeBinFHERefreshKeyFromBuffer : Buffer -> SerType -> Outcome (option Obj);
  DeserializeBinFHESwitchingKeyFromBuffer : Buffer -> SerType -> Outcome (option Obj);
  DeserializeSeedSeqVector : Buffer -> SerType -> Outcome (option (list N));
  DeserializeEvalMultKeyFromBuffer : Obj -> Buffer -> SerType -> Outcome bool;
  DeserializeEvalAutomorphismKeyFromBuffer : Obj -> Buffer -> SerType -> Outcome bool;
  SetSwkFC : Obj -> Obj -> Outcome unit;
  BTKeyLoad : Obj -> RingGSWBTKey -> Outcome unit;
  BTKeyMapLoadSingleElement : Obj -> N -> RingGSWBTKey -> Outcome unit;
  SetBinCCForSchemeSwitch : Obj -> Obj -> Outcome unit;
  getExceptionMessage : Z -> string
}.

(** The calls that change an engine object, in the order they were made. *)
Inductive EngineCall : Type :=
| CallDeserializeEvalMultKey (cc : Obj) (buf : Buffer)
| CallDeserializeEvalAutomorphismKey (cc : Obj) (buf : Buffer)
| CallSetSwkFC (cc swk : Obj)
| CallBTKeyLoad (bincc : Obj) (key : RingGSWBTKey)
| CallBTKeyMapLoadSingleElement (bincc : Obj) (index : N) (key : RingGSWBTKey)
| CallSetBinCCForSchemeSwitch (cc bincc : Obj).

(** ** Zip archives (JSZip) *)

(** An entry of a loaded archive: reading it yields its content, or fails. *)
Inductive ZipObject : Type :=
| Readable (content : Buffer)
| Corrupt (reason : string).

(** [entry.async('nodebuffer')] *)
Definition async_nodebuffer (entry : ZipObject) : Outcome Buffer :=
  match entry with
  | Readable content => Ok content
  | Corrupt reason => Throw (Error reason)
  end.

(** An uploaded [File]: the bytes of a zip archive with these entries, or
    bytes [loadAsync] rejects. *)
Inductive File : Type :=
| ZipFile (entries : gmap string ZipObject)
| NotZip (reason : string).

(** [zip.loadAsync(await file.arrayBuffer())] *)
Definition loadAsync (file : File) : Outcome (gmap string ZipObject) :=
  match file with
  | ZipFile entries => Ok entries
  | NotZip reason => Throw (Error reason)
  end.

(** ** The Bundle Model: [CryptoContextBuffers] *)

(** One element of [EvalKeyMappings]: the object [{[thekey]: {BSkey, KSkey}}],
    a single index with its two buffers. *)
Record KeyMapping : Type := {
  mapping_key : N;
  mapping_BSkey : Buffer;
  mapping_KSkey : Buffer
}.

Record CryptoContextBuffers : Type := {
  cryptoContextBuffer : option Buffer;
  publicKeyBuffer : option Buffer;
  secretKeyBuffer : option Buffer;
  evalMultKeyBuffer : option Buffer;
  automorphismKeyBuffer : option Buffer;
  FHEWtoCKKSSwitchKeyBuffer : option Buffer;
  binfheCryptoContextBuffer : option Buffer;
  binFHEBootRefreshKeyBuffer : option Buffer;
  binFHEBootRotKeyBuffer : option Buffer;
  keyIndexBuffer : option Buffer;
  EvalKeyMappings : list KeyMapping
}.

(** Field writes [this.buffers.f = v]. *)
Definition set_cryptoContextBuffer v '(Build_CryptoContextBuffers _ b c d e f g h i j k) :=
  Build_CryptoContextBuffers v b c d e f g h i j k.
Definition set_publicKeyBuffer v '(Build_CryptoContextBuffers a _ c d e f g h i j k) :=
  Build_CryptoContextBuffers a v c d e f g h i j k.
Definition set_secretKeyBuffer v '(Build_CryptoContextBuffers a b _ d e f g h i j k) :=
  Build_CryptoContextBuffers a b v d e f g h i j k.
Definition set_evalMultKeyBuffer v '(Build_CryptoContextBuffers a b c _ e f g h i j k) :=
  Build_CryptoContextBuffers a b c v e f g h i j k.
Definition set_automorphismKeyBuffer v '(Build_CryptoContextBuffers a b c d _ f g h i j k) :=
  Build_CryptoContextBuffers a b c d v f g h i j k.
Definition set_FHEWtoCKKSSwitchKeyBuffer v '(Build_CryptoContextBuffers a b c d e _ g h i j k) :=
  Build_CryptoContextBuffers a b c d e v g h i j k.
Definition set_binfheCryptoContextBuffer v '(Build_CryptoContextBuffers a b c d e f _ h i j k) :=
  Build_CryptoContextBuffers a b c d e f v h i j k.
Definition set_binFHEBootRefreshKeyBuffer v '(Build_CryptoContextBuffers a b c d e f g _ i j k) :=
  Build_CryptoContextBuffers a b c d e f g v i j k.
Definition set_binFHEBootRotKeyBuffer v '(Build_CryptoContextBuffers a b c d e f g h _ j k) :=
  Build_CryptoContextBuffers a b c d e f g h v j k.
Definition set_keyIndexBuffer v '(Build_CryptoContextBuffers a b c d e f g h i _ k) :=
  Build_CryptoContextBuffers a b c d e f g h i v k.
(** [this.buffers.EvalKeyMappings.push(m)] *)
Definition push_EvalKeyMapping m '(Build_CryptoContextBuffers a b c d e f g h i j k) :=
  Build_CryptoContextBuffers a b c d e f g h i j (k ++ [m]).

(** ** [DataAndLocation], the base class of both services *)

Module DataAndLocation.

(** The fields of an instance ([SERTYPE] is declared by both subclasses).
    [null] is [None]. *)
Record t : Type := {
  cryptoContext : option Obj;
  publicKey : option Obj;
  secretKey : option Obj;
  binFHECryptoContext : option Obj;
  FHEWtoCKKSSwitchKey : option Obj;
  dataDirectory : JsString;
  module : option OpenFHEModule;
  SERTYPE : SerType;
  buffers : CryptoContextBuffers
}.

Definition set_cryptoContext v '(Build_t _ b c d e f g h i) := Build_t v b c d e f g h i.
Definition set_publicKey v '(Build_t a _ c d e f g h i) := Build_t a v c d e f g h i.
Definition set_secretKey v '(Build_t a b _ d e f g h i) := Build_t a b v d e f g h i.
Definition set_binFHECryptoContext v '(Build_t a b c _ e f g h i) := Build_t a b c v e f g h i.
Definition set_FHEWtoCKKSSwitchKey v '(Build_t a b c d _ f g h i) := Build_t a b c d v f g h i.
Definition set_dataDirectory v '(Build_t a b c d e _ g h i) := Build_t a b c d e v g h i.
Definition set_buffers v '(Build_t a b c d e f g h _) := Build_t a b c d e f g h v.
Definition update_buffers (f : CryptoContextBuffers -> CryptoContextBuffers) (this : t) : t :=
  set_buffers (f (buffers this)) this.

(** The file names, as the field initialisers give them. *)
Definition cryptoContextFile := "cryptocontext.txt".
Definition pubKeyFile := "key_pub.txt".
Definition secretKeyFile := "key_secret.txt".
Definition multKeyFile := "key_mult.txt".
Definition rotKeyFile := "key_rot.txt".
Definition FHEWtoCKKSSwitchKeyFile := "key_switch_fhew_ckks.txt".
Definition binFHECryptoContextFile := "binfhe_cryptocontext.txt".
Definition binFHEBootRefreshKeyFile := "key_binfhe_boot_refresh.txt".
Definition binFHEBootRotKeyFile := "key_binfhe_boot_rot.txt".
Definition baseRefreshKeyFile := "key_refresh.txt".
Definition baseSwitchingKeyFile := "key_switching.txt".
Definition keyIndexFile := "key_indices.txt".

(** The initial value of the field [buffers]. *)
Definition initial_buffers : CryptoContextBuffers :=
  {| cryptoContextBuffer := None; publicKeyBuffer := None;
     secretKeyBuffer := None; evalMultKeyBuffer := None;
     automorphismKeyBuffer := None; FHEWtoCKKSSwitchKeyBuffer := None;
     binfheCryptoContextBuffer := None; binFHEBootRefreshKeyBuffer := None;
     binFHEBootRotKeyBuffer := None; keyIndexBuffer := None;
     EvalKeyMappings := [] |}.

(** An instance as the field initialisers leave it, given its [SERTYPE]. *)
Definition fresh (ser : SerType) : t :=
  {| cryptoContext := None; publicKey := None; secretKey := None;
     binFHECryptoContext := None; FHEWtoCKKSSwitchKey := None;
     dataDirectory := lit "demoData"; module := None; SERTYPE := ser;
     buffers := initial_buffers |}.

Definition setDataDirectory (dir : JsString) : M t unit :=
  if decide (dir = []) then
    throw (Error "dir is an empty string")
  else if decide (slice dir (-1) None = [slash]) then
    modify (set_dataDirectory (slice dir 0 (Some (-1)%Z)))
  else
    modify (set_dataDirectory dir).

End DataAndLocation.
Import DataAndLocation.

(** ** [SchemeSwitchingDataSerializer] *)

Module SchemeSwitchingDataSerializer.

(** [this.buffers.f = <engine call>; if (!this.buffers.f) throw new Error(msg)]:
    the field is written with what the engine returned, then tested. *)
Definition store_checked
    (r : Outcome (option Buffer))
    (set_field : option Buffer -> CryptoContextBuffers -> CryptoContextBuffers)
    (msg : string) : M DataAndLocation.t unit :=
  b ← call r;
  _ ← modify (update_buffers (set_field b));
  match b with
  | None => throw (Error msg)
  | Some _ => mret tt
  end.

(** [const b = <engine call>; if (!b) throw new Error(msg)] *)
Definition checked (r : Outcome (option Buffer)) (msg : string)
  : M DataAndLocation.t Buffer :=
  b ← call r;
  match b with
  | None => throw (Error msg)
  | Some buf => mret buf
  end.

(** [Array.from({length: BTKeyMap.keys().size()}).fill(0)
      .map((_, idx) => BTKeyMap.keys().get(idx))] *)
Definition BTKeyMapArr (map : BTKeyMap) : list N :=
  imap (fun idx _ => vec_get (keys map) idx) (replicate (length (keys map)) 0%N).

(** The [for (const [_, thekey] of Object.entries(BTKeyMapArr))] loop;
    [indices] is the local [VectorUint32], returned when the loop ends. *)
Fixpoint serialize_key_pairs (m : OpenFHEModule) (ser : SerType) (map : BTKeyMap)
    (arr : list N) (indices : list N) : M DataAndLocation.t (list N) :=
  match arr with
  | [] => mret indices
  | thekey :: rest =>
      binFHEBSkeyKeyBuffer ←
        checked (SerializeBinFHERefreshKeyToBuffer m (BSkey (get_pair map thekey)) ser)
                "Exception writing BSkey to buffer";
      binFHEKSkeyBuffer ←
        checked (SerializeBinFHESwitchingKeyToBuffer m (KSkey (get_pair map thekey)) ser)
                "Exception writing KSkey to buffer";
      _ ← modify (update_buffers (push_EvalKeyMapping
             {| mapping_key := thekey;
                mapping_BSkey := binFHEBSkeyKeyBuffer;
                mapping_KSkey := binFHEKSkeyBuffer |}));
      serialize_key_pairs m ser map rest (indices ++ [thekey])
  end.

(** One of the null checks that open [Serialize]:
    [if (this.f === null) throw new Error(msg)]. *)
Definition require {A} (field : option A) (msg : string) : M DataAndLocation.t A :=
  match field with
  | None => throw (Error msg)
  | Some v => mret v
  end.

Definition Serialize : M DataAndLocation.t unit :=
  this ← get;
  m ← require (module this) "OPENFHE module is None";
  cc ← require (cryptoContext this) "cryptoContext is None";
  pk ← require (publicKey this) "publicKey is None";
  sk ← require (secretKey this) "secretKey is None";
  bincc ← require (binFHECryptoContext this) "binFHECryptoContext is None";
  swk ← require (FHEWtoCKKSSwitchKey this) "FHEWtoCKKSSwitchKey is None";
  let ser := SERTYPE this in
  let serverCC := cc in
  _ ← store_checked (SerializeCryptoContextToBuffer m cc ser)
        set_cryptoContextBuffer "Exception writing cryptocontext to buffer";
  _ ← store_checked (SerializePublicKeyToBuffer m pk ser)
        set_publicKeyBuffer "Exception writing publicKey to buffer";
  _ ← store_checked (SerializePrivateKeyToBuffer m sk ser)
        set_secretKeyBuffer "Exception writing secretKey to buffer";
  _ ← store_checked (SerializeEvalMultKeyToBuffer m serverCC ser)
        set_evalMultKeyBuffer "Error writing eval mult keys to buffer";
  _ ← store_checked (SerializeEvalAutomorphismKeyToBuffer m serverCC ser)
        set_automorphismKeyBuffer "Error writing rotation keys to buffer";
  _ ← store_checked (SerializeSwkFC m swk ser)
        set_FHEWtoCKKSSwitchKeyBuffer "Exception writing FHEWtoCKKSSwitchKey to buffer";
  _ ← store_checked (SerializeBinFHECryptoContextToBuffer m bincc ser)
        set_binfheCryptoContextBuffer "Exception writing binFHECryptoContext to buffer";
  _ ← store_checked (SerializeBinFHERefreshKeyToBuffer m (GetRefreshKey m bincc) ser)
        set_binFHEBootRefreshKeyBuffer "Exception writing binFHEBootRefreshKey to buffer";
  _ ← store_checked (SerializeBinFHESwitchingKeyToBuffer m (GetSwitchKey m bincc) ser)
        set_binFHEBootRotKeyBuffer "Exception writing binFHEBootRotKey to buffer";
  let BTKeyMap := GetBTKeyMap m bincc in
  indices ← serialize_key_pairs m ser BTKeyMap (BTKeyMapArr BTKeyMap) [];
  store_checked (SerializeSeedSeqVector m indices ser)
    set_keyIndexBuffer "Exception writing indices to buffer".

(** The ten top-level artifacts of a bundle, named after their buffers. *)
Inductive Artifact : Type :=
| ArtCryptoContext
| ArtPublicKey
| ArtSecretKey
| ArtEvalMultKey
| ArtAutomorphismKey
| ArtFHEWtoCKKSSwitchKey
| ArtBinfheCryptoContext
| ArtBinFHEBootRefreshKey
| ArtBinFHEBootRotKey
| ArtKeyIndex.

#[global] Instance Artifact_eq_dec : EqDecision Artifact.
Proof. solve_decision. Defined.

(** The order in which [Serialize] exports them. *)
Definition serialize_order : list Artifact :=
  [ ArtCryptoContext; ArtPublicKey; ArtSecretKey; ArtEvalMultKey;
    ArtAutomorphismKey; ArtFHEWtoCKKSSwitchKey; ArtBinfheCryptoContext;
    ArtBinFHEBootRefreshKey; ArtBinFHEBootRotKey; ArtKeyIndex ].

Fixpoint before_in (a : Artifact) (l : list Artifact) : list Artifact :=
  match l with
  | [] => []
  | b :: rest => if decide (b = a) then [] else b :: before_in a rest
  end.

Fixpoint after_in (a : Artifact) (l : list Artifact) : list Artifact :=
  match l with
  | [] => []
  | b :: rest => if decide (b = a) then rest else after_in a rest
  end.

Definition preceding (a : Artifact) : list Artifact := before_in a serialize_order.
Definition following (a : Artifact) : list Artifact := after_in a serialize_order.

(** The field of [this.buffers] that receives an artifact. *)
Definition field_of (a : Artifact) : CryptoContextBuffers -> option Buffer :=
  match a with
  | ArtCryptoContext => cryptoContextBuffer
  | ArtPublicKey => publicKeyBuffer
  | ArtSecretKey => secretKeyBuffer
  | ArtEvalMultKey => evalMultKeyBuffer
  | ArtAutomorphismKey => automorphismKeyBuffer
  | ArtFHEWtoCKKSSwitchKey => FHEWtoCKKSSwitchKeyBuffer
  | ArtBinfheCryptoContext => binfheCryptoContextBuffer
  | ArtBinFHEBootRefreshKey => binFHEBootRefreshKeyBuffer
  | ArtBinFHEBootRotKey => binFHEBootRotKeyBuffer
  | ArtKeyIndex => keyIndexBuffer
  end.

(** The message of the error [Serialize] throws when the export of an
    artifact comes back falsy. *)
Definition error_of (a : Artifact) : string :=
  match a with
  | ArtCryptoContext => "Exception writing cryptocontext to buffer"
  | ArtPublicKey => "Exception writing publicKey to buffer"
  | ArtSecretKey => "Exception writing secretKey to buffer"
  | ArtEvalMultKey => "Error writing eval mult keys to buffer"
  | ArtAutomorphismKey => "Error writing rotation keys to buffer"
  | ArtFHEWtoCKKSSwitchKey => "Exception writing FHEWtoCKKSSwitchKey to buffer"
  | ArtBinfheCryptoContext => "Exception writing binFHECryptoContext to buffer"
  | ArtBinFHEBootRefreshKey => "Exception writing binFHEBootRefreshKey to buffer"
  | ArtBinFHEBootRotKey => "Exception writing binFHEBootRotKey to buffer"
  | ArtKeyIndex => "Exception writing indices to buffer"
  end.

(** The engine's answer to the export operation [Serialize] uses for an
    artifact.  The operations are only invoked on an object that passes
    the null checks, hence the [option]. *)
Definition export_of (this : DataAndLocation.t) (a : Artifact)
  : option (Outcome (option Buffer)) :=
  m ← module this;
  cc ← cryptoContext this;
  pk ← publicKey this;
  sk ← secretKey this;
  bincc ← binFHECryptoContext this;
  swk ← FHEWtoCKKSSwitchKey this;
  let ser := SERTYPE this in
  Some match a with
       | ArtCryptoContext => SerializeCryptoContextToBuffer m cc ser
       | ArtPublicKey => SerializePublicKeyToBuffer m pk ser
       | ArtSecretKey => SerializePrivateKeyToBuffer m sk ser
       | ArtEvalMultKey => SerializeEvalMultKeyToBuffer m cc ser
       | ArtAutomorphismKey => SerializeEvalAutomorphismKeyToBuffer m cc ser
       | ArtFHEWtoCKKSSwitchKey => SerializeSwkFC m swk ser
       | ArtBinfheCryptoContext => SerializeBinFHECryptoContextToBuffer m bincc ser
       | ArtBinFHEBootRefreshKey =>
           SerializeBinFHERefreshKeyToBuffer m (GetRefreshKey m bincc) ser
       | ArtBinFHEBootRotKey =>
           SerializeBinFHESwitchingKeyToBuffer m (GetSwitchKey m bincc) ser
       | ArtKeyIndex =>
           SerializeSeedSeqVector m (BTKeyMapArr (GetBTKeyMap m bincc)) ser
       end.

(** The export answered with a buffer. *)
Definition returns_buffer (r : option (Outcome (option Buffer))) : Prop :=
  exists buf, r = Some (Ok (Some buf)).

(** Both halves of the bootstrap pair stored at [index] are exported as
    the buffers of [mapping]. *)
Definition pair_exported (m : OpenFHEModule) (ser : SerType) (map : BTKeyMap)
    (mapping : KeyMapping) : Prop :=
  SerializeBinFHERefreshKeyToBuffer m (BSkey (get_pair map (mapping_key mapping))) ser
    = Ok (Some (mapping_BSkey mapping))
  /\ SerializeBinFHESwitchingKeyToBuffer m (KSkey (get_pair map (mapping_key mapping))) ser
    = Ok (Some (mapping_KSkey mapping)).

(** Every bootstrap pair the engine reports is exported with buffers. *)
Definition pairs_exported (this : DataAndLocation.t) : Prop :=
  forall m bincc,
    module this = Some m -> binFHECryptoContext this = Some bincc ->
    forall index, In index (keys (GetBTKeyMap m bincc)) ->
      exists bs ks,
        pair_exported m (SERTYPE this) (GetBTKeyMap m bincc)
          {| mapping_key := index; mapping_BSkey := bs; mapping_KSkey := ks |}.

(** [Serialize] gets as far as exporting [a]: whatever it exports before
    comes back as a buffer. *)
Definition reaches (this : DataAndLocation.t) (a : Artifact) : Prop :=
  (forall b, In b (preceding a) -> returns_buffer (export_of this b))
  /\ (a = ArtKeyIndex -> pairs_exported this).

(** Several [push]es in a row. *)
Definition push_EvalKeyMappings (mappings : list KeyMapping)
    (b : CryptoContextBuffers) : CryptoContextBuffers :=
  fold_left (fun b mapping => push_EvalKeyMapping mapping b) mappings b.

(** *** [createDownloadableFile]: packing [this.buffers] into an archive *)

(** [addBufferToZip]: [if (buffer && fileName) zip.file(fileName, buffer)] *)
Definition addBufferToZip (buffer : option Buffer) (fileName : string)
    (zip : gmap string ZipObject) : gmap string ZipObject :=
  match buffer with
  | Some b => if decide (fileName = "") then zip else <[fileName := Readable b]> zip
  | None => zip
  end.

(** The ten top-level artifacts: the file name of each and the field of
    [this.buffers] that holds it, in the order they are packed. *)
Definition top_level_files : list (string * (CryptoContextBuffers -> option Buffer)) :=
  [ (cryptoContextFile, cryptoContextBuffer);
    (pubKeyFile, publicKeyBuffer);
    (secretKeyFile, secretKeyBuffer);
    (multKeyFile, evalMultKeyBuffer);
    (rotKeyFile, automorphismKeyBuffer);
    (FHEWtoCKKSSwitchKeyFile, FHEWtoCKKSSwitchKeyBuffer);
    (binFHECryptoContextFile, binfheCryptoContextBuffer);
    (binFHEBootRefreshKeyFile, binFHEBootRefreshKeyBuffer);
    (binFHEBootRotKeyFile, binFHEBootRotKeyBuffer);
    (keyIndexFile, keyIndexBuffer) ].

(** The two entries of one element of [EvalKeyMappings]. *)
Definition add_mapping (mapping : KeyMapping) (zip : gmap string ZipObject)
  : gmap string ZipObject :=
  <[pretty (mapping_key mapping) +:+ "_" +:+ baseSwitchingKeyFile
      := Readable (mapping_KSkey mapping)]>
    (<[pretty (mapping_key mapping) +:+ "_" +:+ baseRefreshKeyFile
         := Readable (mapping_BSkey mapping)]> zip).

(** The entries [createDownloadableFile] adds to the new archive. *)
Definition packed_entries (this : DataAndLocation.t) : gmap string ZipObject :=
  let zip0 :=
    fold_left (fun zip '(fileName, field) =>
                 addBufferToZip (field (buffers this)) fileName zip)
              top_level_files ∅ in
  fold_left (fun zip mapping => add_mapping mapping zip)
            (EvalKeyMappings (buffers this)) zip0.

(** The archive it generates from [this.buffers]. *)
Definition createDownloadableFile (this : DataAndLocation.t) : File :=
  ZipFile (packed_entries this).

(** *** [uploadFile]: unpacking an archive into [this.buffers] *)

(** [readFileFromZip]: the content of the entry, [null] when there is no
    such entry or when reading it fails. *)
Definition readFileFromZip (zip : gmap string ZipObject) (fileName : string)
  : option Buffer :=
  match zip !! fileName with
  | None => None
  | Some entry =>
      match async_nodebuffer entry with
      | Ok content => Some content
      | Throw _ => None
      end
  end.

Definition uploadFile (file : File) : M DataAndLocation.t unit :=
  zip ← call (loadAsync file);
  _ ← modify (update_buffers (set_cryptoContextBuffer (readFileFromZip zip cryptoContextFile)));
  _ ← modify (update_buffers (set_publicKeyBuffer (readFileFromZip zip pubKeyFile)));
  _ ← modify (update_buffers (set_evalMultKeyBuffer (readFileFromZip zip multKeyFile)));
  _ ← modify (update_buffers (set_automorphismKeyBuffer (readFileFromZip zip rotKeyFile)));
  _ ← modify (update_buffers (set_FHEWtoCKKSSwitchKeyBuffer
                                (readFileFromZip zip FHEWtoCKKSSwitchKeyFile)));
  _ ← modify (update_buffers (set_binfheCryptoContextBuffer
                                (readFileFromZip zip binFHECryptoContextFile)));
  _ ← modify (update_buffers (set_binFHEBootRefreshKeyBuffer
                                (readFileFromZip zip binFHEBootRefreshKeyFile)));
  _ ← modify (update_buffers (set_binFHEBootRotKeyBuffer
                                (readFileFromZip zip binFHEBootRotKeyFile)));
  modify (update_buffers (set_keyIndexBuffer (readFileFromZip zip keyIndexFile))).

(** The files [uploadFile] reads, each with the field it writes. *)
Definition unpacked_files : list (string * (CryptoContextBuffers -> option Buffer)) :=
  [ (cryptoContextFile, cryptoContextBuffer);
    (pubKeyFile, publicKeyBuffer);
    (multKeyFile, evalMultKeyBuffer);
    (rotKeyFile, automorphismKeyBuffer);
    (FHEWtoCKKSSwitchKeyFile, FHEWtoCKKSSwitchKeyBuffer);
    (binFHECryptoContextFile, binfheCryptoContextBuffer);
    (binFHEBootRefreshKeyFile, binFHEBootRefreshKeyBuffer);
    (binFHEBootRotKeyFile, binFHEBootRotKeyBuffer);
    (keyIndexFile, keyIndexBuffer) ].

(** Unpacking reads the entry of every top-level file into its field: the
    content when the archive has the entry, nothing when it has not. *)
Definition unpack_reads_every_file
    (zip : gmap string ZipObject) (this : DataAndLocation.t) : Prop :=
  forall fileName field,
    In (fileName, field) top_level_files ->
    field (buffers (uploadFile (ZipFile zip) this).2) = readFileFromZip zip fileName.

(** *** Failing fast and whole *)

(** An answer that carries no data: no buffer at all ([null], [undefined]),
    or a buffer of length zero. *)
Definition empty_or_absent (r : Outcome (option Buffer)) : Prop :=
  r = Ok None \/ r = Ok (Some []).

(** [Serialize] fails fast and whole at [a]: when it gets as far as
    exporting [a] and the answer carries no data, it throws the error naming
    [a] and leaves no part of a bundle behind, [this.buffers] being what it
    was before the call. *)
Definition fails_fast_and_whole (this : DataAndLocation.t) (a : Artifact) : Prop :=
  reaches this a ->
  (exists r, export_of this a = Some r /\ empty_or_absent r) ->
  exists this',
    Serialize this = (Throw (Error (error_of a)), this')
    /\ buffers this' = buffers this.

(** *** [createDownloadableFileViaWorker]: the [onmessage] handler *)

(** What the worker posts ([event.data]); an unknown [type] is ignored. *)
Inductive WorkerMessage : Type :=
| fileChunk (chunk : Buffer) (index : nat) (totalChunks : nat)
| fileCreated
| error (error : string)
| otherMessage.

Inductive Promise : Type :=
| Pending
| Resolved (value : Buffer)
| Rejected (reason : Thrown).

(** Settling a promise a second time has no effect. *)
Definition resolve (value : Buffer) (p : Promise) : Promise :=
  match p with Pending => Resolved value | _ => p end.
Definition reject (reason : Thrown) (p : Promise) : Promise :=
  match p with Pending => Rejected reason | _ => p end.

(** The array [chunks]: a slot holds a chunk or is a hole. *)
Definition ChunkArray : Type := list (option Buffer).

(** [chunks[index] = chunk]: writing at or past [chunks.length] extends the
    array up to [index], leaving holes in between. *)
Definition array_set (chunks : ChunkArray) (index : nat) (chunk : Buffer) : ChunkArray :=
  if decide (index < length chunks) then <[index := Some chunk]> chunks
  else chunks ++ replicate (index - length chunks) None ++ [Some chunk].

(** [chunks.reduce((sum, chunk) => sum + (chunk ? chunk.length : 0), 0)];
    [reduce] does not visit holes. *)
Definition total_length (chunks : ChunkArray) : nat :=
  fold_left (fun sum slot =>
               match slot with
               | Some chunk => sum + length chunk
               | None => sum
               end) chunks 0.

(** [target.set(source, offset)] of a typed array; a source that does not
    fit is a [RangeError]. *)
Definition typed_array_set (target source : Buffer) (offset : nat) : option Buffer :=
  if decide (offset + length source <= length target) then
    Some (take offset target ++ source ++ drop (offset + length source) target)
  else None.

(** The [chunks.forEach] that copies every chunk at the running [offset]. *)
Fixpoint copy_chunks (chunks : ChunkArray) (fullArray : Buffer) (offset : nat)
  : option Buffer :=
  match chunks with
  | [] => Some fullArray
  | None :: rest => copy_chunks rest fullArray offset
  | Some chunk :: rest =>
      match typed_array_set fullArray chunk offset with
      | Some fullArray' => copy_chunks rest fullArray' (offset + length chunk)
      | None => None
      end
  end.

(** The closure state of the promise executor. *)
Record Transfer : Type := {
  chunks : ChunkArray;
  promise : Promise
}.

Definition start : Transfer := {| chunks := []; promise := Pending |}.

Definition onmessage (st : Transfer) (data : WorkerMessage) : Transfer :=
  match data with
  | fileChunk chunk index receivedTotalChunks =>
      let chunks' := array_set (chunks st) index chunk in
      if decide (length chunks' = receivedTotalChunks) then
        let totalLength := total_length chunks' in
        let fullArray := replicate totalLength x00 in
        match copy_chunks chunks' fullArray 0 with
        | Some fullArray' =>
            {| chunks := chunks'; promise := resolve fullArray' (promise st) |}
        | None => {| chunks := chunks'; promise := promise st |}
        end
      else {| chunks := chunks'; promise := promise st |}
  | fileCreated => st
  | error e => {| chunks := chunks st; promise := reject (Error e) (promise st) |}
  | otherMessage => st
  end.

(** The handler run on a sequence of messages, in arrival order. *)
Definition deliver (msgs : list WorkerMessage) : Transfer :=
  fold_left onmessage msgs start.

(** The [fileChunk] messages of a chunk set, in index order. *)
Definition chunk_messages (parts : list Buffer) : list WorkerMessage :=
  imap (fun index chunk => fileChunk chunk index (length parts)) parts.

(** The slot indices carried by the [fileChunk] messages of a sequence. *)
Definition filled_indices (msgs : list WorkerMessage) : list nat :=
  omap (fun data => match data with
                    | fileChunk _ index _ => Some index
                    | _ => None
                    end) msgs.

(** Every slot [0], ..., [totalChunks - 1] has been filled. *)
Definition covers (totalChunks : nat) (msgs : list WorkerMessage) : Prop :=
  forall i, i < totalChunks -> In i (filled_indices msgs).

(** The caller declared completion: the pending operation was resolved. *)
Definition declares_completion (st : Transfer) : Prop :=
  exists value, promise st = Resolved value.

End SchemeSwitchingDataSerializer.

(** ** [SchemeSwitchingDataDeserializer] *)

Module SchemeSwitchingDataDeserializer.

(** The deserializer object together with the calls it has made on engine
    objects. *)
Record World : Type := {
  this : DataAndLocation.t;
  engine_calls : list EngineCall
}.

Definition assign (f : DataAndLocation.t -> DataAndLocation.t) : M World unit :=
  modify (fun w => {| this := f (this w); engine_calls := engine_calls w |}).

(** A call of a method that changes an engine object: recorded, then run. *)
Definition invoke {A} (c : EngineCall) (r : Outcome A) : M World A :=
  _ ← modify (fun w => {| this := this w; engine_calls := engine_calls w ++ [c] |});
  call r.

(** [createMapFileNameDeserialize]: [`${index}_${baseFileName}`] *)
Definition createMapFileNameDeserialize (index : N) (baseFileName : string) : string :=
  pretty index +:+ "_" +:+ baseFileName.

(** [copyVecToJs]: the elements [vec.get(0)], ..., [vec.get(vec.size()-1)]. *)
Definition copyVecToJs (vec : list N) : list N :=
  map (vec_get vec) (seq 0 (length vec)).

(** The closure [deserializeFile] of [deserialize]. *)
Definition deserializeFile {A} (unzippedFiles : gmap string ZipObject) (ser : SerType)
    (filename : string) (deserializeFunc : Buffer -> SerType -> Outcome (option A))
  : M World A :=
  match unzippedFiles !! filename with
  | None => throw (Error ("File " +:+ filename +:+ " not found in the zip"))
  | Some file =>
      fileData ← call (async_nodebuffer file);
      success ← call (deserializeFunc fileData ser);
      match success with
      | None => throw (Error ("Error deserializing from " +:+ filename))
      | Some v => mret v
      end
  end.

(** The optional entries: [if (f) { buf = await f.async(..); install(buf) }] *)
Definition install_if_present (unzippedFiles : gmap string ZipObject)
    (filename : string) (c : Buffer -> EngineCall) (install : Buffer -> Outcome bool)
  : M World unit :=
  match unzippedFiles !! filename with
  | None => mret tt
  | Some file =>
      buf ← call (async_nodebuffer file);
      _ ← invoke (c buf) (install buf);
      mret tt
  end.

(** The [for (const index of indices)] loop. *)
Fixpoint load_key_pairs (m : OpenFHEModule) (unzippedFiles : gmap string ZipObject)
    (ser : SerType) (bincc : Obj) (indices : list N) : M World unit :=
  match indices with
  | [] => mret tt
  | index :: rest =>
      bs ← deserializeFile unzippedFiles ser
             (createMapFileNameDeserialize index baseRefreshKeyFile)
             (DeserializeBinFHERefreshKeyFromBuffer m);
      ks ← deserializeFile unzippedFiles ser
             (createMapFileNameDeserialize index baseSwitchingKeyFile)
             (DeserializeBinFHESwitchingKeyFromBuffer m);
      let theKey := {| BSkey := bs; KSkey := ks |} in
      _ ← invoke (CallBTKeyMapLoadSingleElement bincc index theKey)
                 (BTKeyMapLoadSingleElement m bincc index theKey);
      load_key_pairs m unzippedFiles ser bincc rest
  end.

(** Reading a property of [this.module] when it is [null]. *)
Definition null_module : Thrown :=
  ErrorObj "TypeError"
    "Cannot read properties of null (reading 'DeserializeCryptoContextFromBuffer')".

(** The [try] block of [deserialize]. *)
Definition deserialize_body (file : File) : M World unit :=
  unzippedFiles ← call (loadAsync file);
  w ← get;
  let ser := SERTYPE (this w) in
  m ← match module (this w) with
      | None => throw null_module
      | Some m => mret m
      end;
  cc ← deserializeFile unzippedFiles ser cryptoContextFile
         (DeserializeCryptoContextFromBuffer m);
  _ ← assign (set_cryptoContext (Some cc));
  pk ← deserializeFile unzippedFiles ser pubKeyFile
         (DeserializePublicKeyFromBuffer m);
  _ ← assign (set_publicKey (Some pk));
  sk ← deserializeFile unzippedFiles ser secretKeyFile
         (DeserializePrivateKeyFromBuffer m);
  _ ← assign (set_secretKey (Some sk));
  _ ← install_if_present unzippedFiles multKeyFile
        (CallDeserializeEvalMultKey cc)
        (fun buf => DeserializeEvalMultKeyFromBuffer m cc buf ser);
  _ ← install_if_present unzippedFiles rotKeyFile
        (CallDeserializeEvalAutomorphismKey cc)
        (fun buf => DeserializeEvalAutomorphismKeyFromBuffer m cc buf ser);
  swk ← deserializeFile unzippedFiles ser FHEWtoCKKSSwitchKeyFile
          (DeserializeSwkFC m);
  _ ← assign (set_FHEWtoCKKSSwitchKey (Some swk));
  _ ← invoke (CallSetSwkFC cc swk) (SetSwkFC m cc swk);
  bincc ← deserializeFile unzippedFiles ser binFHECryptoContextFile
            (DeserializeBinFHECryptoContextFromBuffer m);
  _ ← assign (set_binFHECryptoContext (Some bincc));
  bs ← deserializeFile unzippedFiles ser binFHEBootRefreshKeyFile
         (DeserializeBinFHERefreshKeyFromBuffer m);
  ks ← deserializeFile unzippedFiles ser binFHEBootRotKeyFile
         (DeserializeBinFHESwitchingKeyFromBuffer m);
  let BTKey := {| BSkey := bs; KSkey := ks |} in
  _ ← invoke (CallBTKeyLoad bincc BTKey) (BTKeyLoad m bincc BTKey);
  vec ← deserializeFile unzippedFiles ser keyIndexFile
          (DeserializeSeedSeqVector m);
  let indices := copyVecToJs vec in
  _ ← (if decide (length indices = 0) then
         throw (Error ("Error deserializing from " +:+ keyIndexFile
                       +:+ ". No indices found."))
       else mret tt);
  _ ← load_key_pairs m unzippedFiles ser bincc indices;
  invoke (CallSetBinCCForSchemeSwitch cc bincc) (SetBinCCForSchemeSwitch m cc bincc).

(** [String(v)] of a thrown value that is not a number. *)
Definition thrown_to_string (e : Thrown) : string :=
  match e with
  | ErrorObj name message => error_to_string name message
  | NumberVal code => pretty code
  end.

(** The [catch] block: a thrown number is decoded by the engine, anything
    else is converted to a string; either way a new [Error] is thrown. *)
Definition deserialize_catch (e : Thrown) : M World unit :=
  match e with
  | NumberVal code =>
      w ← get;
      match module (this w) with
      | None => throw (ErrorObj "TypeError"
                 "Cannot read properties of null (reading 'getExceptionMessage')")
      | Some m => throw (Error (getExceptionMessage m code))
      end
  | _ => throw (Error (thrown_to_string e))
  end.

Definition deserialize (file : File) : M World unit :=
  try_catch (deserialize_body file) deserialize_catch.

(** *** What it means for the engine to accept an archive *)

(** The archive holds a readable entry [filename], and the engine turns
    its content into the object [v]. *)
Definition entry_accepted {A} (unzippedFiles : gmap string ZipObject) (ser : SerType)
    (filename : string) (deserializeFunc : Buffer -> SerType -> Outcome (option A))
    (v : A) : Prop :=
  exists content,
    unzippedFiles !! filename = Some (Readable content)
    /\ deserializeFunc content ser = Ok (Some v).

(** An optional entry is missing, or it is readable and the engine
    installs it without throwing. *)
Definition optional_accepted (unzippedFiles : gmap string ZipObject)
    (filename : string) (install : Buffer -> Outcome bool) : Prop :=
  match unzippedFiles !! filename with
  | None => True
  | Some (Readable content) => exists r, install content = Ok r
  | Some (Corrupt _) => False
  end.

(** The install call an optional entry gives rise to. *)
Definition optional_calls (unzippedFiles : gmap string ZipObject)
    (filename : string) (c : Buffer -> EngineCall) : list EngineCall :=
  match unzippedFiles !! filename with
  | Some (Readable content) => [c content]
  | _ => []
  end.

(** The objects rebuilt up to the loading of the primary bootstrap key. *)
Record Reconstructed : Type := {
  r_cryptoContext : Obj;
  r_publicKey : Obj;
  r_secretKey : Obj;
  r_FHEWtoCKKSSwitchKey : Obj;
  r_binFHECryptoContext : Obj;
  r_BTKey : RingGSWBTKey
}.

(** The mandatory entries read before the key indices are present and the
    engine accepts them as the objects [o]. *)
Definition mandatory_accepted (m : OpenFHEModule)
    (unzippedFiles : gmap string ZipObject) (ser : SerType) (o : Reconstructed) : Prop :=
  entry_accepted unzippedFiles ser cryptoContextFile
    (DeserializeCryptoContextFromBuffer m) (r_cryptoContext o)
  /\ entry_accepted unzippedFiles ser pubKeyFile
       (DeserializePublicKeyFromBuffer m) (r_publicKey o)
  /\ entry_accepted unzippedFiles ser secretKeyFile
       (DeserializePrivateKeyFromBuffer m) (r_secretKey o)
  /\ entry_accepted unzippedFiles ser FHEWtoCKKSSwitchKeyFile
       (DeserializeSwkFC m) (r_FHEWtoCKKSSwitchKey o)
  /\ SetSwkFC m (r_cryptoContext o) (r_FHEWtoCKKSSwitchKey o) = Ok tt
  /\ entry_accepted unzippedFiles ser binFHECryptoContextFile
       (DeserializeBinFHECryptoContextFromBuffer m) (r_binFHECryptoContext o)
  /\ entry_accepted unzippedFiles ser binFHEBootRefreshKeyFile
       (DeserializeBinFHERefreshKeyFromBuffer m) (BSkey (r_BTKey o))
  /\ entry_accepted unzippedFiles ser binFHEBootRotKeyFile
       (DeserializeBinFHESwitchingKeyFromBuffer m) (KSkey (r_BTKey o))
  /\ BTKeyLoad m (r_binFHECryptoContext o) (r_BTKey o) = Ok tt.

(** The optional evaluation keys are missing or install cleanly. *)
Definition optionals_accepted (m : OpenFHEModule)
    (unzippedFiles : gmap string ZipObject) (ser : SerType) (o : Reconstructed) : Prop :=
  optional_accepted unzippedFiles multKeyFile
    (fun buf => DeserializeEvalMultKeyFromBuffer m (r_cryptoContext o) buf ser)
  /\ optional_accepted unzippedFiles rotKeyFile
       (fun buf => DeserializeEvalAutomorphismKeyFromBuffer m (r_cryptoContext o) buf ser).

(** Both entries of the pair of [index] are present and accepted as
    [key], and the engine loads it. *)
Definition pair_accepted (m : OpenFHEModule) (unzippedFiles : gmap string ZipObject)
    (ser : SerType) (bincc : Obj) (index : N) (key : RingGSWBTKey) : Prop :=
  entry_accepted unzippedFiles ser
    (createMapFileNameDeserialize index baseRefreshKeyFile)
    (DeserializeBinFHERefreshKeyFromBuffer m) (BSkey key)
  /\ entry_accepted unzippedFiles ser
       (createMapFileNameDeserialize index baseSwitchingKeyFile)
       (DeserializeBinFHESwitchingKeyFromBuffer m) (KSkey key)
  /\ BTKeyMapLoadSingleElement m bincc index key = Ok tt.

(** The fields of the deserializer once the objects [o] are assigned. *)
Definition with_reconstructed (o : Reconstructed) (obj : DataAndLocation.t)
  : DataAndLocation.t :=
  set_binFHECryptoContext (Some (r_binFHECryptoContext o))
    (set_FHEWtoCKKSSwitchKey (Some (r_FHEWtoCKKSSwitchKey o))
      (set_secretKey (Some (r_secretKey o))
        (set_publicKey (Some (r_publicKey o))
          (set_cryptoContext (Some (r_cryptoContext o)) obj)))).

(** The engine calls made up to the loading of the primary bootstrap key. *)
Definition primary_calls (unzippedFiles : gmap string ZipObject) (o : Reconstructed)
  : list EngineCall :=
  optional_calls unzippedFiles multKeyFile
    (CallDeserializeEvalMultKey (r_cryptoContext o))
  ++ optional_calls unzippedFiles rotKeyFile
       (CallDeserializeEvalAutomorphismKey (r_cryptoContext o))
  ++ [ CallSetSwkFC (r_cryptoContext o) (r_FHEWtoCKKSSwitchKey o);
       CallBTKeyLoad (r_binFHECryptoContext o) (r_BTKey o) ].

End SchemeSwitchingDataDeserializer.

(** ** [stringToInt] and [intToString] *)

(** The numbers these helpers exchange: integers and [NaN]. *)
Inductive Num : Type :=
| NaN
| Int (z : Z).

(** [s.charCodeAt(pos)] *)
Definition charCodeAt (s : JsString) (pos : nat) : Num :=
  match s !! pos with
  | Some c => Int (Z.of_N c)
  | None => NaN
  end.

(** [String.fromCharCode(num)]: [ToUint16] of the number, as a one-unit
    string. *)
Definition fromCharCode (num : Num) : JsString :=
  match num with
  | NaN => [0%N]
  | Int z => [Z.to_N (z mod 65536)]
  end.

(** [s.split('')]: one string per code unit. *)
Definition split_empty (s : JsString) : list JsString := map (fun c => [c]) s.

(** [arr.join('')] *)
Definition join_empty (l : list JsString) : JsString := concat l.

Definition stringToInt (inputString : JsString) : list Num :=
  map (fun char => charCodeAt char 0) (split_empty inputString).

Definition intToString (intList : list Num) : JsString :=
  let charArray := map (fun num => fromCharCode num) intList in
  join_empty charArray.

(** ** A small engine and archive to run the services on *)

Module Sample.

(** An engine whose buffers are one byte naming the kind of object, whose
    index lists are one byte per index, and whose bootstrap map has the
    given indices.  [publicKey_exports] tells whether the public key can be
    exported. *)
Definition engine (publicKey_exports : bool) (indices : list N) : OpenFHEModule :=
  {| SerializeCryptoContextToBuffer := fun _ _ => Ok (Some [x01]);
     SerializePublicKeyToBuffer := fun _ _ =>
       Ok (if publicKey_exports then Some [x02] else None);
     SerializePrivateKeyToBuffer := fun _ _ => Ok (Some [x03]);
     SerializeEvalMultKeyToBuffer := fun _ _ => Ok (Some [x04]);
     SerializeEvalAutomorphismKeyToBuffer := fun _ _ => Ok (Some [x05]);
     SerializeSwkFC := fun _ _ => Ok (Some [x06]);
     SerializeBinFHECryptoContextToBuffer := fun _ _ => Ok (Some [x07]);
     SerializeBinFHERefreshKeyToBuffer := fun _ _ => Ok (Some [x08]);
     SerializeBinFHESwitchingKeyToBuffer := fun _ _ => Ok (Some [x09]);
     SerializeSeedSeqVector := fun vec _ =>
       Ok (Some (List.map (fun index => default x00 (Byte.of_N index)) vec));
     GetRefreshKey := fun _ => 8%N;
     GetSwitchKey := fun _ => 9%N;
     GetBTKeyMap := fun _ =>
       {| keys := indices;
          get_pair := fun index => {| BSkey := (100 + index)%N;
                                      KSkey := (200 + index)%N |} |};
     DeserializeCryptoContextFromBuffer := fun buf _ =>
       Ok (match buf with [x01] => Some 1%N | _ => None end);
     DeserializePublicKeyFromBuffer := fun buf _ =>
       Ok (match buf with [x02] => Some 2%N | _ => None end);
     DeserializePrivateKeyFromBuffer := fun buf _ =>
       Ok (match buf with [x03] => Some 3%N | _ => None end);
     DeserializeSwkFC := fun buf _ =>
       Ok (match buf with [x06] => Some 6%N | _ => None end);
     DeserializeBinFHECryptoContextFromBuffer := fun buf _ =>
       Ok (match buf with [x07] => Some 7%N | _ => None end);
     DeserializeBinFHERefreshKeyFromBuffer := fun buf _ =>
       Ok (match buf with [x08] => Some 8%N | _ => None end);
     DeserializeBinFHESwitchingKeyFromBuffer := fun buf _ =>
       Ok (match buf with [x09] => Some 9%N | _ => None end);
     DeserializeSeedSeqVector := fun buf _ => Ok (Some (List.map Byte.to_N buf));
     DeserializeEvalMultKeyFromBuffer := fun _ _ _ => Ok true;
     DeserializeEvalAutomorphismKeyFromBuffer := fun _ _ _ => Ok true;
     SetSwkFC := fun _ _ => Ok tt;
     BTKeyLoad := fun _ _ => Ok tt;
     BTKeyMapLoadSingleElement := fun _ _ _ => Ok tt;
     SetBinCCForSchemeSwitch := fun _ _ => Ok tt;
     getExceptionMessage := fun _ => "engine exception" |}.

(** A serializer holding its five objects and the engine. *)
Definition serializer (publicKey_exports : bool) (indices : list N) : DataAndLocation.t :=
  {| cryptoContext := Some 1%N; publicKey := Some 2%N; secretKey := Some 3%N;
     binFHECryptoContext := Some 7%N; FHEWtoCKKSSwitchKey := Some 6%N;
     dataDirectory := lit "demoData";
     module := Some (engine publicKey_exports indices);
     SERTYPE := BINARY;
     buffers := initial_buffers |}.

(** The same engine, except that it exports the public key as a buffer of
    length zero. *)
Definition engine_empty_publicKey (indices : list N) : OpenFHEModule :=
  let e := engine true indices in
  {| SerializeCryptoContextToBuffer := SerializeCryptoContextToBuffer e;
     SerializePublicKeyToBuffer := fun _ _ => Ok (Some []);
     SerializePrivateKeyToBuffer := SerializePrivateKeyToBuffer e;
     SerializeEvalMultKeyToBuffer := SerializeEvalMultKeyToBuffer e;
     SerializeEvalAutomorphismKeyToBuffer := SerializeEvalAutomorphismKeyToBuffer e;
     SerializeSwkFC := SerializeSwkFC e;
     SerializeBinFHECryptoContextToBuffer := SerializeBinFHECryptoContextToBuffer e;
     SerializeBinFHERefreshKeyToBuffer := SerializeBinFHERefreshKeyToBuffer e;
     SerializeBinFHESwitchingKeyToBuffer := SerializeBinFHESwitchingKeyToBuffer e;
     SerializeSeedSeqVector := SerializeSeedSeqVector e;
     GetRefreshKey := GetRefreshKey e;
     GetSwitchKey := GetSwitchKey e;
     GetBTKeyMap := GetBTKeyMap e;
     DeserializeCryptoContextFromBuffer := DeserializeCryptoContextFromBuffer e;
     DeserializePublicKeyFromBuffer := DeserializePublicKeyFromBuffer e;
     DeserializePrivateKeyFromBuffer := DeserializePrivateKeyFromBuffer e;
     DeserializeSwkFC := DeserializeSwkFC e;
     DeserializeBinFHECryptoContextFromBuffer :=
       DeserializeBinFHECryptoContextFromBuffer e;
     DeserializeBinFHERefreshKeyFromBuffer := DeserializeBinFHERefreshKeyFromBuffer e;
     DeserializeBinFHESwitchingKeyFromBuffer :=
       DeserializeBinFHESwitchingKeyFromBuffer e;
     DeserializeSeedSeqVector := DeserializeSeedSeqVector e;
     DeserializeEvalMultKeyFromBuffer := DeserializeEvalMultKeyFromBuffer e;
     DeserializeEvalAutomorphismKeyFromBuffer :=
       DeserializeEvalAutomorphismKeyFromBuffer e;
     SetSwkFC := SetSwkFC e;
     BTKeyLoad := BTKeyLoad e;
     BTKeyMapLoadSingleElement := BTKeyMapLoadSingleElement e;
     SetBinCCForSchemeSwitch := SetBinCCForSchemeSwitch e;
     getExceptionMessage := getExceptionMessage e |}.

(** A serializer on that engine. *)
Definition serializer_empty_publicKey (indices : list N) : DataAndLocation.t :=
  {| cryptoContext := Some 1%N; publicKey := Some 2%N; secretKey := Some 3%N;
     binFHECryptoContext := Some 7%N; FHEWtoCKKSSwitchKey := Some 6%N;
     dataDirectory := lit "demoData";
     module := Some (engine_empty_publicKey indices);
     SERTYPE := BINARY;
     buffers := initial_buffers |}.

(** A deserializer as its constructor leaves it, before any call. *)
Definition deserializer (indices : list N) : SchemeSwitchingDataDeserializer.World :=
  {| SchemeSwitchingDataDeserializer.this :=
       {| cryptoContext := None; publicKey := None; secretKey := None;
          binFHECryptoContext := None; FHEWtoCKKSSwitchKey := None;
          dataDirectory := lit "demoData";
          module := Some (engine true indices);
          SERTYPE := BINARY;
          buffers := initial_buffers |};
     SchemeSwitchingDataDeserializer.engine_calls := [] |}.

(** The archive of a bundle with the given key indices and the bootstrap
    pairs of the indices in [pairs], without the multiplication key. *)
Definition archive (key_indices : Buffer) (pairs : list N) : gmap string ZipObject :=
  list_to_map
    ([ (cryptoContextFile, Readable [x01]);
       (pubKeyFile, Readable [x02]);
       (secretKeyFile, Readable [x03]);
       (rotKeyFile, Readable [x05]);
       (FHEWtoCKKSSwitchKeyFile, Readable [x06]);
       (binFHECryptoContextFile, Readable [x07]);
       (binFHEBootRefreshKeyFile, Readable [x08]);
       (binFHEBootRotKeyFile, Readable [x09]);
       (keyIndexFile, Readable key_indices) ]
     ++ flat_map (fun index =>
          [ (SchemeSwitchingDataDeserializer.createMapFileNameDeserialize
               index baseRefreshKeyFile, Readable [x08]);
            (SchemeSwitchingDataDeserializer.createMapFileNameDeserialize
               index baseSwitchingKeyFile, Readable [x09]) ]) pairs).

(** The objects the example engine rebuilds from that archive. *)
Definition rebuilt : SchemeSwitchingDataDeserializer.Reconstructed :=
  {| SchemeSwitchingDataDeserializer.r_cryptoContext := 1%N;
     SchemeSwitchingDataDeserializer.r_publicKey := 2%N;
     SchemeSwitchingDataDeserializer.r_secretKey := 3%N;
     SchemeSwitchingDataDeserializer.r_FHEWtoCKKSSwitchKey := 6%N;
     SchemeSwitchingDataDeserializer.r_binFHECryptoContext := 7%N;
     SchemeSwitchingDataDeserializer.r_BTKey := {| BSkey := 8%N; KSkey := 9%N |} |}.

End Sample.

(** ** More of the chunked transfer *)

Module Download.
Import SchemeSwitchingDataSerializer.

(** The bytes of the filled slots of [chunks], in index order. *)
Definition filled_bytes (chunks : ChunkArray) : Buffer :=
  concat (omap id chunks).

(** A message a worker sends for a transfer of [totalChunks] chunks when no
    error occurs: a chunk for one of the slots, or a message the handler
    ignores. *)
Definition chunk_of (totalChunks : nat) (data : WorkerMessage) : Prop :=
  match data with
  | fileChunk _ index total => total = totalChunks /\ index < totalChunks
  | fileCreated | otherMessage => True
  | error _ => False
  end.

(** [createDownloadableFileViaWorker]: the promise it returns, once the
    worker has posted [msgs] in answer to the [createFile] request.  A [null]
    worker is [None]. *)
Definition createDownloadableFileViaWorker (workRef : option (list WorkerMessage))
  : Promise :=
  match workRef with
  | Some msgs => promise (deliver msgs)
  | None => Rejected (Error "Worker not available")
  end.

(** [downloadFileViaWorker]: what [await] and the [try]/[catch] make of that
    promise.  [None]: the promise is still pending and the call has not
    returned.  [saveAs] is the function of [file-saver]; like the rejection
    of the promise, a throw of [saveAs] is caught and replaced. *)
Definition downloadFileViaWorker (saveAs : Buffer -> JsString -> Outcome unit)
    (workRef : option (list WorkerMessage)) (fileName : JsString)
  : option (Outcome unit) :=
  match createDownloadableFileViaWorker workRef with
  | Pending => None
  | Resolved byteArray =>
      match saveAs byteArray fileName with
      | Ok _ => Some (Ok tt)
      | Throw _ => Some (Throw (Error "Error creating downloadable"))
      end
  | Rejected _ => Some (Throw (Error "Error creating downloadable"))
  end.

End Download.

(** ** Decimal digits in entry names *)

(** An ASCII decimal digit. *)
Definition is_digit (a : ascii) : bool :=
  (48 <=? nat_of_ascii a) && (nat_of_ascii a <=? 57).

Fixpoint all_digits (s : string) : bool :=
  match s with
  | EmptyString => true
  | String a rest => is_digit a && all_digits rest
  end.

(** ** What a method leaves alone *)

(** Every run of [c] from a state satisfying [P] ends, normally or with a
    throw, in a state satisfying [P]. *)
Definition preserves {S A} (P : S -> Prop) (c : M S A) : Prop :=
  forall s r s', P s -> c s = (r, s') -> P s'.

(** The parts of an object that are not its buffers. *)
Definition same_objects (a b : DataAndLocation.t) : Prop :=
  cryptoContext a = cryptoContext b
  /\ publicKey a = publicKey b
  /\ secretKey a = secretKey b
  /\ binFHECryptoContext a = binFHECryptoContext b
  /\ FHEWtoCKKSSwitchKey a = FHEWtoCKKSSwitchKey b
  /\ dataDirectory a = dataDirectory b
  /\ module a = module b
  /\ SERTYPE a = SERTYPE b.

(** The parts of a deserializer that are not the five rebuilt objects. *)
Definition same_settings (a b : DataAndLocation.t) : Prop :=
  dataDirectory a = dataDirectory b
  /\ module a = module b
  /\ SERTYPE a = SERTYPE b
  /\ buffers a = buffers b.

(** The settings of the deserializer are those of [w0], and the engine has
    seen the calls of [w0] and possibly more. *)
Definition extends (w0 w : SchemeSwitchingDataDeserializer.World) : Prop :=
  same_settings (SchemeSwitchingDataDeserializer.this w0)
                (SchemeSwitchingDataDeserializer.this w)
  /\ exists calls,
       SchemeSwitchingDataDeserializer.engine_calls w
       = SchemeSwitchingDataDeserializer.engine_calls w0 ++ calls.

(** ** A bundle the engine can read back *)

(** The buffer is present and the engine turns it into the object [v]. *)
Definition buffer_accepted {A} (buffer : option Buffer) (ser : SerType)
    (deserializeFunc : Buffer -> SerType -> Outcome (option A)) (v : A) : Prop :=
  exists content, buffer = Some content /\ deserializeFunc content ser = Ok (Some v).

(** The engine [m] reads the top-level buffers of [b] back as the objects
    [o] and installs them without throwing. *)
Definition bundle_accepted (m : OpenFHEModule) (ser : SerType)
    (b : CryptoContextBuffers) (o : SchemeSwitchingDataDeserializer.Reconstructed)
  : Prop :=
  let cc := SchemeSwitchingDataDeserializer.r_cryptoContext o in
  let bincc := SchemeSwitchingDataDeserializer.r_binFHECryptoContext o in
  buffer_accepted (cryptoContextBuffer b) ser (DeserializeCryptoContextFromBuffer m) cc
  /\ buffer_accepted (publicKeyBuffer b) ser (DeserializePublicKeyFromBuffer m)
       (SchemeSwitchingDataDeserializer.r_publicKey o)
  /\ buffer_accepted (secretKeyBuffer b) ser (DeserializePrivateKeyFromBuffer m)
       (SchemeSwitchingDataDeserializer.r_secretKey o)
  /\ (forall buf, evalMultKeyBuffer b = Some buf ->
        exists r, DeserializeEvalMultKeyFromBuffer m cc buf ser = Ok r)
  /\ (forall buf, automorphismKeyBuffer b = Some buf ->
        exists r, DeserializeEvalAutomorphismKeyFromBuffer m cc buf ser = Ok r)
  /\ buffer_accepted (FHEWtoCKKSSwitchKeyBuffer b) ser (DeserializeSwkFC m)
       (SchemeSwitchingDataDeserializer.r_FHEWtoCKKSSwitchKey o)
  /\ SetSwkFC m cc (SchemeSwitchingDataDeserializer.r_FHEWtoCKKSSwitchKey o) = Ok tt
  /\ buffer_accepted (binfheCryptoContextBuffer b) ser
       (DeserializeBinFHECryptoContextFromBuffer m) bincc
  /\ buffer_accepted (binFHEBootRefreshKeyBuffer b) ser
       (DeserializeBinFHERefreshKeyFromBuffer m)
       (BSkey (SchemeSwitchingDataDeserializer.r_BTKey o))
  /\ buffer_accepted (binFHEBootRotKeyBuffer b) ser
       (DeserializeBinFHESwitchingKeyFromBuffer m)
       (KSkey (SchemeSwitchingDataDeserializer.r_BTKey o))
  /\ BTKeyLoad m bincc (SchemeSwitchingDataDeserializer.r_BTKey o) = Ok tt
  /\ SetBinCCForSchemeSwitch m cc bincc = Ok tt.

(** The engine reads the two buffers of a key mapping back as the pair
    [key] and loads it at the index of the mapping. *)
Definition mapping_accepted (m : OpenFHEModule) (ser : SerType) (bincc : Obj)
    (mapping : KeyMapping) (key : RingGSWBTKey) : Prop :=
  DeserializeBinFHERefreshKeyFromBuffer m (mapping_BSkey mapping) ser = Ok (Some (BSkey key))
  /\ DeserializeBinFHESwitchingKeyFromBuffer m (mapping_KSkey mapping) ser
     = Ok (Some (KSkey key))
  /\ BTKeyMapLoadSingleElement m bincc (mapping_key mapping) key = Ok tt.

(** ** The constructor of the serializer *)

Module Construction.

(** The two getters of a crypto-context object that the constructor of the
    serializer calls: each answers with an engine object or with [null],
    or throws. *)
Record CryptoContextGetters : Type := {
  GetSwkFC : Obj -> Outcome (option Obj);
  GetBinCCForSchemeSwitch : Obj -> Outcome (option Obj)
}.

(** [this.module = v] *)
Definition set_module v '(Build_t a b c d e f _ h i) := Build_t a b c d e f v h i.

(** [cryptoContext0 ? cryptoContext0.getter() : null] *)
Definition get_or_null (getter : Obj -> Outcome (option Obj))
    (cryptoContext0 : option Obj) : M DataAndLocation.t (option Obj) :=
  match cryptoContext0 with
  | Some cc => call (getter cc)
  | None => mret None
  end.

(** The body of the constructor of [SchemeSwitchingDataSerializer], run on
    the object the field initialisers made. *)
Definition serializer_constructor (getters : CryptoContextGetters)
    (cryptoContext0 publicKey0 privateKey0 : option Obj) : M DataAndLocation.t unit :=
  _ ← modify (set_cryptoContext cryptoContext0);
  _ ← modify (set_publicKey publicKey0);
  _ ← modify (set_secretKey privateKey0);
  bincc ← get_or_null (GetBinCCForSchemeSwitch getters) cryptoContext0;
  _ ← modify (set_binFHECryptoContext bincc);
  swk ← get_or_null (GetSwkFC getters) cryptoContext0;
  modify (set_FHEWtoCKKSSwitchKey swk).

(** [new SchemeSwitchingDataSerializer(cryptoContext0, publicKey0, privateKey0)]:
    the new object, unless a getter threw.  [SERTYPE] has no initialiser;
    [ser] is the value it is given from outside. *)
Definition new_serializer (getters : CryptoContextGetters) (ser : SerType)
    (cryptoContext0 publicKey0 privateKey0 : option Obj) : Outcome DataAndLocation.t :=
  match serializer_constructor getters cryptoContext0 publicKey0 privateKey0
          (fresh ser) with
  | (Ok _, this) => Ok this
  | (Throw e, _) => Throw e
  end.

End Construction.

(** ** [writeBuffersToFile]: the bundle as files in the data directory *)

Module DiskExport.
Import SchemeSwitchingDataSerializer.

(** The [fs] object handed to [writeBuffersToFile]: a write succeeds or
    throws. *)
Record FileSystem : Type := {
  writeFileSync : JsString -> Buffer -> Outcome unit
}.

(** The writes that have completed, oldest first: path and content. *)
Definition Written : Type := list (JsString * Buffer).

(** [fs.writeFileSync(path, buffer)] *)
Definition write (fs : FileSystem) (path : JsString) (buffer : Buffer) : M Written unit :=
  _ ← call (writeFileSync fs path buffer);
  modify (fun written => written ++ [(path, buffer)]).

(** [createMapFileName]: [`${this.dataDirectory}/${index}_${baseFileName}`] *)
Definition createMapFileName (this : DataAndLocation.t) (index : N)
    (baseFileName : string) : JsString :=
  dataDirectory this ++ [slash] ++ lit (pretty index) ++ lit "_" ++ lit baseFileName.

(** The closure [writeToFile]:
    [if (buffer && fileName) fs.writeFileSync(`${this.dataDirectory}/${fileName}`, buffer)] *)
Definition writeToFile (fs : FileSystem) (this : DataAndLocation.t)
    (buffer : option Buffer) (fileName : string) : M Written unit :=
  match buffer with
  | Some b =>
      if decide (fileName = "") then mret tt
      else write fs (dataDirectory this ++ [slash] ++ lit fileName) b
  | None => mret tt
  end.

(** The closure [writeKeyMappingToFile], on one element of
    [EvalKeyMappings]. *)
Definition writeKeyMappingToFile (fs : FileSystem) (this : DataAndLocation.t)
    (mapping : KeyMapping) : M Written unit :=
  let bskeyFileName := createMapFileName this (mapping_key mapping) baseRefreshKeyFile in
  let kskeyFileName := createMapFileName this (mapping_key mapping) baseSwitchingKeyFile in
  _ ← write fs bskeyFileName (mapping_BSkey mapping);
  write fs kskeyFileName (mapping_KSkey mapping).

(** [array.forEach(f)] with a callback that may throw. *)
Fixpoint forEach {S A} (f : A -> M S unit) (l : list A) : M S unit :=
  match l with
  | [] => mret tt
  | x :: rest => _ ← f x; forEach f rest
  end.

Definition writeBuffersToFile (fs : FileSystem) (this : DataAndLocation.t)
  : M Written unit :=
  let b := buffers this in
  _ ← writeToFile fs this (cryptoContextBuffer b) cryptoContextFile;
  _ ← writeToFile fs this (publicKeyBuffer b) pubKeyFile;
  _ ← writeToFile fs this (evalMultKeyBuffer b) multKeyFile;
  _ ← writeToFile fs this (automorphismKeyBuffer b) rotKeyFile;
  _ ← writeToFile fs this (FHEWtoCKKSSwitchKeyBuffer b) FHEWtoCKKSSwitchKeyFile;
  _ ← writeToFile fs this (binfheCryptoContextBuffer b) binFHECryptoContextFile;
  _ ← writeToFile fs this (binFHEBootRefreshKeyBuffer b) binFHEBootRefreshKeyFile;
  _ ← writeToFile fs this (binFHEBootRotKeyBuffer b) binFHEBootRotKeyFile;
  _ ← writeToFile fs this (keyIndexBuffer b) keyIndexFile;
  forEach (writeKeyMappingToFile fs this) (EvalKeyMappings b).

(** The path of the file [name] in the data directory. *)
Definition path_of (this : DataAndLocation.t) (name : string) : JsString :=
  dataDirectory this ++ [slash] ++ lit name.

(** The writes made since [written0] all satisfy [ok]. *)
Definition wrote_only (ok : JsString * Buffer -> Prop) (written0 written : Written)
  : Prop :=
  exists new, written = written0 ++ new /\ Forall ok new.

End DiskExport.

(** ** Padding a vector to the number of slots *)

(** Arithmetic on the numbers of this model.  An integer stands for an
    integer-valued number; past [2^53] the language rounds a difference, by
    too little to carry it across [0] or across the largest array length. *)
Definition Num_sub (a b : Num) : Num :=
  match a, b with
  | Int x, Int y => Int (x - y)
  | _, _ => NaN
  end.

(** [Math.max(a, b)] *)
Definition Math_max (a b : Num) : Num :=
  match a, b with
  | Int x, Int y => Int (Z.max x y)
  | _, _ => NaN
  end.

(** [ToLength] of the [length] property of an array-like. *)
Definition ToLength (n : Num) : Z :=
  match n with
  | NaN => 0
  | Int z => Z.min (Z.max z 0) (2 ^ 53 - 1)
  end.

(** The largest length an array can have. *)
Definition max_array_length : Z := 2 ^ 32 - 1.

Definition RangeError (message : string) : Thrown := ErrorObj "RangeError" message.

(** [Array.from({length}).fill(v)] *)
Definition Array_from_length_fill (length : Num) (v : Num) : Outcome (list Num) :=
  let len := ToLength length in
  if decide (len <= max_array_length)%Z then Ok (replicate (Z.to_nat len) v)
  else Throw (RangeError "Invalid array length").

(** [a.concat(b)] *)
Definition Array_concat (a b : list Num) : Outcome (list Num) :=
  if decide (Z.of_nat (length a + length b) <= max_array_length)%Z then Ok (a ++ b)
  else Throw (RangeError "Invalid array length").

Definition padArray (inputVal : list Num) (slots : Num) : Outcome (list Num) :=
  let paddingLength := Num_sub slots (Int (Z.of_nat (length inputVal))) in
  match Array_from_length_fill (Math_max paddingLength (Int 0)) (Int 0) with
  | Ok zeros => Array_concat zeros inputVal
  | Throw e => Throw e
  end.



(** [ToUint16], which [String.fromCharCode] applies to its argument. *)
Definition ToUint16 (num : Num) : Num :=
  match num with
  | NaN => Int 0
  | Int z => Int (z mod 65536)
  end.

(** The number is the code of a UTF-16 unit. *)
Definition is_code_unit (num : Num) : Prop :=
  match num with
  | NaN => False
  | Int z => (0 <= z < 65536)%Z
  end.

(** ** The class [OpenFHE] *)

Module OpenFHE.

Inductive ScalingTechnique : Type := FIXEDAUTO | FLEXIBLEAUTOEXT.
Inductive SecurityLevel : Type := HEStd_NotSet.
Inductive BINFHEParamSet : Type := TOY.

(** A key pair object, with its two properties. *)
Record KeyPair : Type := { kp_publicKey : Obj; kp_secretKey : Obj }.

(** What the class reads from [this.openFHEModule]: the values of the
    engine's enumerations, its two constructors and its decoder of thrown
    numbers. *)
Record Module_ : Type := {
  ScalingTechnique_FIXEDAUTO : Obj;
  ScalingTechnique_FLEXIBLEAUTOEXT : Obj;
  SecurityLevel_HEStd_NotSet : Obj;
  SecretKeyDist_UNIFORM_TERNARY : Obj;
  KeySwitchTechnique_HYBRID : Obj;
  PKESchemeFeature_PKE : Obj;
  PKESchemeFeature_KEYSWITCH : Obj;
  PKESchemeFeature_LEVELEDSHE : Obj;
  PKESchemeFeature_ADVANCEDSHE : Obj;
  PKESchemeFeature_SCHEMESWITCH : Obj;
  PKESchemeFeature_PRE : Obj;
  new_CCParamsCryptoContextCKKSRNS : Outcome Obj;
  new_GenCryptoContextCKKS : Obj -> Outcome Obj;
  getExceptionMessage : Z -> string
}.

(** The calls the class makes on engine objects; the first argument of a
    method is its receiver. *)
Inductive Call : Type :=
| NewCCParams
| SetMultiplicativeDepth (parameters : Obj) (v : Num)
| SetScalingModSize (parameters : Obj) (v : Num)
| SetFirstModSize (parameters : Obj) (v : Num)
| SetScalingTechnique (parameters : Obj) (v : Obj)
| SetSecurityLevel (parameters : Obj) (v : Obj)
| SetRingDim (parameters : Obj) (v : Num)
| SetBatchSize (parameters : Obj) (v : Num)
| SetSecretKeyDist (parameters : Obj) (v : Obj)
| SetKeySwitchTechnique (parameters : Obj) (v : Obj)
| SetNumLargeDigits (parameters : Obj) (v : Num)
| GenCryptoContextCKKS (parameters : Obj)
| Enable (cc : Obj) (feature : Obj)
| GetRingDimension (cc : Obj)
| KeyGen (cc : Obj)
| EvalSumKeyGen (cc : Obj) (secretKey : Obj)
| EvalMultKeyGen (cc : Obj) (secretKey : Obj).

(** How the engine's objects answer: a method called for its effect returns
    or throws; [KeyGen] answers with a key pair, [GetRingDimension] with a
    number. *)
Record Objects : Type := {
  perform : Call -> Outcome unit;
  answer_KeyGen : Obj -> Outcome KeyPair;
  answer_GetRingDimension : Obj -> Outcome Num
}.

Record Fields : Type := {
  scTech : ScalingTechnique;
  multDepth : Num;
  scaleModSize : Num;
  firstModSize : Num;
  ringDim : Num;
  sl : SecurityLevel;
  slBin : BINFHEParamSet;
  logQ_ccLWE : Num;
  slots : Num;
  batchSize : Num;
  sertype : SerType;
  openFHEModule : option Module_;
  cc : option Obj;
  keys : option KeyPair
}.

Definition set_openFHEModule v '(Build_Fields a b c d e f g h i j k _ m n) :=
  Build_Fields a b c d e f g h i j k v m n.
Definition set_cc v '(Build_Fields a b c d e f g h i j k l _ n) :=
  Build_Fields a b c d e f g h i j k l v n.

(** The object the field initialisers make; [batchSize = this.slots] reads
    the initial value of [slots]. *)
Definition initial : Fields :=
  let slots0 := Int 32 in
  {| scTech := FIXEDAUTO; multDepth := Int 17; scaleModSize := Int 50;
     firstModSize := Int 57; ringDim := Int 4096; sl := HEStd_NotSet;
     slBin := TOY; logQ_ccLWE := Int 25; slots := slots0; batchSize := slots0;
     sertype := BINARY; openFHEModule := None; cc := None; keys := None |}.

(** Truthiness of a number: [0] and [NaN] are falsy. *)
Definition truthy (n : Num) : bool :=
  match n with
  | NaN => false
  | Int z => negb (z =? 0)%Z
  end.

(** [if (x) this.x = x] for a number; [None] is an argument left out. *)
Definition override_number (given : option Num) (current : Num) : Num :=
  match given with
  | Some n => if truthy n then n else current
  | None => current
  end.

(** The same for a value of an enumeration, a non-empty string. *)
Definition override {A} (given : option A) (current : A) : A :=
  match given with
  | Some v => v
  | None => current
  end.

Definition constructor
    (scTech0 : option ScalingTechnique) (multDepth0 scaleModSize0 firstModSize0
                                           ringDim0 : option Num)
    (sl0 : option SecurityLevel) (slBin0 : option BINFHEParamSet)
    (logQ_ccLWE0 slots0 batchSize0 : option Num) (sertype0 : option SerType) : Fields :=
  {| scTech := override scTech0 (scTech initial);
     multDepth := override_number multDepth0 (multDepth initial);
     scaleModSize := override_number scaleModSize0 (scaleModSize initial);
     firstModSize := override_number firstModSize0 (firstModSize initial);
     ringDim := override_number ringDim0 (ringDim initial);
     sl := override sl0 (sl initial);
     slBin := override slBin0 (slBin initial);
     logQ_ccLWE := override_number logQ_ccLWE0 (logQ_ccLWE initial);
     slots := override_number slots0 (slots initial);
     batchSize := override_number batchSize0 (batchSize initial);
     sertype := override sertype0 (sertype initial);
     openFHEModule := None; cc := None; keys := None |}.

(** The object together with the calls made on engine objects. *)
Record State : Type := {
  this : Fields;
  calls : list Call
}.

Definition update (f : Fields -> Fields) : M State unit :=
  modify (fun w => {| this := f (this w); calls := calls w |}).

(** A call: recorded, then answered. *)
Definition engine_call {A} (c : Call) (r : Outcome A) : M State A :=
  _ ← modify (fun w => {| this := this w; calls := calls w ++ [c] |});
  call r.

(** [initializeOpenFHE]: the promise of the module loader settles with the
    module or rejects. *)
Definition initializeOpenFHE (loaded : Outcome Module_) : M State unit :=
  m ← call loaded;
  update (set_openFHEModule (Some m)).

(** [this.getScalingTechniques()[name]] *)
Definition getScalingTechniques (m : Module_) (name : ScalingTechnique) : Obj :=
  match name with
  | FIXEDAUTO => ScalingTechnique_FIXEDAUTO m
  | FLEXIBLEAUTOEXT => ScalingTechnique_FLEXIBLEAUTOEXT m
  end.

(** [this.getSecurityLevels()[name]] *)
Definition getSecurityLevels (m : Module_) (name : SecurityLevel) : Obj :=
  match name with
  | HEStd_NotSet => SecurityLevel_HEStd_NotSet m
  end.

(** [n += 1] *)
Definition add_one (n : Num) : Num :=
  match n with
  | NaN => NaN
  | Int z => Int (z + 1)
  end.

(** The [catch] blocks of the class: a thrown number is decoded by the
    engine, anything else is turned into a string; a new [Error] is
    thrown. *)
Definition rethrow (m : Module_) (e : Thrown) : M State unit :=
  match e with
  | NumberVal code => throw (Error (getExceptionMessage m code))
  | ErrorObj name message => throw (Error (error_to_string name message))
  end.

(** The [try] block of [initializeCryptoContext]. *)
Definition initializeCryptoContext_body (objs : Objects) (m : Module_) : M State unit :=
  w ← get;
  let o := this w in
  let scTech := getScalingTechniques m (scTech o) in
  let multDepth :=
    if decide (scTech = getScalingTechniques m FLEXIBLEAUTOEXT)
    then add_one (multDepth o) else multDepth o in
  parameters ← engine_call NewCCParams (new_CCParamsCryptoContextCKKSRNS m);
  let set c := engine_call c (perform objs c) in
  _ ← set (SetMultiplicativeDepth parameters multDepth);
  _ ← set (SetScalingModSize parameters (scaleModSize o));
  _ ← set (SetFirstModSize parameters (firstModSize o));
  _ ← set (SetScalingTechnique parameters scTech);
  _ ← set (SetSecurityLevel parameters (getSecurityLevels m (sl o)));
  _ ← set (SetRingDim parameters (ringDim o));
  _ ← set (SetBatchSize parameters (batchSize o));
  _ ← set (SetSecretKeyDist parameters (SecretKeyDist_UNIFORM_TERNARY m));
  _ ← set (SetKeySwitchTechnique parameters (KeySwitchTechnique_HYBRID m));
  _ ← set (SetNumLargeDigits parameters (Int 3));
  context ← engine_call (GenCryptoContextCKKS parameters) (new_GenCryptoContextCKKS m parameters);
  _ ← update (set_cc (Some context));
  _ ← set (Enable context (PKESchemeFeature_PKE m));
  _ ← set (Enable context (PKESchemeFeature_KEYSWITCH m));
  _ ← set (Enable context (PKESchemeFeature_LEVELEDSHE m));
  _ ← set (Enable context (PKESchemeFeature_ADVANCEDSHE m));
  _ ← set (Enable context (PKESchemeFeature_SCHEMESWITCH m));
  _ ← set (Enable context (PKESchemeFeature_PRE m));
  _ ← engine_call (GetRingDimension context) (answer_GetRingDimension objs context);
  mret tt.

Definition initializeCryptoContext (objs : Objects) : M State unit :=
  w ← get;
  match openFHEModule (this w) with
  | None => throw (Error "openFHEModule is not initialized")
  | Some m => try_catch (initializeCryptoContext_body objs m) (rethrow m)
  end.

Definition generateKeyPair (objs : Objects) : M State KeyPair :=
  w ← get;
  match cc (this w) with
  | None => throw (Error "CKKSContext is not initialized")
  | Some context => engine_call (KeyGen context) (answer_KeyGen objs context)
  end.

(** Reading [this.keys.secretKey]. *)
Definition keys_secretKey : M State Obj :=
  w ← get;
  match keys (this w) with
  | None => throw (ErrorObj "TypeError"
                     "Cannot read properties of null (reading 'secretKey')")
  | Some keypair => mret (kp_secretKey keypair)
  end.

Definition generateKey (objs : Objects) : M State unit :=
  w ← get;
  match cc (this w) with
  | None => throw (Error "CKKSContext is not initialized")
  | Some context =>
      _ ← generateKeyPair objs;
      secretKey ← keys_secretKey;
      _ ← engine_call (EvalSumKeyGen context secretKey)
                 (perform objs (EvalSumKeyGen context secretKey));
      secretKey' ← keys_secretKey;
      engine_call (EvalMultKeyGen context secretKey')
             (perform objs (EvalMultKeyGen context secretKey'))
  end.

(** The first three statements of [main] in [encrypt-csv]:
    [new OpenFHE()], [await openFHE.initializeOpenFHE()] and
    [openFHE.initializeCryptoContext()]; [loaded] is how the promise of the
    module loader settles. *)
Definition main_setup (objs : Objects) (loaded : Outcome Module_)
  : Outcome unit * State :=
  (_ ← initializeOpenFHE loaded; initializeCryptoContext objs)
    {| this := constructor None None None None None None None None None None None;
       calls := [] |}.

(** The calls of a successful [initializeCryptoContext] on the object [o]
    with the module [m], the engine making [parameters] and [context]. *)
Definition context_setup (m : Module_) (o : Fields) (parameters context : Obj)
  : list Call :=
  let scTech := getScalingTechniques m (scTech o) in
  [ NewCCParams;
    SetMultiplicativeDepth parameters
      (if decide (scTech = getScalingTechniques m FLEXIBLEAUTOEXT)
       then add_one (multDepth o) else multDepth o);
    SetScalingModSize parameters (scaleModSize o);
    SetFirstModSize parameters (firstModSize o);
    SetScalingTechnique parameters scTech;
    SetSecurityLevel parameters (getSecurityLevels m (sl o));
    SetRingDim parameters (ringDim o);
    SetBatchSize parameters (batchSize o);
    SetSecretKeyDist parameters (SecretKeyDist_UNIFORM_TERNARY m);
    SetKeySwitchTechnique parameters (KeySwitchTechnique_HYBRID m);
    SetNumLargeDigits parameters (Int 3);
    GenCryptoContextCKKS parameters;
    Enable context (PKESchemeFeature_PKE m);
    Enable context (PKESchemeFeature_KEYSWITCH m);
    Enable context (PKESchemeFeature_LEVELEDSHE m);
    Enable context (PKESchemeFeature_ADVANCEDSHE m);
    Enable context (PKESchemeFeature_SCHEMESWITCH m);
    Enable context (PKESchemeFeature_PRE m);
    GetRingDimension context ].

End OpenFHE.

(** ** [deserializeInBackend]: reading a bundle from the data directory *)

Module Backend.

(** What the [try] block throws: a value thrown by the file system or by
    the engine, or the error of the closure [deserializeFile], whose message
    holds the path. *)
Inductive Raised : Type :=
| ThrownValue (e : Thrown)
| DeserializingFrom (filePath : JsString).

(** How a call ends: it returns, or its [catch] block throws a new [Error]
    with this message, or the [catch] block itself fails. *)
Inductive Ending : Type :=
| Returned
| ThrewError (message : JsString)
| Threw (e : Thrown).

(** The closure [deserializeFile] of [deserializeInBackend];
    [readFile] is [fs.promises.readFile]. *)
Definition deserializeFile {A} (readFile : JsString -> Outcome Buffer) (ser : SerType)
    (filePath : JsString) (deserializeFunc : Buffer -> SerType -> Outcome (option A))
  : Raised + A :=
  match readFile filePath with
  | Throw e => inl (ThrownValue e)
  | Ok buffer =>
      match deserializeFunc buffer ser with
      | Throw e => inl (ThrownValue e)
      | Ok None => inl (DeserializingFrom filePath)
      | Ok (Some v) => inr v
      end
  end.

(** [`${this.dataDirectory}/${fileName}`] *)
Definition location (this : DataAndLocation.t) (fileName : string) : JsString :=
  dataDirectory this ++ [slash] ++ lit fileName.

(** The [try] block: what it throws, if anything, and the object it leaves. *)
Definition deserializeInBackend_body (readFile : JsString -> Outcome Buffer)
    (this : DataAndLocation.t) : option Raised * DataAndLocation.t :=
  let ccFileLoc := location this cryptoContextFile in
  match module this with
  | None =>
      (Some (ThrownValue SchemeSwitchingDataDeserializer.null_module), this)
  | Some m =>
      match deserializeFile readFile (SERTYPE this) ccFileLoc
              (DeserializeCryptoContextFromBuffer m) with
      | inl r => (Some r, this)
      | inr cc =>
          let this1 := set_cryptoContext (Some cc) this in
          let pubKeyFileLoc := location this1 pubKeyFile in
          match deserializeFile readFile (SERTYPE this1) pubKeyFileLoc
                  (DeserializePublicKeyFromBuffer m) with
          | inl r => (Some r, this1)
          | inr pk =>
              let this2 := set_publicKey (Some pk) this1 in
              let secretKeyFileLoc := location this2 secretKeyFile in
              match deserializeFile readFile (SERTYPE this2) secretKeyFileLoc
                      (DeserializePrivateKeyFromBuffer m) with
              | inl r => (Some r, this2)
              | inr sk => (None, set_secretKey (Some sk) this2)
              end
          end
      end
  end.

(** The [catch] block: the message of the new [Error] is the engine's
    message for a thrown number and the thrown value as a string
    otherwise. *)
Definition deserializeInBackend_catch (this : DataAndLocation.t) (r : Raised) : Ending :=
  match r with
  | ThrownValue (NumberVal code) =>
      match module this with
      | Some m => ThrewError (lit (getExceptionMessage m code))
      | None => Threw (ErrorObj "TypeError"
                  "Cannot read properties of null (reading 'getExceptionMessage')")
      end
  | ThrownValue (ErrorObj name message) =>
      ThrewError (lit (error_to_string name message))
  | DeserializingFrom filePath =>
      ThrewError (lit "Error: Error deserializing from " ++ filePath)
  end.

Definition deserializeInBackend (readFile : JsString -> Outcome Buffer)
    (this : DataAndLocation.t) : Ending * DataAndLocation.t :=
  match deserializeInBackend_body readFile this with
  | (None, this') => (Returned, this')
  | (Some r, this') => (deserializeInBackend_catch this' r, this')
  end.


End Backend.

(** ** [encrypt-csv]: encrypting the rows of a table *)

Module EncryptCsv.

(** What the row loop calls: the language's [Number] and [isNaN], and the
    four local functions of [main], each of which returns or throws.
    Numbers and keys are left abstract. *)
Record Functions (number Key : Type) : Type := {
  Number : JsString -> number;
  isNaN : number -> bool;
  generateKey : Outcome Key;
  encryptString : JsString -> Key -> Outcome JsString;
  encryptNumber : number -> Key -> Outcome JsString;
  generatePREKey : Key -> Outcome JsString
}.
Arguments Number {number Key}.
Arguments isNaN {number Key}.
Arguments generateKey {number Key}.
Arguments encryptString {number Key}.
Arguments encryptNumber {number Key}.
Arguments generatePREKey {number Key}.

(** A row as [csv-parser] delivers it: an object whose properties are the
    columns, as the list [Object.entries] gives. *)
Definition Row : Type := list (JsString * JsString).

(** [o[key] = v]: an existing property keeps its place, a new one goes
    last. *)
Fixpoint object_set (key v : JsString) (o : Row) : Row :=
  match o with
  | [] => [(key, v)]
  | (k, w) :: rest =>
      if decide (k = key) then (k, v) :: rest else (k, w) :: object_set key v rest
  end.

Definition PRE_key : JsString := lit "PRE_key".

Section Rows.
Context {number Key : Type} (f : Functions number Key).

(** The body of the [for] loop over [Object.entries(row)]. *)
Definition encrypt_entry (skipColumns : list JsString) (encryptionKey : Key)
    (newRow : Row) (entry : JsString * JsString) : Outcome Row :=
  let '(key, value) := entry in
  if decide (key ∈ skipColumns) then Ok newRow
  else if decide (value = []) then Ok newRow
  else if negb (isNaN f (Number f value)) then
    match encryptNumber f (Number f value) encryptionKey with
    | Ok ct => Ok (object_set key ct newRow)
    | Throw e => Throw e
    end
  else
    match encryptString f value encryptionKey with
    | Ok ct => Ok (object_set key ct newRow)
    | Throw e => Throw e
    end.

(** The loop. *)
Fixpoint encrypt_entries (skipColumns : list JsString) (encryptionKey : Key)
    (entries : list (JsString * JsString)) (newRow : Row) : Outcome Row :=
  match entries with
  | [] => Ok newRow
  | entry :: rest =>
      match encrypt_entry skipColumns encryptionKey newRow entry with
      | Ok newRow' => encrypt_entries skipColumns encryptionKey rest newRow'
      | Throw e => Throw e
      end
  end.

(** The function mapped over the rows in [processCSV]. *)
Definition processRow (skipColumns : list JsString) (row : Row) : Outcome Row :=
  match generateKey f with
  | Throw e => Throw e
  | Ok encryptionKey =>
      match encrypt_entries skipColumns encryptionKey row row with
      | Throw e => Throw e
      | Ok newRow =>
          match generatePREKey f encryptionKey with
          | Throw e => Throw e
          | Ok pre => Ok (object_set PRE_key pre newRow)
          end
      end
  end.

(** What becomes of one column of a row. *)
Definition encrypted_value (skipColumns : list JsString) (encryptionKey : Key)
    (key value : JsString) : Outcome JsString :=
  if decide (key ∈ skipColumns) then Ok value
  else if decide (value = []) then Ok value
  else if negb (isNaN f (Number f value)) then
    encryptNumber f (Number f value) encryptionKey
  else encryptString f value encryptionKey.

End Rows.

(** The columns of a row with each value replaced by what [g] makes of
    it, up to the first throw. *)
Fixpoint map_values (g : JsString -> JsString -> Outcome JsString) (row : Row)
  : Outcome Row :=
  match row with
  | [] => Ok []
  | (key, value) :: rest =>
      match g key value with
      | Throw e => Throw e
      | Ok value' =>
          match map_values g rest with
          | Ok rest' => Ok ((key, value') :: rest')
          | Throw e => Throw e
          end
      end
  end.

End EncryptCsv.

(** ** More objects to run the code on *)

Module Samples.

(** The bundle the sample serializer exports for two bootstrap indices. *)
Definition bundle : DataAndLocation.t :=
  (SchemeSwitchingDataSerializer.Serialize (Sample.serializer true [3; 7]%N)).2.

(** A context that has its switching key and its binary context. *)
Definition getters : Construction.CryptoContextGetters :=
  {| Construction.GetSwkFC := fun _ => Ok (Some 6%N);
     Construction.GetBinCCForSchemeSwitch := fun _ => Ok (Some 7%N) |}.

(** A file system that accepts every write. *)
Definition disk : DiskExport.FileSystem :=
  {| DiskExport.writeFileSync := fun _ _ => Ok tt |}.

(** A directory holding the three files the backend reads. *)
Definition readFile (path : JsString) : Outcome Buffer :=
  if decide (path = lit "demoData/cryptocontext.txt") then Ok [x01]
  else if decide (path = lit "demoData/key_pub.txt") then Ok [x02]
  else if decide (path = lit "demoData/key_secret.txt") then Ok [x03]
  else Throw (Error "ENOENT: no such file or directory").

(** A directory holding what [writeBuffersToFile] wrote of the sample
    bundle, and nothing else. *)
Definition exported (path : JsString) : Outcome Buffer :=
  match List.find (fun entry => bool_decide (entry.1 = path))
          (DiskExport.writeBuffersToFile disk bundle []).2 with
  | Some entry => Ok entry.2
  | None => Throw (Error "ENOENT: no such file or directory")
  end.

(** An engine module for the class [OpenFHE] and engine objects on which
    every call returns. *)
Definition module_ : OpenFHE.Module_ :=
  {| OpenFHE.ScalingTechnique_FIXEDAUTO := 20%N;
     OpenFHE.ScalingTechnique_FLEXIBLEAUTOEXT := 21%N;
     OpenFHE.SecurityLevel_HEStd_NotSet := 30%N;
     OpenFHE.SecretKeyDist_UNIFORM_TERNARY := 40%N;
     OpenFHE.KeySwitchTechnique_HYBRID := 50%N;
     OpenFHE.PKESchemeFeature_PKE := 60%N;
     OpenFHE.PKESchemeFeature_KEYSWITCH := 61%N;
     OpenFHE.PKESchemeFeature_LEVELEDSHE := 62%N;
     OpenFHE.PKESchemeFeature_ADVANCEDSHE := 63%N;
     OpenFHE.PKESchemeFeature_SCHEMESWITCH := 64%N;
     OpenFHE.PKESchemeFeature_PRE := 65%N;
     OpenFHE.new_CCParamsCryptoContextCKKSRNS := Ok 70%N;
     OpenFHE.new_GenCryptoContextCKKS := fun _ => Ok 1%N;
     OpenFHE.getExceptionMessage := fun _ => "engine exception" |}.

Definition objects : OpenFHE.Objects :=
  {| OpenFHE.perform := fun _ => Ok tt;
     OpenFHE.answer_KeyGen := fun _ =>
       Ok {| OpenFHE.kp_publicKey := 2%N; OpenFHE.kp_secretKey := 3%N |};
     OpenFHE.answer_GetRingDimension := fun _ => Ok (Int 4096) |}.

(** A new [OpenFHE] object with [64] slots, before any call. *)
(** Functions for the row loop: a value is numeric when it is [42]. *)
Definition csv_functions : EncryptCsv.Functions (option Z) unit :=
  {| EncryptCsv.Number := fun s => if decide (s = lit "42") then Some 42%Z else None;
     EncryptCsv.isNaN := fun n => match n with Some _ => false | None => true end;
     EncryptCsv.generateKey := Ok tt;
     EncryptCsv.encryptString := fun _ _ => Ok (lit "ct-string");
     EncryptCsv.encryptNumber := fun _ _ => Ok (lit "ct-number");
     EncryptCsv.generatePREKey := fun _ => Ok (lit "1,2,3") |}.

(** A row with an identifier to skip, an empty field, a number, a text
    and a column that has the name of the key column. *)
Definition csv_row : EncryptCsv.Row :=
  [ (lit "id", lit "7"); (lit "note", []); (lit "age", lit "42");
    (lit "name", lit "Ada"); (lit "PRE_key", lit "old") ].

Definition openFHE : OpenFHE.State :=
  {| OpenFHE.this :=
       OpenFHE.constructor None None None None None None None None
         (Some (Int 64)) None None;
     OpenFHE.calls := [] |}.

End Samples.

(** * Properties *)

(** ** The monad *)

Lemma run_bind {S A B} (m : M S A) (k : A -> M S B) (s : S) :
  (m ≫= k) s =
  match m s with
  | (Ok a, s') => k a s'
  | (Throw e, s') => (Throw e, s')
  end.
Proof. reflexivity. Qed.

Lemma run_ret {S A B} (a : A) (k : A -> M S B) (s : S) : (mret a ≫= k) s = k a s.
Proof. reflexivity. Qed.

Lemma run_get {S B} (k : S -> M S B) (s : S) : (get ≫= k) s = k s s.
Proof. reflexivity. Qed.

Lemma run_modify {S B} (f : S -> S) (k : unit -> M S B) (s : S) :
  (modify f ≫= k) s = k tt (f s).
Proof. reflexivity. Qed.

Lemma run_throw {S A B} (e : Thrown) (k : A -> M S B) (s : S) :
  (throw e ≫= k) s = (Throw e, s).
Proof. reflexivity. Qed.

Lemma run_call {S A B} (r : Outcome A) (k : A -> M S B) (s : S) :
  (call r ≫= k) s = match r with Ok a => k a s | Throw e => (Throw e, s) end.
Proof. destruct r; reflexivity. Qed.

(** ** Strings *)

Lemma slice_last (p : JsString) (c : CodeUnit) :
  slice (p ++ [c]) (-1) None = [c].
Proof.
  unfold slice. rewrite length_app. cbn [length Z.ltb Z.compare].
  replace (Z.max (Z.of_nat (length p + 1) + -1) 0) with (Z.of_nat (length p)) by lia.
  replace (Z.max (Z.of_nat (length p + 1) - Z.of_nat (length p)) 0) with 1%Z by lia.
  rewrite Nat2Z.id, drop_app_length. reflexivity.
Qed.

Lemma slice_init (p : JsString) (c : CodeUnit) :
  slice (p ++ [c]) 0 (Some (-1)%Z) = p.
Proof.
  unfold slice. rewrite length_app. cbn [length Z.ltb Z.compare].
  replace (Z.min 0 (Z.of_nat (length p + 1))) with 0%Z by lia.
  replace (Z.max (Z.max (Z.of_nat (length p + 1) + -1) 0 - 0) 0)
    with (Z.of_nat (length p)) by lia.
  rewrite Nat2Z.id. cbn [Z.to_nat drop]. apply take_app_length.
Qed.

Module DataAndLocationFacts.

(** C9. [setDataDirectory] throws on the empty string; a directory ending
    in a slash is stored without that one slash (so one ending in two
    slashes still ends in a slash); any other directory is stored as it
    is. *)
Theorem setDataDirectory_spec (this : DataAndLocation.t) :
  setDataDirectory [] this = (Throw (Error "dir is an empty string"), this)
  /\ (forall p, setDataDirectory (p ++ [slash]) this
                = (Ok tt, set_dataDirectory p this)
                /\ dataDirectory (set_dataDirectory p this) = p)
  /\ (forall p, setDataDirectory (p ++ [slash; slash]) this
                = (Ok tt, set_dataDirectory (p ++ [slash]) this))
  /\ (forall p c, c <> slash ->
        setDataDirectory (p ++ [c]) this
        = (Ok tt, set_dataDirectory (p ++ [c]) this)
        /\ dataDirectory (set_dataDirectory (p ++ [c]) this) = p ++ [c]).
Proof.
  assert (Hne : forall (p : JsString) c, p ++ [c] <> []).
  { intros p c H. apply (f_equal length) in H. rewrite length_app in H.
    simpl in H. lia. }
  assert (Hslash : forall p, setDataDirectory (p ++ [slash]) this
                             = (Ok tt, set_dataDirectory p this)).
  { intros p. unfold setDataDirectory.
    rewrite slice_last, slice_init.
    case_decide as E; [destruct (Hne _ _ E)|].
    case_decide; [reflexivity|congruence]. }
  split; [reflexivity|]. split; [|split].
  - intros p. split; [apply Hslash|]. destruct this; reflexivity.
  - intros p. replace (p ++ [slash; slash]) with ((p ++ [slash]) ++ [slash])
      by (rewrite <- app_assoc; reflexivity).
    apply Hslash.
  - intros p c Hc. split; [|destruct this; reflexivity].
    unfold setDataDirectory. rewrite slice_last.
    case_decide as E; [destruct (Hne _ _ E)|].
    case_decide; [congruence|reflexivity].
Qed.

End DataAndLocationFacts.

(** ** String helpers *)

(** C10. [intToString] undoes [stringToInt] on every string. *)
Theorem intToString_stringToInt (s : JsString) :
  wf_string s -> intToString (stringToInt s) = s.
Proof.
  unfold intToString, stringToInt, split_empty, join_empty.
  induction 1 as [|c s Hc _ IH]; [reflexivity|].
  cbn. rewrite IH. f_equal.
  rewrite Z.mod_small by lia. apply N2Z.id.
Qed.

(** ** The chunked transfer *)

Module ChunkedTransferFacts.
Import SchemeSwitchingDataSerializer.

Lemma total_length_acc (l : ChunkArray) (acc : nat) :
  fold_left (fun sum slot =>
               match slot with
               | Some chunk => sum + length chunk
               | None => sum
               end) l acc
  = acc + total_length l.
Proof.
  unfold total_length. revert acc.
  induction l as [|[c|] l IH]; intros acc; cbn [fold_left].
  - lia.
  - rewrite IH, (IH (0 + length c)). lia.
  - apply IH.
Qed.

Lemma total_length_holes (n : nat) (l : ChunkArray) :
  total_length (replicate n None ++ l) = total_length l.
Proof. induction n as [|n IH]; [reflexivity|exact IH]. Qed.

Lemma total_length_filled (parts : list Buffer) :
  total_length (Some <$> parts) = length (concat parts).
Proof.
  induction parts as [|c parts IH]; [reflexivity|].
  rewrite fmap_cons. unfold total_length at 1. cbn [fold_left concat].
  rewrite total_length_acc, length_app, IH. lia.
Qed.

Lemma copy_chunks_holes (n : nat) (l : ChunkArray) (a : Buffer) (o : nat) :
  copy_chunks (replicate n None ++ l) a o = copy_chunks l a o.
Proof. induction n as [|n IH]; [reflexivity|exact IH]. Qed.

(** Copying filled slots into a zeroed tail writes their concatenation:
    no chunk ever falls outside the array. *)
Lemma copy_chunks_filled (parts : list Buffer) (done : Buffer) :
  copy_chunks (Some <$> parts)
              (done ++ replicate (length (concat parts)) x00) (length done)
  = Some (done ++ concat parts).
Proof.
  revert done. induction parts as [|c parts IH]; intros done.
  - cbn. rewrite app_nil_r. reflexivity.
  - rewrite fmap_cons. cbn [copy_chunks concat]. unfold typed_array_set.
    rewrite !length_app, length_replicate.
    case_decide as Hfit; [|lia].
    rewrite take_app_length.
    rewrite drop_app_ge by lia.
    replace (length done + length c - length done) with (length c) by lia.
    rewrite drop_replicate_add.
    specialize (IH (done ++ c)). rewrite length_app in IH.
    rewrite <- !app_assoc in IH. exact IH.
Qed.

Lemma array_set_end (pre : list Buffer) (c : Buffer) :
  array_set (Some <$> pre) (length pre) c = Some <$> (pre ++ [c]).
Proof.
  unfold array_set. rewrite length_fmap.
  case_decide; [lia|].
  rewrite Nat.sub_diag, fmap_app. reflexivity.
Qed.

Lemma array_set_empty (n : nat) (c : Buffer) :
  array_set [] n c = replicate n None ++ [Some c].
Proof.
  unfold array_set. cbn [length]. case_decide; [lia|].
  rewrite Nat.sub_0_r. reflexivity.
Qed.

(** Once settled, the promise keeps its value whatever arrives later. *)
Lemma resolved_is_final (msgs : list WorkerMessage) (st : Transfer) (value : Buffer) :
  promise st = Resolved value ->
  promise (fold_left onmessage msgs st) = Resolved value.
Proof.
  revert st. induction msgs as [|d msgs IH]; intros st H; [exact H|].
  cbn [fold_left]. apply IH.
  destruct d as [chunk index total| |e|]; cbn [onmessage]; try exact H.
  - case_decide; [|exact H].
    destruct (copy_chunks _ _ _); cbn [promise]; rewrite H; reflexivity.
  - cbn [promise]. rewrite H. reflexivity.
Qed.

Lemma deliver_in_order_from (n : nat) (post pre : list Buffer) :
  post <> [] -> length pre + length post = n ->
  fold_left onmessage
    (imap (fun i c => fileChunk c (length pre + i) n) post)
    {| chunks := Some <$> pre; promise := Pending |}
  = {| chunks := Some <$> (pre ++ post);
       promise := Resolved (concat (pre ++ post)) |}.
Proof.
  revert pre. induction post as [|c post IH]; intros pre Hne Hlen; [congruence|].
  rewrite imap_cons. cbn [fold_left onmessage chunks promise].
  rewrite Nat.add_0_r, array_set_end, length_fmap, length_app.
  cbn [length] in *.
  case_decide as Hfull.
  - assert (post = []) as -> by (destruct post; [reflexivity|cbn in *; lia]).
    rewrite total_length_filled.
    pose proof (copy_chunks_filled (pre ++ [c]) []) as Hcopy.
    cbn [app length] in Hcopy. rewrite Hcopy. reflexivity.
  - assert (post <> []) as Hpost by (intros ->; cbn in *; lia).
    rewrite (imap_ext _ (fun i c0 => fileChunk c0 (length (pre ++ [c]) + i) n)).
    + rewrite IH; [|exact Hpost|rewrite length_app; cbn; lia].
      rewrite <- app_assoc. reflexivity.
    + intros i x _. cbn. rewrite length_app. cbn. f_equal. lia.
Qed.

(** Delivered in index order, the chunks of a non-empty set are assembled
    into their concatenation, at the last message. *)
Lemma deliver_in_order (parts : list Buffer) :
  parts <> [] ->
  deliver (chunk_messages parts)
  = {| chunks := Some <$> parts; promise := Resolved (concat parts) |}.
Proof.
  intros Hne. unfold deliver, chunk_messages.
  exact (deliver_in_order_from (length parts) parts [] Hne eq_refl).
Qed.

(** A chunk arriving for the highest slot while the array is still empty
    extends the array to its full length at once. *)
Lemma deliver_highest_first (chunk : Buffer) (n : nat) (msgs : list WorkerMessage) :
  promise (deliver (fileChunk chunk n (S n) :: msgs)) = Resolved chunk.
Proof.
  unfold deliver. cbn [fold_left]. apply resolved_is_final.
  unfold onmessage, start. cbn [chunks promise].
  rewrite array_set_empty, length_app, length_replicate. cbn [length].
  case_decide; [|lia].
  rewrite total_length_holes, copy_chunks_holes.
  pose proof (copy_chunks_filled [chunk] []) as Hcopy.
  cbn [fmap list_fmap concat app length] in Hcopy.
  rewrite app_nil_r in Hcopy.
  change (total_length [Some chunk]) with (0 + length chunk).
  cbn [Nat.add]. rewrite Hcopy. reflexivity.
Qed.

(** C1. The handler declares completion on an index set that does not
    cover the slots: one chunk for slot [n + 1] of [n + 2], with every
    lower slot still missing, resolves the pending operation with that
    chunk alone. *)
Theorem completion_with_missing_slots (chunk : Buffer) (n : nat) :
  let msgs := [fileChunk chunk (S n) (S (S n))] in
  ~ covers (S (S n)) msgs
  /\ declares_completion (deliver msgs)
  /\ promise (deliver msgs) = Resolved chunk.
Proof.
  cbn zeta. split; [|split].
  - intros H. specialize (H 0 ltac:(lia)). cbn in H.
    destruct H as [H|[]]. discriminate.
  - exists chunk. apply deliver_highest_first.
  - apply deliver_highest_first.
Qed.

(** C2. Delivery order changes the assembled bytes: the three chunks
    [01], [02], [03] give [01 02 03] in index order and [03] alone when
    they arrive in the order 2, 0, 1. *)
Theorem out_of_order_delivery_loses_chunks :
  let parts := [[x01]; [x02]; [x03]] in
  let permuted := [fileChunk [x03] 2 3; fileChunk [x01] 0 3; fileChunk [x02] 1 3] in
  Permutation permuted (chunk_messages parts)
  /\ promise (deliver (chunk_messages parts)) = Resolved [x01; x02; x03]
  /\ promise (deliver permuted) = Resolved [x03]
  /\ promise (deliver permuted) <> promise (deliver (chunk_messages parts)).
Proof.
  cbn zeta. split; [|split; [|split]].
  - apply (Permutation_cons_app [fileChunk [x01] 0 3; fileChunk [x02] 1 3] []).
    reflexivity.
  - reflexivity.
  - reflexivity.
  - discriminate.
Qed.

End ChunkedTransferFacts.

(** ** The archiver's unpack step *)

Module ArchiverFacts.
Import SchemeSwitchingDataSerializer.

Lemma readFileFromZip_absent (zip : gmap string ZipObject) (fileName : string) :
  zip !! fileName = None -> readFileFromZip zip fileName = None.
Proof. intros H. unfold readFileFromZip. rewrite H. reflexivity. Qed.

(** C7, counterexample.  The secret-key entry of an archive is not
    unpacked: [uploadFile] never looks [key_secret.txt] up, and a new object
    is left without the secret key the archive holds. *)
Lemma uploadFile_skips_secretKey :
  ~ unpack_reads_every_file {[ secretKeyFile := Readable [x03] ]} (fresh BINARY).
Proof.
  intros H.
  assert (Hc := H secretKeyFile secretKeyBuffer ltac:(cbn; tauto)).
  vm_compute in Hc. discriminate Hc.
Qed.

(** C7 (amended). Unpacking a zip archive never throws.  It reads the nine
    top-level entries other than the secret key's; each of these fields
    ends up holding what [readFileFromZip] found, which is nothing when the
    archive has no such entry.  The secret-key field and the key mappings
    are left as they were; so, on an object without a secret-key buffer, as
    a new one is, every top-level field whose entry the archive lacks is
    absent afterwards. *)
Theorem uploadFile_unpacks (zip : gmap string ZipObject) (this : DataAndLocation.t) :
  let r := uploadFile (ZipFile zip) this in
  r.1 = Ok tt
  /\ (forall fileName field,
        In (fileName, field) unpacked_files ->
        field (buffers r.2) = readFileFromZip zip fileName
        /\ (zip !! fileName = None -> field (buffers r.2) = None))
  /\ secretKeyBuffer (buffers r.2) = secretKeyBuffer (buffers this)
  /\ EvalKeyMappings (buffers r.2) = EvalKeyMappings (buffers this)
  /\ (secretKeyBuffer (buffers this) = None ->
      forall fileName field,
        In (fileName, field) top_level_files ->
        zip !! fileName = None -> field (buffers r.2) = None).
Proof.
  assert (Hread : forall fileName field,
             In (fileName, field) unpacked_files ->
             field (buffers (uploadFile (ZipFile zip) this).2)
             = readFileFromZip zip fileName).
  { intros fileName field Hin. destruct this as [a b c d e f g h bufs].
    destruct bufs. unfold unpacked_files in Hin. cbn [In] in Hin.
    repeat (destruct Hin as [Hin|Hin]; [inversion Hin; subst; reflexivity|]).
    destruct Hin. }
  assert (Hsecret : secretKeyBuffer (buffers (uploadFile (ZipFile zip) this).2)
                    = secretKeyBuffer (buffers this))
    by (destruct this as [a b c d e f g h bufs]; destruct bufs; reflexivity).
  cbn zeta. split; [|split; [|split; [exact Hsecret|split]]].
  - destruct this; reflexivity.
  - intros fileName field Hin. split; [apply Hread, Hin|].
    intros Habs. rewrite (Hread _ _ Hin). apply readFileFromZip_absent, Habs.
  - destruct this as [a b c d e f g h bufs]. destruct bufs. reflexivity.
  - intros Hnone fileName field Hin Habs.
    unfold top_level_files in Hin. cbn [In] in Hin.
    destruct Hin as [Hin|[Hin|[Hin|Hin]]].
    + inversion Hin; subst.
      rewrite (Hread cryptoContextFile cryptoContextBuffer ltac:(cbn; tauto)).
      apply readFileFromZip_absent, Habs.
    + inversion Hin; subst.
      rewrite (Hread pubKeyFile publicKeyBuffer ltac:(cbn; tauto)).
      apply readFileFromZip_absent, Habs.
    + inversion Hin; subst. rewrite Hsecret. exact Hnone.
    + rewrite (Hread fileName field ltac:(cbn; tauto)).
      apply readFileFromZip_absent, Habs.
Qed.

End ArchiverFacts.

(** ** The serializer *)

Module SerializerFacts.
Import SchemeSwitchingDataSerializer.

Lemma BTKeyMapArr_keys (map : BTKeyMap) : BTKeyMapArr map = keys map.
Proof.
  unfold BTKeyMapArr, vec_get. apply list_eq. intros i.
  rewrite list_lookup_imap.
  destruct (keys map !! i) as [k|] eqn:Hk.
  - rewrite lookup_replicate_2 by (eapply lookup_lt_Some; eauto). reflexivity.
  - rewrite (proj1 (lookup_replicate_None _ _ _)); [reflexivity|].
    apply lookup_ge_None. exact Hk.
Qed.

Lemma push_EvalKeyMappings_spec (ms : list KeyMapping) (b : CryptoContextBuffers) :
  EvalKeyMappings (push_EvalKeyMappings ms b) = EvalKeyMappings b ++ ms
  /\ forall a, field_of a (push_EvalKeyMappings ms b) = field_of a b.
Proof.
  unfold push_EvalKeyMappings. revert b.
  induction ms as [|mp ms IH]; intros b; cbn [fold_left].
  - rewrite app_nil_r. split; reflexivity.
  - destruct (IH (push_EvalKeyMapping mp b)) as [IH1 IH2]. split.
    + rewrite IH1. destruct b; cbn. rewrite <- app_assoc. reflexivity.
    + intros a. rewrite IH2. destruct b, a; reflexivity.
Qed.

Lemma update_buffers_push (mp : KeyMapping) (ms : list KeyMapping) (s : DataAndLocation.t) :
  update_buffers (push_EvalKeyMappings ms) (update_buffers (push_EvalKeyMapping mp) s)
  = update_buffers (push_EvalKeyMappings (mp :: ms)) s.
Proof. destruct s; reflexivity. Qed.

Lemma update_buffers_push_nil (s : DataAndLocation.t) :
  update_buffers (push_EvalKeyMappings []) s = s.
Proof. destruct s; reflexivity. Qed.

(** What the loop over the bootstrap pairs leaves behind, however it
    ends: the mappings of the pairs it exported, pushed in order. *)
Lemma serialize_key_pairs_inv m ser map arr indices s r s' :
  serialize_key_pairs m ser map arr indices s = (r, s') ->
  exists ms,
    s' = update_buffers (push_EvalKeyMappings ms) s
    /\ Forall (pair_exported m ser map) ms
    /\ match r with
       | Ok indices' => indices' = indices ++ arr /\ List.map mapping_key ms = arr
       | Throw _ => True
       end.
Proof.
  revert indices s. induction arr as [|k arr IH]; intros indices s H.
  - cbn in H. inversion H; subst. exists [].
    rewrite update_buffers_push_nil, app_nil_r. auto.
  - cbn [serialize_key_pairs] in H. unfold checked, call in H.
    rewrite !run_bind in H.
    destruct (SerializeBinFHERefreshKeyToBuffer m (BSkey (get_pair map k)) ser)
      as [[bs|]|e] eqn:Hbs;
      cbn in H; try solve [inversion H; subst; exists [];
                           rewrite update_buffers_push_nil; auto].
    rewrite !run_bind in H.
    destruct (SerializeBinFHESwitchingKeyToBuffer m (KSkey (get_pair map k)) ser)
      as [[ks|]|e] eqn:Hks;
      cbn in H; try solve [inversion H; subst; exists [];
                           rewrite update_buffers_push_nil; auto].
    apply IH in H. destruct H as (ms & -> & Hms & Hr).
    exists ({| mapping_key := k; mapping_BSkey := bs; mapping_KSkey := ks |} :: ms).
    rewrite update_buffers_push. split; [reflexivity|]. split.
    + constructor; [split; assumption|exact Hms].
    + destruct r; [|exact I]. destruct Hr as [-> Hr].
      rewrite <- app_assoc. cbn. rewrite Hr. auto.
Qed.

Lemma serialize_key_pairs_ok m ser map arr indices s :
  (forall index, In index arr ->
     exists bs ks, pair_exported m ser map
       {| mapping_key := index; mapping_BSkey := bs; mapping_KSkey := ks |}) ->
  exists ms,
    serialize_key_pairs m ser map arr indices s
    = (Ok (indices ++ arr), update_buffers (push_EvalKeyMappings ms) s)
    /\ List.map mapping_key ms = arr.
Proof.
  revert indices s. induction arr as [|k arr IH]; intros indices s H.
  - exists []. rewrite update_buffers_push_nil, app_nil_r. auto.
  - destruct (H k (or_introl eq_refl)) as (bs & ks & Hbs & Hks). cbn in Hbs, Hks.
    destruct (IH (indices ++ [k])
                 (update_buffers (push_EvalKeyMapping
                    {| mapping_key := k; mapping_BSkey := bs; mapping_KSkey := ks |}) s))
      as (ms & Hloop & Hkeys).
    { intros index Hin. apply H. right. exact Hin. }
    exists ({| mapping_key := k; mapping_BSkey := bs; mapping_KSkey := ks |} :: ms).
    cbn [serialize_key_pairs]. unfold checked, call.
    rewrite !run_bind, Hbs. cbn. rewrite !run_bind, Hks. cbn.
    rewrite run_bind. unfold modify.
    rewrite Hloop, update_buffers_push, <- app_assoc. cbn. rewrite Hkeys. auto.
Qed.

Lemma field_of_set_keyIndexBuffer a v b :
  field_of a (set_keyIndexBuffer v b)
  = if decide (a = ArtKeyIndex) then v else field_of a b.
Proof. destruct b, a; reflexivity. Qed.

Lemma EvalKeyMappings_set_keyIndexBuffer v b :
  EvalKeyMappings (set_keyIndexBuffer v b) = EvalKeyMappings b.
Proof. destruct b; reflexivity. Qed.

Lemma store_checked_run r set_field msg (s : DataAndLocation.t) :
  store_checked r set_field msg s =
  match r with
  | Ok (Some b) => (Ok tt, update_buffers (set_field (Some b)) s)
  | Ok None => (Throw (Error msg), update_buffers (set_field None) s)
  | Throw e => (Throw e, s)
  end.
Proof. destruct r as [[b|]|e]; reflexivity. Qed.

(** The test is JavaScript truthiness: a buffer object passes it even when
    it holds no byte. *)
Lemma store_checked_zero_length set_field msg (s : DataAndLocation.t) :
  store_checked (Ok (Some [])) set_field msg s
  = (Ok tt, update_buffers (set_field (Some [])) s).
Proof. apply store_checked_run. Qed.

(** Destructs the engine answer the computation in [H] is waiting for. *)
Ltac export_step H :=
  rewrite run_bind, store_checked_run in H;
  match type of H with
  | context [match ?r with Ok _ => _ | Throw _ => _ end] =>
      destruct r as [[?|]|?] eqn:?; try discriminate H
  end.

Lemma Serialize_ok_inv (this this' : DataAndLocation.t) :
  Serialize this = (Ok tt, this') ->
  exists m bincc ms,
    module this = Some m /\ binFHECryptoContext this = Some bincc
    /\ (forall a, exists buf, export_of this a = Some (Ok (Some buf))
                            /\ field_of a (buffers this') = Some buf)
    /\ EvalKeyMappings (buffers this') = EvalKeyMappings (buffers this) ++ ms
    /\ List.map mapping_key ms = keys (GetBTKeyMap m bincc)
    /\ Forall (pair_exported m (SERTYPE this) (GetBTKeyMap m bincc)) ms.
Proof.
  intros H. destruct this as [cc pk sk bincc swk dir m ser bufs].
  unfold Serialize, require in H. rewrite run_get in H. cbn [module] in H.
  destruct m as [m|]; [|discriminate]. rewrite run_ret in H. cbn [cryptoContext] in H.
  destruct cc as [cc|]; [|discriminate]. rewrite run_ret in H. cbn [publicKey] in H.
  destruct pk as [pk|]; [|discriminate]. rewrite run_ret in H. cbn [secretKey] in H.
  destruct sk as [sk|]; [|discriminate]. rewrite run_ret in H.
  cbn [binFHECryptoContext] in H.
  destruct bincc as [bincc|]; [|discriminate]. rewrite run_ret in H.
  cbn [FHEWtoCKKSSwitchKey] in H.
  destruct swk as [swk|]; [|discriminate]. rewrite run_ret in H.
  cbn [SERTYPE] in H. cbn zeta in H.
  do 9 export_step H.
  rewrite run_bind in H.
  match type of H with
  | context [serialize_key_pairs ?a ?b ?c ?d ?e ?f] =>
      destruct (serialize_key_pairs a b c d e f) as [r s'] eqn:Hloop
  end.
  apply serialize_key_pairs_inv in Hloop. destruct Hloop as (ms & -> & Hms & Hr).
  destruct r as [indices|e]; [|discriminate]. destruct Hr as [-> Hkeys].
  rewrite store_checked_run in H.
  match type of H with
  | context [match ?r with Ok _ => _ | Throw _ => _ end] =>
      destruct r as [[?|]|?] eqn:?; try discriminate H
  end.
  inversion H; subst this'; clear H.
  rewrite BTKeyMapArr_keys in Hkeys.
  exists m, bincc, ms. split; [reflexivity|]. split; [reflexivity|].
  cbn [update_buffers set_buffers buffers SERTYPE] in *.
  match goal with
  | |- context [push_EvalKeyMappings ms ?B] =>
      destruct (push_EvalKeyMappings_spec ms B) as [Hmaps Hfields]
  end.
  split; [|split; [|split]].
  - intros a. rewrite field_of_set_keyIndexBuffer.
    destruct a; eexists; (split; [cbn; f_equal; eassumption|]);
      try reflexivity; cbn [decide_rel Artifact_eq_dec];
      rewrite Hfields; destruct bufs; reflexivity.
  - rewrite EvalKeyMappings_set_keyIndexBuffer, Hmaps. destruct bufs; reflexivity.
  - exact Hkeys.
  - exact Hms.
Qed.

(** Uses a known engine answer to advance the computation in the goal. *)
Ltac export_fwd :=
  rewrite run_bind, store_checked_run;
  match goal with
  | E : ?r = _ |- context [match ?r with Ok _ => _ | Throw _ => _ end] =>
      rewrite E
  end.

(** Turns [Forall returns_buffer] over a concrete list into one equation
    per export. *)
Ltac exports_of H :=
  repeat match type of H with
         | Forall _ (_ :: _) =>
             let E := fresh "E" in
             let buf := fresh "buf" in
             apply Forall_cons in H; destruct H as [[buf E] H];
             cbn in E; injection E as E
         end.

(** When every export answers with a buffer, [Serialize] returns. *)
Lemma Serialize_succeeds (this : DataAndLocation.t) :
  (forall a, returns_buffer (export_of this a)) ->
  pairs_exported this ->
  exists this', Serialize this = (Ok tt, this').
Proof.
  intros Hexp Hpairs.
  assert (Hall : Forall (fun b => returns_buffer (export_of this b)) serialize_order)
    by (apply Forall_forall; intros b _; apply Hexp).
  destruct (Hexp ArtKeyIndex) as [buf9 E9]. clear Hexp.
  destruct this as [cc pk sk bincc swk dir m ser bufs].
  destruct m as [m|]; [|discriminate].
  destruct cc as [cc|]; [|discriminate].
  destruct pk as [pk|]; [|discriminate].
  destruct sk as [sk|]; [|discriminate].
  destruct bincc as [bincc|]; [|discriminate].
  destruct swk as [swk|]; [|discriminate].
  unfold serialize_order in Hall. exports_of Hall. clear Hall E9 buf9.
  unfold Serialize, require. rewrite run_get. cbn [module]. rewrite run_ret.
  cbn [cryptoContext publicKey secretKey binFHECryptoContext
       FHEWtoCKKSSwitchKey SERTYPE].
  rewrite !run_ret. cbn zeta.
  repeat export_fwd. rewrite run_bind.
  specialize (Hpairs m bincc eq_refl eq_refl). cbn [SERTYPE] in Hpairs.
  rewrite <- BTKeyMapArr_keys in Hpairs.
  match goal with
  | |- context [serialize_key_pairs ?m ?ser ?map ?arr ?acc ?s] =>
      destruct (serialize_key_pairs_ok m ser map arr acc s Hpairs) as (ms & -> & _)
  end.
  cbn [app]. rewrite store_checked_run.
  match goal with
  | E : ?r = _ |- context [match ?r with Ok _ => _ | Throw _ => _ end] => rewrite E
  end.
  eexists. reflexivity.
Qed.

(** C5. After a successful [Serialize], the index list handed to the engine
    for [keyIndexBuffer] is the list of indices the engine reported, in that
    order, and no index occurs twice in it, the engine's map having distinct
    keys; the mappings this call pushed carry exactly these indices, in the
    same order.  On an object whose key mappings were empty before the call,
    as a new serializer's are, they are all the mappings there are: the
    indices of the list and those of the mappings are the same. *)
Theorem Serialize_index_integrity
    (this this' : DataAndLocation.t) (m : OpenFHEModule) (bincc : Obj) :
  module this = Some m ->
  binFHECryptoContext this = Some bincc ->
  NoDup (keys (GetBTKeyMap m bincc)) ->
  Serialize this = (Ok tt, this') ->
  exists indices buf pushed,
    SerializeSeedSeqVector m indices (SERTYPE this) = Ok (Some buf)
    /\ keyIndexBuffer (buffers this') = Some buf
    /\ indices = keys (GetBTKeyMap m bincc)
    /\ NoDup indices
    /\ EvalKeyMappings (buffers this') = EvalKeyMappings (buffers this) ++ pushed
    /\ List.map mapping_key pushed = indices
    /\ (EvalKeyMappings (buffers this) = [] ->
        List.map mapping_key (EvalKeyMappings (buffers this')) = indices
        /\ NoDup (List.map mapping_key (EvalKeyMappings (buffers this')))
        /\ forall index, In index indices <->
              exists mapping, In mapping (EvalKeyMappings (buffers this'))
                              /\ mapping_key mapping = index).
Proof.
  intros Hm Hbincc Hnodup HS.
  apply Serialize_ok_inv in HS.
  destruct HS as (m' & bincc' & ms & Hm' & Hbincc' & Hall & Hmaps & Hkeys & _).
  assert (m' = m) as -> by congruence.
  assert (bincc' = bincc) as -> by congruence.
  destruct (Hall ArtKeyIndex) as (buf & Hexp & Hfield).
  exists (keys (GetBTKeyMap m bincc)), buf, ms.
  split; [|split; [exact Hfield|split; [reflexivity|split; [exact Hnodup|
          split; [exact Hmaps|split; [exact Hkeys|]]]]]].
  - destruct this as [cc pk sk bincc0 swk dir m0 ser bufs].
    cbn in Hm, Hbincc. subst m0 bincc0.
    destruct cc, pk, sk, swk; try discriminate Hexp.
    cbn in Hexp. rewrite BTKeyMapArr_keys in Hexp.
    injection Hexp as Hexp. exact Hexp.
  - intros Hempty. rewrite Hempty in Hmaps. cbn [app] in Hmaps.
    rewrite Hmaps, Hkeys. split; [reflexivity|]. split; [exact Hnodup|].
    intros index. rewrite <- Hkeys, in_map_iff. split.
    + intros (mp & Hk & Hin). exists mp. auto.
    + intros (mp & Hin & Hk). exists mp. auto.
Qed.

(** C4, counterexample.  Two ways in which [Serialize] does not fail fast
    and whole.  An engine that exports the public key as a buffer of length
    zero: the buffer object passes the test [!buffer], [Serialize] returns
    and the bundle holds the empty buffer.  An engine that exports no public
    key at all: [Serialize] throws, but the crypto context exported before
    the failure stays in [this.buffers], and [createDownloadableFile] then
    packs it. *)
Lemma Serialize_not_fast_and_whole :
  (reaches (Sample.serializer_empty_publicKey [3; 7]%N) ArtPublicKey
   /\ export_of (Sample.serializer_empty_publicKey [3; 7]%N) ArtPublicKey
      = Some (Ok (Some []))
   /\ (Serialize (Sample.serializer_empty_publicKey [3; 7]%N)).1 = Ok tt
   /\ publicKeyBuffer
        (buffers (Serialize (Sample.serializer_empty_publicKey [3; 7]%N)).2)
      = Some []
   /\ ~ fails_fast_and_whole (Sample.serializer_empty_publicKey [3; 7]%N)
          ArtPublicKey)
  /\ (reaches (Sample.serializer false [3; 7]%N) ArtPublicKey
      /\ export_of (Sample.serializer false [3; 7]%N) ArtPublicKey = Some (Ok None)
      /\ cryptoContextBuffer (buffers (Sample.serializer false [3; 7]%N)) = None
      /\ cryptoContextBuffer (buffers (Serialize (Sample.serializer false [3; 7]%N)).2)
         = Some [x01]
      /\ packed_entries (Serialize (Sample.serializer false [3; 7]%N)).2
           !! cryptoContextFile = Some (Readable [x01])
      /\ ~ fails_fast_and_whole (Sample.serializer false [3; 7]%N) ArtPublicKey).
Proof.
  assert (Hreach : forall this,
             export_of this ArtCryptoContext = Some (Ok (Some [x01])) ->
             reaches this ArtPublicKey).
  { intros this H. split; [|discriminate].
    intros b Hb. vm_compute in Hb. destruct Hb as [<-|[]].
    exists [x01]. exact H. }
  split.
  - split; [apply Hreach; reflexivity|]. split; [reflexivity|].
    split; [reflexivity|]. split; [reflexivity|].
    intros H. destruct H as (this' & Hthrow & _).
    + apply Hreach. reflexivity.
    + exists (Ok (Some [])). split; [reflexivity|]. right. reflexivity.
    + vm_compute in Hthrow. discriminate Hthrow.
  - split; [apply Hreach; reflexivity|]. split; [reflexivity|].
    split; [reflexivity|]. split; [reflexivity|].
    split; [vm_compute; reflexivity|].
    intros H. destruct H as (this' & Hthrow & Hsame).
    + apply Hreach. reflexivity.
    + exists (Ok None). split; [reflexivity|]. left. reflexivity.
    + assert (Hs : this' = (Serialize (Sample.serializer false [3; 7]%N)).2)
        by (rewrite Hthrow; reflexivity).
      rewrite Hs in Hsame. vm_compute in Hsame. discriminate Hsame.
Qed.

(** C4 (amended). When the export of a top-level artifact comes back absent
    (a falsy answer), [Serialize] does not return: it throws.  If the exports
    before it returned buffers, the error thrown is the one naming that
    artifact; nothing but [this.buffers] has changed; there, the fields of
    the artifacts exported before hold their buffers, the field of the
    failed artifact holds the absent answer, the fields of the artifacts
    after it are not written, and key mappings have been pushed only when
    the failed artifact is the index list, one per index of the engine's
    map.  A buffer of length zero is no such answer: when the other exports
    return buffers as well, [Serialize] returns and the field holds the
    empty buffer. *)
Theorem Serialize_absent_export (this : DataAndLocation.t) (a : Artifact) :
  (export_of this a = Some (Ok None) ->
   (exists e, (Serialize this).1 = Throw e)
   /\ (reaches this a ->
       exists this',
         Serialize this = (Throw (Error (error_of a)), this')
         /\ this' = set_buffers (buffers this') this
         /\ (forall b, In b (preceding a) ->
               exists buf, export_of this b = Some (Ok (Some buf))
                           /\ field_of b (buffers this') = Some buf)
         /\ field_of a (buffers this') = None
         /\ (forall b, In b (following a) ->
               field_of b (buffers this') = field_of b (buffers this))
         /\ exists pushed,
              EvalKeyMappings (buffers this')
              = EvalKeyMappings (buffers this) ++ pushed
              /\ (a <> ArtKeyIndex -> pushed = [])
              /\ (a = ArtKeyIndex ->
                  forall m bincc,
                    module this = Some m -> binFHECryptoContext this = Some bincc ->
                    List.map mapping_key pushed = keys (GetBTKeyMap m bincc))))
  /\ (export_of this a = Some (Ok (Some [])) ->
      (forall b, returns_buffer (export_of this b)) ->
      pairs_exported this ->
      exists this',
        Serialize this = (Ok tt, this')
        /\ field_of a (buffers this') = Some []).
Proof.
  split.
  - intros Ha. split.
    + destruct (Serialize this) as [[[]|e] this'] eqn:HS; [|eauto].
      apply Serialize_ok_inv in HS.
      destruct HS as (m & bincc & ms & _ & _ & Hall & _).
      destruct (Hall a) as (buf & Hbuf & _). congruence.
    + intros [Hpre Hpairs].
      assert (Hall : Forall (fun b => returns_buffer (export_of this b)) (preceding a))
        by (apply Forall_forall; intros b Hb; apply Hpre, list_elem_of_In, Hb).
      clear Hpre.
      destruct this as [cc pk sk bincc swk dir m ser bufs].
      destruct m as [m|]; [|discriminate].
      destruct cc as [cc|]; [|discriminate].
      destruct pk as [pk|]; [|discriminate].
      destruct sk as [sk|]; [|discriminate].
      destruct bincc as [bincc|]; [|discriminate].
      destruct swk as [swk|]; [|discriminate].
      cbn in Ha. injection Ha as Ha.
      unfold Serialize, require. rewrite run_get. cbn [module]. rewrite run_ret.
      cbn [cryptoContext publicKey secretKey binFHECryptoContext
           FHEWtoCKKSSwitchKey SERTYPE].
      rewrite !run_ret. cbn zeta.
      destruct a;
        match type of Hall with
        | Forall _ ?l => let l' := eval vm_compute in l in change l with l' in Hall
        end;
        exports_of Hall; clear Hall.
      1-9: repeat export_fwd; eexists; (split; [reflexivity|]);
           (split; [destruct bufs; reflexivity|]);
           (split; [intros b Hb; vm_compute in Hb;
                    repeat (destruct Hb as [<-|Hb];
                            [eexists; split;
                             [cbn; f_equal; eassumption|destruct bufs; reflexivity]|]);
                    destruct Hb|]);
           (split; [destruct bufs; reflexivity|]);
           (split; [intros b Hb; vm_compute in Hb; destruct bufs;
                    repeat (destruct Hb as [<-|Hb]; [reflexivity|]); destruct Hb|]);
           exists []; (split; [destruct bufs; cbn; rewrite app_nil_r; reflexivity|]);
           (split; [reflexivity|]); discriminate.
      repeat export_fwd. rewrite run_bind.
      specialize (Hpairs eq_refl m bincc eq_refl eq_refl). cbn [SERTYPE] in Hpairs.
      rewrite <- BTKeyMapArr_keys in Hpairs.
      match goal with
      | |- context [serialize_key_pairs ?m ?ser ?map ?arr ?acc ?s] =>
          destruct (serialize_key_pairs_ok m ser map arr acc s Hpairs)
            as (ms & -> & Hkeys)
      end.
      cbn [app]. rewrite store_checked_run, Ha.
      rewrite BTKeyMapArr_keys in Hkeys.
      eexists. split; [reflexivity|].
      cbn [update_buffers set_buffers buffers].
      match goal with
      | |- context [push_EvalKeyMappings ms ?B] =>
          destruct (push_EvalKeyMappings_spec ms B) as [Hmaps Hfields]
      end.
      split; [reflexivity|].
      split; [|split; [|split; [intros b []|]]].
      * intros b Hb. vm_compute in Hb.
        repeat (destruct Hb as [<-|Hb];
                [eexists; split;
                 [cbn; f_equal; eassumption
                 |rewrite field_of_set_keyIndexBuffer; cbn [decide_rel Artifact_eq_dec];
                  rewrite Hfields; destruct bufs; reflexivity]|]).
        destruct Hb.
      * rewrite field_of_set_keyIndexBuffer. reflexivity.
      * exists ms. split.
        -- rewrite EvalKeyMappings_set_keyIndexBuffer, Hmaps.
           destruct bufs; reflexivity.
        -- split; [congruence|]. intros _ m' bincc' Hm' Hb'.
           cbn in Hm', Hb'. congruence.
  - intros Ha Hexp Hpairs.
    destruct (Serialize_succeeds this Hexp Hpairs) as [this' HS].
    exists this'. split; [exact HS|].
    apply Serialize_ok_inv in HS.
    destruct HS as (m & bincc & ms & _ & _ & Hall & _).
    destruct (Hall a) as (buf & Hbuf & Hfield). congruence.
Qed.

End SerializerFacts.

(** ** The deserializer *)

Module DeserializerFacts.
Import SchemeSwitchingDataDeserializer.

Lemma try_catch_ok {S A} (body : M S A) handler (s s' : S) (a : A) :
  body s = (Ok a, s') -> try_catch body handler s = (Ok a, s').
Proof. intros H. unfold try_catch. rewrite H. reflexivity. Qed.

Lemma try_catch_throw {S A} (body : M S A) handler (s s' : S) (e : Thrown) :
  body s = (Throw e, s') -> try_catch body handler s = handler e s'.
Proof. intros H. unfold try_catch. rewrite H. reflexivity. Qed.

Lemma copyVecToJs_id (vec : list N) : copyVecToJs vec = vec.
Proof.
  unfold copyVecToJs, vec_get. apply list_eq. intros i.
  rewrite list_lookup_fmap.
  destruct (vec !! i) as [k|] eqn:Hk.
  - rewrite lookup_seq_lt by (eapply lookup_lt_Some; eauto).
    cbn. rewrite Hk. reflexivity.
  - rewrite lookup_seq_ge; [reflexivity|]. apply lookup_ge_None. exact Hk.
Qed.

Lemma deserializeFile_missing {A} zip ser filename
    (f : Buffer -> SerType -> Outcome (option A)) (w : World) :
  zip !! filename = None ->
  deserializeFile zip ser filename f w
  = (Throw (Error ("File " +:+ filename +:+ " not found in the zip")), w).
Proof. intros H. unfold deserializeFile. rewrite H. reflexivity. Qed.

Lemma deserializeFile_accepted {A} zip ser filename
    (f : Buffer -> SerType -> Outcome (option A)) (v : A) (w : World) :
  entry_accepted zip ser filename f v ->
  deserializeFile zip ser filename f w = (Ok v, w).
Proof.
  intros (content & Hentry & Hf). unfold deserializeFile. rewrite Hentry.
  cbn [async_nodebuffer]. rewrite run_call, run_call, Hf. reflexivity.
Qed.

(** Reading an entry never changes the object, whatever the outcome. *)
Lemma deserializeFile_state {A} zip ser filename
    (f : Buffer -> SerType -> Outcome (option A)) (w : World) :
  (deserializeFile zip ser filename f w).2 = w.
Proof.
  unfold deserializeFile. destruct (zip !! filename) as [[content|reason]|]; cbn;
    try reflexivity.
  rewrite run_call. destruct (f content ser) as [[v|]|e]; reflexivity.
Qed.

Lemma invoke_run {A} (c : EngineCall) (r : Outcome A) (w : World) :
  invoke c r w = (r, {| this := this w; engine_calls := engine_calls w ++ [c] |}).
Proof. reflexivity. Qed.

Lemma install_if_present_accepted zip filename c install (w : World) :
  optional_accepted zip filename install ->
  install_if_present zip filename c install w
  = (Ok tt, {| this := this w;
               engine_calls := engine_calls w ++ optional_calls zip filename c |}).
Proof.
  unfold optional_accepted, install_if_present, optional_calls.
  destruct (zip !! filename) as [[content|reason]|]; intros H.
  - destruct H as [r Hr]. cbn [async_nodebuffer]. rewrite run_call, run_bind, invoke_run, Hr.
    reflexivity.
  - destruct H.
  - rewrite app_nil_r. destruct w; reflexivity.
Qed.

Lemma load_key_pairs_accepted m zip ser bincc (key_of : N -> RingGSWBTKey)
    (indices : list N) (w : World) :
  (forall index, In index indices ->
     pair_accepted m zip ser bincc index (key_of index)) ->
  load_key_pairs m zip ser bincc indices w
  = (Ok tt, {| this := this w;
               engine_calls :=
                 engine_calls w
                 ++ List.map (fun index =>
                      CallBTKeyMapLoadSingleElement bincc index (key_of index))
                      indices |}).
Proof.
  revert w. induction indices as [|index indices IH]; intros w H.
  - cbn. rewrite app_nil_r. destruct w; reflexivity.
  - destruct (H index (or_introl eq_refl)) as (Hbs & Hks & Hload).
    cbn [load_key_pairs].
    rewrite run_bind, (deserializeFile_accepted _ _ _ _ _ _ Hbs).
    rewrite run_bind, (deserializeFile_accepted _ _ _ _ _ _ Hks).
    rewrite run_bind, invoke_run.
    replace {| BSkey := BSkey (key_of index); KSkey := KSkey (key_of index) |}
      with (key_of index) by (destruct (key_of index); reflexivity).
    rewrite Hload, IH by (intros i Hi; apply H; right; exact Hi).
    cbn [this engine_calls List.map]. rewrite <- app_assoc. reflexivity.
Qed.

(** The [catch] block always rethrows. *)
Lemma deserialize_catch_throws (e : Thrown) (w : World) :
  exists e', deserialize_catch e w = (Throw e', w).
Proof.
  destruct e as [name message|code]; cbn; [eauto|].
  rewrite run_get. destruct (module (this w)); eauto.
Qed.

(** With the mandatory entries accepted and the optional ones missing or
    installed, the [try] block gets to the key indices: what remains to
    run is its tail, on an object holding the rebuilt objects. *)
Lemma deserialize_body_primary m zip (o : Reconstructed) (w : World) :
  module (this w) = Some m ->
  mandatory_accepted m zip (SERTYPE (this w)) o ->
  optionals_accepted m zip (SERTYPE (this w)) o ->
  deserialize_body (ZipFile zip) w
  = (vec ← deserializeFile zip (SERTYPE (this w)) keyIndexFile
             (DeserializeSeedSeqVector m);
     let indices := copyVecToJs vec in
     _ ← (if decide (length indices = 0) then
            throw (Error ("Error deserializing from " +:+ keyIndexFile
                          +:+ ". No indices found."))
          else mret tt);
     _ ← load_key_pairs m zip (SERTYPE (this w)) (r_binFHECryptoContext o) indices;
     invoke (CallSetBinCCForSchemeSwitch (r_cryptoContext o) (r_binFHECryptoContext o))
            (SetBinCCForSchemeSwitch m (r_cryptoContext o) (r_binFHECryptoContext o)))
      {| this := with_reconstructed o (this w);
         engine_calls := engine_calls w ++ primary_calls zip o |}.
Proof.
  intros Hm (Hcc & Hpk & Hsk & Hswk & Hset & Hbincc & Hbs & Hks & Hload) (Hmult & Hrot).
  destruct o as [cc pk sk swk bincc [bs ks]]. cbn [r_cryptoContext r_publicKey
    r_secretKey r_FHEWtoCKKSSwitchKey r_binFHECryptoContext r_BTKey BSkey KSkey] in *.
  unfold deserialize_body, assign. cbn [loadAsync].
  rewrite run_call, run_get, Hm, run_ret.
  rewrite run_bind, (deserializeFile_accepted _ _ _ _ _ _ Hcc), run_modify.
  rewrite run_bind, (deserializeFile_accepted _ _ _ _ _ _ Hpk), run_modify.
  rewrite run_bind, (deserializeFile_accepted _ _ _ _ _ _ Hsk), run_modify.
  rewrite run_bind, (install_if_present_accepted _ _ _ _ _ Hmult).
  rewrite run_bind, (install_if_present_accepted _ _ _ _ _ Hrot).
  rewrite run_bind, (deserializeFile_accepted _ _ _ _ _ _ Hswk), run_modify.
  rewrite run_bind, invoke_run, Hset.
  rewrite run_bind, (deserializeFile_accepted _ _ _ _ _ _ Hbincc), run_modify.
  rewrite run_bind, (deserializeFile_accepted _ _ _ _ _ _ Hbs).
  rewrite run_bind, (deserializeFile_accepted _ _ _ _ _ _ Hks).
  rewrite run_bind, invoke_run, Hload.
  cbn [this engine_calls]. unfold with_reconstructed, primary_calls.
  cbn [r_cryptoContext r_publicKey r_secretKey r_FHEWtoCKKSSwitchKey
       r_binFHECryptoContext r_BTKey].
  rewrite <- !app_assoc. destruct w as [obj calls]. destruct obj. reflexivity.
Qed.

(** An archive lacking one of the three leading entries makes the [try]
    block throw, whatever the engine answers. *)
Lemma deserialize_body_missing zip (w : World) :
  zip !! cryptoContextFile = None \/ zip !! pubKeyFile = None
    \/ zip !! secretKeyFile = None ->
  exists e w', deserialize_body (ZipFile zip) w = (Throw e, w').
Proof.
  intros Hmiss. unfold deserialize_body, assign. cbn [loadAsync].
  rewrite run_call, run_get.
  destruct (module (this w)) as [m|]; [rewrite run_ret|rewrite run_throw; eauto].
  rewrite run_bind.
  destruct (deserializeFile zip (SERTYPE (this w)) cryptoContextFile
              (DeserializeCryptoContextFromBuffer m) w) as [[cc|e] w1] eqn:H1;
    [|eauto].
  rewrite run_modify, run_bind.
  match goal with
  | |- context [deserializeFile zip ?ser pubKeyFile ?f ?w2] =>
      destruct (deserializeFile zip ser pubKeyFile f w2) as [[pk|e] w3] eqn:H2;
        [|eauto]
  end.
  rewrite run_modify, run_bind.
  match goal with
  | |- context [deserializeFile zip ?ser secretKeyFile ?f ?w4] =>
      destruct (deserializeFile zip ser secretKeyFile f w4) as [[sk|e] w5] eqn:H3;
        [|eauto]
  end.
  destruct Hmiss as [Hmiss|[Hmiss|Hmiss]].
  - rewrite (deserializeFile_missing _ _ _ _ _ Hmiss) in H1. discriminate.
  - rewrite (deserializeFile_missing _ _ _ _ _ Hmiss) in H2. discriminate.
  - rewrite (deserializeFile_missing _ _ _ _ _ Hmiss) in H3. discriminate.
Qed.

(** C3. An archive without the context, public-key or secret-key entry is
    never deserialized with success.  Without the context entry the error
    names [cryptocontext.txt] and the deserializer object and the engine
    are exactly as before; without the public-key (secret-key) entry, the
    entries before it being accepted, the error names [key_pub.txt]
    ([key_secret.txt]) and no call has been made on an engine object. *)
Theorem deserialize_missing_mandatory (zip : gmap string ZipObject) (w : World) :
  (zip !! cryptoContextFile = None \/ zip !! pubKeyFile = None
     \/ zip !! secretKeyFile = None ->
   exists e, (deserialize (ZipFile zip) w).1 = Throw e)
  /\ forall m, module (this w) = Some m ->
       (zip !! cryptoContextFile = None ->
        deserialize (ZipFile zip) w
        = (Throw (Error "Error: File cryptocontext.txt not found in the zip"), w))
       /\ (forall cc,
             entry_accepted zip (SERTYPE (this w)) cryptoContextFile
               (DeserializeCryptoContextFromBuffer m) cc ->
             zip !! pubKeyFile = None ->
             deserialize (ZipFile zip) w
             = (Throw (Error "Error: File key_pub.txt not found in the zip"),
                {| this := set_cryptoContext (Some cc) (this w);
                   engine_calls := engine_calls w |}))
       /\ (forall cc pk,
             entry_accepted zip (SERTYPE (this w)) cryptoContextFile
               (DeserializeCryptoContextFromBuffer m) cc ->
             entry_accepted zip (SERTYPE (this w)) pubKeyFile
               (DeserializePublicKeyFromBuffer m) pk ->
             zip !! secretKeyFile = None ->
             deserialize (ZipFile zip) w
             = (Throw (Error "Error: File key_secret.txt not found in the zip"),
                {| this := set_publicKey (Some pk)
                             (set_cryptoContext (Some cc) (this w));
                   engine_calls := engine_calls w |})).
Proof.
  split.
  - intros Hmiss. destruct (deserialize_body_missing zip w Hmiss) as (e & w' & Hbody).
    unfold deserialize. rewrite (try_catch_throw _ _ _ _ _ Hbody).
    destruct (deserialize_catch_throws e w') as [e' ->]. eauto.
  - intros m Hm. split; [|split].
    + intros Hmiss. unfold deserialize. eapply eq_trans.
      { apply try_catch_throw. unfold deserialize_body. cbn [loadAsync].
        rewrite run_call, run_get, Hm, run_ret, run_bind.
        rewrite (deserializeFile_missing _ _ _ _ _ Hmiss). reflexivity. }
      reflexivity.
    + intros cc Hcc Hmiss. unfold deserialize. eapply eq_trans.
      { apply try_catch_throw. unfold deserialize_body, assign. cbn [loadAsync].
        rewrite run_call, run_get, Hm, run_ret.
        rewrite run_bind, (deserializeFile_accepted _ _ _ _ _ _ Hcc), run_modify.
        rewrite run_bind, (deserializeFile_missing _ _ _ _ _ Hmiss). reflexivity. }
      reflexivity.
    + intros cc pk Hcc Hpk Hmiss. unfold deserialize. eapply eq_trans.
      { apply try_catch_throw. unfold deserialize_body, assign. cbn [loadAsync].
        rewrite run_call, run_get, Hm, run_ret.
        rewrite run_bind, (deserializeFile_accepted _ _ _ _ _ _ Hcc), run_modify.
        rewrite run_bind, (deserializeFile_accepted _ _ _ _ _ _ Hpk), run_modify.
        rewrite run_bind, (deserializeFile_missing _ _ _ _ _ Hmiss). reflexivity. }
      reflexivity.
Qed.

(** C8. With every mandatory entry present and accepted, deserialization
    succeeds whether or not the archive holds the multiplication-key and
    rotation-key entries: each of the two is installed on the rebuilt
    context exactly when its entry is there.  (A present entry is assumed
    to install without throwing.) *)
Theorem deserialize_optional_keys
    (m : OpenFHEModule) (zip : gmap string ZipObject) (w : World)
    (o : Reconstructed) (indices : list N) (key_of : N -> RingGSWBTKey) :
  module (this w) = Some m ->
  mandatory_accepted m zip (SERTYPE (this w)) o ->
  optionals_accepted m zip (SERTYPE (this w)) o ->
  entry_accepted zip (SERTYPE (this w)) keyIndexFile
    (DeserializeSeedSeqVector m) indices ->
  indices <> [] ->
  (forall index, In index indices ->
     pair_accepted m zip (SERTYPE (this w)) (r_binFHECryptoContext o)
       index (key_of index)) ->
  SetBinCCForSchemeSwitch m (r_cryptoContext o) (r_binFHECryptoContext o) = Ok tt ->
  exists calls,
    deserialize (ZipFile zip) w
    = (Ok tt, {| this := with_reconstructed o (this w);
                 engine_calls := engine_calls w ++ calls |})
    /\ (forall buf, In (CallDeserializeEvalMultKey (r_cryptoContext o) buf) calls
                    <-> zip !! multKeyFile = Some (Readable buf))
    /\ (forall buf, In (CallDeserializeEvalAutomorphismKey (r_cryptoContext o) buf) calls
                    <-> zip !! rotKeyFile = Some (Readable buf))
    /\ (zip !! multKeyFile = None -> zip !! rotKeyFile = None ->
        calls = [ CallSetSwkFC (r_cryptoContext o) (r_FHEWtoCKKSSwitchKey o);
                  CallBTKeyLoad (r_binFHECryptoContext o) (r_BTKey o) ]
                ++ List.map (fun index =>
                     CallBTKeyMapLoadSingleElement (r_binFHECryptoContext o)
                       index (key_of index)) indices
                ++ [ CallSetBinCCForSchemeSwitch (r_cryptoContext o)
                       (r_binFHECryptoContext o) ]).
Proof.
  intros Hm Hmand Hopt Hidx Hne Hpairs Hbind.
  exists (primary_calls zip o
          ++ List.map (fun index =>
               CallBTKeyMapLoadSingleElement (r_binFHECryptoContext o)
                 index (key_of index)) indices
          ++ [CallSetBinCCForSchemeSwitch (r_cryptoContext o)
                (r_binFHECryptoContext o)]).
  split; [|split; [|split]].
  - unfold deserialize. apply try_catch_ok.
    rewrite (deserialize_body_primary m zip o w Hm Hmand Hopt).
    rewrite run_bind, (deserializeFile_accepted _ _ _ _ _ _ Hidx).
    cbn zeta. rewrite copyVecToJs_id.
    case_decide as Hlen; [destruct indices; [congruence|discriminate Hlen]|].
    rewrite run_ret, run_bind.
    rewrite (load_key_pairs_accepted _ _ _ _ key_of _ _ Hpairs).
    rewrite invoke_run, Hbind. cbn [this engine_calls].
    rewrite <- !app_assoc. reflexivity.
  - intros buf. unfold primary_calls, optional_calls.
    rewrite !in_app_iff, in_map_iff.
    destruct (zip !! multKeyFile) as [[c|r]|], (zip !! rotKeyFile) as [[c'|r']|];
      cbn [In]; split; intros H;
      repeat match goal with
             | H : _ \/ _ |- _ => destruct H
             | H : exists _, _ |- _ => destruct H as (? & ? & ?)
             | H : False |- _ => destruct H
             end;
      try discriminate; try congruence; auto.
    all: injection H as ->; auto.
  - intros buf. unfold primary_calls, optional_calls.
    rewrite !in_app_iff, in_map_iff.
    destruct (zip !! multKeyFile) as [[c|r]|], (zip !! rotKeyFile) as [[c'|r']|];
      cbn [In]; split; intros H;
      repeat match goal with
             | H : _ \/ _ |- _ => destruct H
             | H : exists _, _ |- _ => destruct H as (? & ? & ?)
             | H : False |- _ => destruct H
             end;
      try discriminate; try congruence; auto.
    all: injection H as ->; auto.
  - intros Hmult Hrot. unfold primary_calls, optional_calls.
    rewrite Hmult, Hrot. reflexivity.
Qed.

End DeserializerFacts.

(** ** The empty bootstrap collection, end to end *)

Module BundleFacts.
Import SchemeSwitchingDataSerializer SchemeSwitchingDataDeserializer.
Import SerializerFacts DeserializerFacts.

(** C6. With no bootstrap entry, [Serialize] still succeeds when the
    engine exports buffers: it serializes the empty index list and pushes no
    mapping.  Deserializing an archive whose index list decodes to no index
    fails, once the entries before it are accepted, with the error that
    says no indices were found; the secondary context is never bound to
    the primary one. *)
Theorem empty_bootstrap_collection :
  (forall (this : DataAndLocation.t) (m : OpenFHEModule) (bincc : Obj),
      module this = Some m ->
      binFHECryptoContext this = Some bincc ->
      keys (GetBTKeyMap m bincc) = [] ->
      (forall a, returns_buffer (export_of this a)) ->
      exists this' buf,
        Serialize this = (Ok tt, this')
        /\ SerializeSeedSeqVector m [] (SERTYPE this) = Ok (Some buf)
        /\ keyIndexBuffer (buffers this') = Some buf
        /\ EvalKeyMappings (buffers this') = EvalKeyMappings (buffers this))
  /\ (forall (m : OpenFHEModule) (zip : gmap string ZipObject) (w : World)
             (o : Reconstructed),
      module (this w) = Some m ->
      mandatory_accepted m zip (SERTYPE (this w)) o ->
      optionals_accepted m zip (SERTYPE (this w)) o ->
      entry_accepted zip (SERTYPE (this w)) keyIndexFile
        (DeserializeSeedSeqVector m) [] ->
      deserialize (ZipFile zip) w
      = (Throw (Error
           "Error: Error deserializing from key_indices.txt. No indices found."),
         {| this := with_reconstructed o (this w);
            engine_calls := engine_calls w ++ primary_calls zip o |})
      /\ ~ In (CallSetBinCCForSchemeSwitch (r_cryptoContext o)
                 (r_binFHECryptoContext o))
              (primary_calls zip o)).
Proof.
  split.
  - intros this m bincc Hm Hbincc Hkeys Hexp.
    destruct (Serialize_succeeds this Hexp) as [this' HS].
    { intros m' bincc' Hm' Hbincc' index Hin.
      assert (m' = m) as -> by congruence.
      assert (bincc' = bincc) as -> by congruence.
      rewrite Hkeys in Hin. destruct Hin. }
    exists this'. pose proof (Serialize_ok_inv _ _ HS)
      as (m' & bincc' & ms & Hm' & Hbincc' & Hall & Hmaps & Hms & _).
    assert (m' = m) as -> by congruence.
    assert (bincc' = bincc) as -> by congruence.
    destruct (Hall ArtKeyIndex) as (buf & Hbuf & Hfield).
    exists buf. split; [exact HS|]. split; [|split; [exact Hfield|]].
    + destruct this as [cc pk sk bincc0 swk dir m0 ser bufs].
      cbn in Hm, Hbincc. subst m0 bincc0.
      destruct cc, pk, sk, swk; try discriminate Hbuf.
      cbn in Hbuf. rewrite BTKeyMapArr_keys, Hkeys in Hbuf.
      injection Hbuf as Hbuf. exact Hbuf.
    + rewrite Hkeys in Hms. destruct ms; [|discriminate Hms].
      rewrite app_nil_r in Hmaps. exact Hmaps.
  - intros m zip w o Hm Hmand Hopt Hidx. split.
    + unfold deserialize. eapply eq_trans.
      { apply try_catch_throw.
        rewrite (deserialize_body_primary m zip o w Hm Hmand Hopt).
        rewrite run_bind, (deserializeFile_accepted _ _ _ _ _ _ Hidx).
        reflexivity. }
      reflexivity.
    + unfold primary_calls, optional_calls. rewrite !in_app_iff.
      destruct (zip !! multKeyFile) as [[c|r]|], (zip !! rotKeyFile) as [[c'|r']|];
        cbn [In]; intros H;
        repeat match goal with
               | H : _ \/ _ |- _ => destruct H
               | H : False |- _ => destruct H
               end; discriminate.
Qed.

End BundleFacts.

(** ** The theorems at work on concrete inputs *)

Module Witnesses.
Import SchemeSwitchingDataSerializer SchemeSwitchingDataDeserializer.

Lemma setDataDirectory_spec_witness :
  setDataDirectory [] (fresh BINARY)
  = (Throw (Error "dir is an empty string"), fresh BINARY)
  /\ dataDirectory (setDataDirectory (lit "keys/") (fresh BINARY)).2 = lit "keys"
  /\ dataDirectory (setDataDirectory (lit "keys//") (fresh BINARY)).2 = lit "keys/"
  /\ (115%N <> slash
      /\ dataDirectory (setDataDirectory (lit "keys") (fresh BINARY)).2 = lit "keys").
Proof.
  destruct (DataAndLocationFacts.setDataDirectory_spec (fresh BINARY))
    as (Hempty & Hslash & Hslashes & Hother).
  split; [exact Hempty|]. split; [|split].
  - destruct (Hslash (lit "keys")) as [Hrun _].
    exact (f_equal (fun r => dataDirectory r.2) Hrun).
  - exact (f_equal (fun r => dataDirectory r.2) (Hslashes (lit "keys"))).
  - assert (Hc : 115%N <> slash) by (unfold slash; lia).
    split; [exact Hc|].
    destruct (Hother (lit "key") 115%N Hc) as [Hrun _].
    exact (f_equal (fun r => dataDirectory r.2) Hrun).
Defined.

Lemma intToString_stringToInt_witness :
  wf_string [97; 233; 55357; 56832]%N
  /\ intToString (stringToInt [97; 233; 55357; 56832]%N) = [97; 233; 55357; 56832]%N.
Proof.
  assert (Hwf : wf_string [97; 233; 55357; 56832]%N)
    by (unfold wf_string; repeat constructor; lia).
  split; [exact Hwf|]. apply (intToString_stringToInt _ Hwf).
Defined.

Lemma uploadFile_unpacks_witness :
  In (multKeyFile, evalMultKeyBuffer) unpacked_files
  /\ Sample.archive [x03] [3%N] !! multKeyFile = None
  /\ evalMultKeyBuffer
       (buffers (uploadFile (ZipFile (Sample.archive [x03] [3%N]))
                   (Sample.serializer true [3%N])).2) = None.
Proof.
  assert (Hin : In (multKeyFile, evalMultKeyBuffer) unpacked_files)
    by (cbn; tauto).
  assert (Habs : Sample.archive [x03] [3%N] !! multKeyFile = None)
    by (vm_compute; reflexivity).
  split; [exact Hin|]. split; [exact Habs|].
  destruct (ArchiverFacts.uploadFile_unpacks (Sample.archive [x03] [3%N])
              (Sample.serializer true [3%N])) as (_ & Hfields & _ & _ & _).
  destruct (Hfields multKeyFile evalMultKeyBuffer Hin) as [_ Hnone].
  exact (Hnone Habs).
Defined.

Lemma Serialize_absent_export_witness :
  export_of (Sample.serializer false [3; 7]%N) ArtPublicKey = Some (Ok None)
  /\ reaches (Sample.serializer false [3; 7]%N) ArtPublicKey
  /\ (exists e, (Serialize (Sample.serializer false [3; 7]%N)).1 = Throw e)
  /\ (exists this',
        Serialize (Sample.serializer false [3; 7]%N)
        = (Throw (Error (error_of ArtPublicKey)), this')
        /\ cryptoContextBuffer (buffers this') = Some [x01]
        /\ publicKeyBuffer (buffers this') = None
        /\ secretKeyBuffer (buffers this') = None
        /\ EvalKeyMappings (buffers this') = [])
  /\ export_of (Sample.serializer_empty_publicKey [3; 7]%N) ArtPublicKey
     = Some (Ok (Some []))
  /\ (forall b, returns_buffer
                  (export_of (Sample.serializer_empty_publicKey [3; 7]%N) b))
  /\ pairs_exported (Sample.serializer_empty_publicKey [3; 7]%N)
  /\ exists this',
       Serialize (Sample.serializer_empty_publicKey [3; 7]%N) = (Ok tt, this')
       /\ field_of ArtPublicKey (buffers this') = Some [].
Proof.
  assert (Ha : export_of (Sample.serializer false [3; 7]%N) ArtPublicKey
               = Some (Ok None)) by reflexivity.
  assert (Hreach : reaches (Sample.serializer false [3; 7]%N) ArtPublicKey).
  { split; [|discriminate].
    intros b Hb. vm_compute in Hb. destruct Hb as [<-|[]].
    exists [x01]. reflexivity. }
  assert (Hz : export_of (Sample.serializer_empty_publicKey [3; 7]%N) ArtPublicKey
               = Some (Ok (Some []))) by reflexivity.
  assert (Hexp : forall b, returns_buffer
                   (export_of (Sample.serializer_empty_publicKey [3; 7]%N) b))
    by (intros b; destruct b; eexists; reflexivity).
  assert (Hpairs : pairs_exported (Sample.serializer_empty_publicKey [3; 7]%N)).
  { intros m bincc Hm Hbincc index _. cbn in Hm. injection Hm as <-.
    exists [x08], [x09]. split; reflexivity. }
  destruct (SerializerFacts.Serialize_absent_export
              (Sample.serializer false [3; 7]%N) ArtPublicKey) as [Habsent _].
  destruct (Habsent Ha) as [Hthrows Hnamed].
  destruct (Hnamed Hreach)
    as (this' & Hrun & _ & Hbefore & Hfield & Hafter & pushed & Hmaps & Hnil & _).
  destruct (SerializerFacts.Serialize_absent_export
              (Sample.serializer_empty_publicKey [3; 7]%N) ArtPublicKey)
    as [_ Hzero].
  split; [exact Ha|]. split; [exact Hreach|]. split; [exact Hthrows|].
  split.
  { exists this'. split; [exact Hrun|]. split; [|split; [exact Hfield|split]].
    - destruct (Hbefore ArtCryptoContext ltac:(vm_compute; tauto)) as (buf & Hb & Hf).
      cbn in Hb. injection Hb as <-. exact Hf.
    - exact (Hafter ArtSecretKey ltac:(vm_compute; tauto)).
    - rewrite Hmaps, (Hnil ltac:(discriminate)). reflexivity. }
  split; [exact Hz|]. split; [exact Hexp|]. split; [exact Hpairs|].
  exact (Hzero Hz Hexp Hpairs).
Defined.

Lemma Serialize_index_integrity_witness :
  let this0 := Sample.serializer true [3; 7]%N in
  let this' := (Serialize this0).2 in
  module this0 = Some (Sample.engine true [3; 7]%N)
  /\ binFHECryptoContext this0 = Some 7%N
  /\ NoDup (keys (GetBTKeyMap (Sample.engine true [3; 7]%N) 7%N))
  /\ Serialize this0 = (Ok tt, this')
  /\ EvalKeyMappings (buffers this0) = []
  /\ keyIndexBuffer (buffers this') = Some [x03; x07]
  /\ List.map mapping_key (EvalKeyMappings (buffers this')) = [3; 7]%N
  /\ exists indices buf pushed,
       SerializeSeedSeqVector (Sample.engine true [3; 7]%N) indices (SERTYPE this0)
       = Ok (Some buf)
       /\ keyIndexBuffer (buffers this') = Some buf
       /\ indices = keys (GetBTKeyMap (Sample.engine true [3; 7]%N) 7%N)
       /\ NoDup indices
       /\ EvalKeyMappings (buffers this') = EvalKeyMappings (buffers this0) ++ pushed
       /\ List.map mapping_key pushed = indices
       /\ (EvalKeyMappings (buffers this0) = [] ->
           List.map mapping_key (EvalKeyMappings (buffers this')) = indices
           /\ NoDup (List.map mapping_key (EvalKeyMappings (buffers this')))
           /\ forall index, In index indices <->
                 exists mapping, In mapping (EvalKeyMappings (buffers this'))
                                 /\ mapping_key mapping = index).
Proof.
  cbn zeta.
  assert (Hnodup : NoDup (keys (GetBTKeyMap (Sample.engine true [3; 7]%N) 7%N))).
  { cbn. apply (bool_decide_unpack _). vm_compute. exact I. }
  assert (HS : Serialize (Sample.serializer true [3; 7]%N)
               = (Ok tt, (Serialize (Sample.serializer true [3; 7]%N)).2))
    by reflexivity.
  split; [reflexivity|]. split; [reflexivity|]. split; [exact Hnodup|].
  split; [exact HS|]. split; [reflexivity|]. split; [reflexivity|].
  split; [reflexivity|].
  exact (SerializerFacts.Serialize_index_integrity
           (Sample.serializer true [3; 7]%N)
           (Serialize (Sample.serializer true [3; 7]%N)).2
           (Sample.engine true [3; 7]%N) 7%N
           eq_refl eq_refl Hnodup HS).
Defined.

(** Discharges an [entry_accepted] goal on a concrete archive. *)
Ltac accept_entry := eexists; split; [vm_compute; reflexivity|reflexivity].

Lemma deserialize_missing_mandatory_witness :
  let w := Sample.deserializer [3%N] in
  let only_context : gmap string ZipObject :=
    {[ cryptoContextFile := Readable [x01] ]} in
  (∅ : gmap string ZipObject) !! cryptoContextFile = None
  /\ deserialize (ZipFile ∅) w
     = (Throw (Error "Error: File cryptocontext.txt not found in the zip"), w)
  /\ entry_accepted only_context BINARY cryptoContextFile
       (DeserializeCryptoContextFromBuffer (Sample.engine true [3%N])) 1%N
  /\ only_context !! pubKeyFile = None
  /\ deserialize (ZipFile only_context) w
     = (Throw (Error "Error: File key_pub.txt not found in the zip"),
        {| this := set_cryptoContext (Some 1%N) (this w);
           engine_calls := [] |})
  /\ exists e, (deserialize (ZipFile only_context) w).1 = Throw e.
Proof.
  cbn zeta.
  assert (Hctx : (∅ : gmap string ZipObject) !! cryptoContextFile = None)
    by reflexivity.
  assert (Hacc : entry_accepted {[ cryptoContextFile := Readable [x01] ]} BINARY
                   cryptoContextFile
                   (DeserializeCryptoContextFromBuffer (Sample.engine true [3%N]))
                   1%N) by accept_entry.
  assert (Hpub : ({[ cryptoContextFile := Readable [x01] ]} : gmap string ZipObject)
                   !! pubKeyFile = None) by (vm_compute; reflexivity).
  destruct (DeserializerFacts.deserialize_missing_mandatory ∅
              (Sample.deserializer [3%N])) as [_ Hnamed].
  destruct (Hnamed (Sample.engine true [3%N]) eq_refl) as (Hfirst & _ & _).
  destruct (DeserializerFacts.deserialize_missing_mandatory
              {[ cryptoContextFile := Readable [x01] ]}
              (Sample.deserializer [3%N])) as [Hthrows Hnamed'].
  destruct (Hnamed' (Sample.engine true [3%N]) eq_refl) as (_ & Hsecond & _).
  split; [exact Hctx|]. split; [exact (Hfirst Hctx)|].
  split; [exact Hacc|]. split; [exact Hpub|].
  split; [exact (Hsecond 1%N Hacc Hpub)|].
  exact (Hthrows (or_intror (or_introl Hpub))).
Defined.

Lemma empty_bootstrap_collection_witness :
  let this0 := Sample.serializer true [] in
  let w := Sample.deserializer [] in
  let zip := packed_entries (Serialize this0).2 in
  module this0 = Some (Sample.engine true [])
  /\ binFHECryptoContext this0 = Some 7%N
  /\ keys (GetBTKeyMap (Sample.engine true []) 7%N) = []
  /\ (forall a, returns_buffer (export_of this0 a))
  /\ (exists this' buf,
        Serialize this0 = (Ok tt, this')
        /\ SerializeSeedSeqVector (Sample.engine true []) [] (SERTYPE this0)
           = Ok (Some buf)
        /\ keyIndexBuffer (buffers this') = Some buf
        /\ EvalKeyMappings (buffers this') = EvalKeyMappings (buffers this0))
  /\ module (this w) = Some (Sample.engine true [])
  /\ mandatory_accepted (Sample.engine true []) zip BINARY Sample.rebuilt
  /\ optionals_accepted (Sample.engine true []) zip BINARY Sample.rebuilt
  /\ entry_accepted zip BINARY keyIndexFile
       (DeserializeSeedSeqVector (Sample.engine true [])) []
  /\ deserialize (createDownloadableFile (Serialize this0).2) w
     = (Throw (Error
          "Error: Error deserializing from key_indices.txt. No indices found."),
        {| this := with_reconstructed Sample.rebuilt (this w);
           engine_calls :=
             [ CallDeserializeEvalMultKey 1%N [x04];
               CallDeserializeEvalAutomorphismKey 1%N [x05];
               CallSetSwkFC 1%N 6%N;
               CallBTKeyLoad 7%N {| BSkey := 8%N; KSkey := 9%N |} ] |}).
Proof.
  cbn zeta.
  assert (Hexp : forall a,
             returns_buffer (export_of (Sample.serializer true []) a))
    by (intros a; destruct a; eexists; reflexivity).
  assert (Hmand : mandatory_accepted (Sample.engine true [])
                    (packed_entries (Serialize (Sample.serializer true [])).2)
                    BINARY Sample.rebuilt)
    by (repeat split; try accept_entry).
  assert (Hopt : optionals_accepted (Sample.engine true [])
                   (packed_entries (Serialize (Sample.serializer true [])).2)
                   BINARY Sample.rebuilt).
  { split; vm_compute; exists true; reflexivity. }
  assert (Hidx : entry_accepted
                   (packed_entries (Serialize (Sample.serializer true [])).2)
                   BINARY keyIndexFile
                   (DeserializeSeedSeqVector (Sample.engine true [])) [])
    by accept_entry.
  destruct BundleFacts.empty_bootstrap_collection as [Hser Hdes].
  split; [reflexivity|]. split; [reflexivity|]. split; [reflexivity|].
  split; [exact Hexp|].
  split; [exact (Hser (Sample.serializer true []) (Sample.engine true []) 7%N
                   eq_refl eq_refl eq_refl Hexp)|].
  split; [reflexivity|]. split; [exact Hmand|]. split; [exact Hopt|].
  split; [exact Hidx|].
  exact (proj1 (Hdes (Sample.engine true [])
                 (packed_entries (Serialize (Sample.serializer true [])).2)
                 (Sample.deserializer []) Sample.rebuilt
                 eq_refl Hmand Hopt Hidx)).
Defined.

Lemma deserialize_optional_keys_witness :
  let m := Sample.engine true [3; 7]%N in
  let w := Sample.deserializer [3; 7]%N in
  let zip := Sample.archive [x03; x07] [3; 7]%N in
  let key_of := fun _ : N => {| BSkey := 8%N; KSkey := 9%N |} in
  module (this w) = Some m
  /\ mandatory_accepted m zip BINARY Sample.rebuilt
  /\ optionals_accepted m zip BINARY Sample.rebuilt
  /\ entry_accepted zip BINARY keyIndexFile (DeserializeSeedSeqVector m) [3; 7]%N
  /\ [3; 7]%N <> []
  /\ (forall index, In index [3; 7]%N ->
        pair_accepted m zip BINARY 7%N index (key_of index))
  /\ SetBinCCForSchemeSwitch m 1%N 7%N = Ok tt
  /\ zip !! multKeyFile = None
  /\ zip !! rotKeyFile = Some (Readable [x05])
  /\ exists calls,
       deserialize (ZipFile zip) w
       = (Ok tt, {| this := with_reconstructed Sample.rebuilt (this w);
                    engine_calls := engine_calls w ++ calls |})
       /\ (forall buf, ~ In (CallDeserializeEvalMultKey 1%N buf) calls)
       /\ In (CallDeserializeEvalAutomorphismKey 1%N [x05]) calls.
Proof.
  cbn zeta.
  assert (Hmand : mandatory_accepted (Sample.engine true [3; 7]%N)
                    (Sample.archive [x03; x07] [3; 7]%N) BINARY Sample.rebuilt)
    by (repeat split; try accept_entry).
  assert (Hopt : optionals_accepted (Sample.engine true [3; 7]%N)
                   (Sample.archive [x03; x07] [3; 7]%N) BINARY Sample.rebuilt).
  { split; vm_compute; [exact I|]. exists true. reflexivity. }
  assert (Hidx : entry_accepted (Sample.archive [x03; x07] [3; 7]%N) BINARY
                   keyIndexFile
                   (DeserializeSeedSeqVector (Sample.engine true [3; 7]%N))
                   [3; 7]%N) by accept_entry.
  assert (Hne : [3; 7]%N <> []) by discriminate.
  assert (Hpairs : forall index, In index [3; 7]%N ->
             pair_accepted (Sample.engine true [3; 7]%N)
               (Sample.archive [x03; x07] [3; 7]%N) BINARY 7%N index
               {| BSkey := 8%N; KSkey := 9%N |}).
  { intros index [<-|[<-|[]]]; repeat split; accept_entry. }
  assert (Hmult : Sample.archive [x03; x07] [3; 7]%N !! multKeyFile = None)
    by (vm_compute; reflexivity).
  assert (Hrot : Sample.archive [x03; x07] [3; 7]%N !! rotKeyFile
                 = Some (Readable [x05])) by (vm_compute; reflexivity).
  destruct (DeserializerFacts.deserialize_optional_keys
              (Sample.engine true [3; 7]%N)
              (Sample.archive [x03; x07] [3; 7]%N)
              (Sample.deserializer [3; 7]%N) Sample.rebuilt [3; 7]%N
              (fun _ => {| BSkey := 8%N; KSkey := 9%N |})
              eq_refl Hmand Hopt Hidx Hne Hpairs eq_refl)
    as (calls & Hrun & Hmultcalls & Hrotcalls & _).
  split; [reflexivity|]. split; [exact Hmand|]. split; [exact Hopt|].
  split; [exact Hidx|]. split; [exact Hne|]. split; [exact Hpairs|].
  split; [reflexivity|]. split; [exact Hmult|]. split; [exact Hrot|].
  exists calls. split; [exact Hrun|]. split.
  - intros buf Hin. apply Hmultcalls in Hin.
    rewrite Hmult in Hin. discriminate Hin.
  - apply Hrotcalls. exact Hrot.
Defined.

End Witnesses.

(** * Further properties *)

(** ** The chunked transfer, beyond completion *)

Module TransferFacts.
Import SchemeSwitchingDataSerializer Download.

Lemma total_length_filled_bytes (l : ChunkArray) :
  total_length l = length (filled_bytes l).
Proof.
  unfold filled_bytes. induction l as [|[c|] l IH]; [reflexivity| |].
  - unfold total_length. cbn [fold_left].
    rewrite ChunkedTransferFacts.total_length_acc, IH.
    cbn. rewrite length_app. lia.
  - exact IH.
Qed.

(** Copying the chunks of any slot array into a zeroed array of their total
    length never leaves the array: the result is their concatenation. *)
Lemma copy_chunks_any (l : ChunkArray) (done : Buffer) :
  copy_chunks l (done ++ replicate (length (filled_bytes l)) x00) (length done)
  = Some (done ++ filled_bytes l).
Proof.
  unfold filled_bytes. revert done.
  induction l as [|[c|] l IH]; intros done.
  - cbn. rewrite app_nil_r. reflexivity.
  - cbn. unfold typed_array_set.
    rewrite !length_app, length_replicate.
    case_decide as Hfit; [|lia].
    rewrite take_app_length, drop_app_ge by lia.
    replace (length done + length c - length done) with (length c) by lia.
    rewrite drop_replicate_add.
    specialize (IH (done ++ c)). rewrite length_app in IH.
    rewrite <- !app_assoc in IH. exact IH.
  - cbn. apply IH.
Qed.

Lemma length_array_set (l : ChunkArray) (i : nat) (c : Buffer) :
  length (array_set l i c) = Nat.max (length l) (S i).
Proof.
  unfold array_set. case_decide.
  - transitivity (length l); [apply length_insert|lia].
  - rewrite !length_app, length_replicate. cbn. lia.
Qed.

(** What the handler maintains while chunks for [n] slots arrive without an
    error: the array never outgrows [n], the promise is resolved exactly when
    the array has reached length [n], and that happens exactly when slot
    [n - 1] has been written. *)
Lemma transfer_invariant (n : nat) (msgs : list WorkerMessage)
    (st : Transfer) (seen : list nat) :
  Forall (chunk_of n) msgs ->
  length (chunks st) <= n ->
  (promise st = Pending /\ length (chunks st) <> n \/
   (exists v, promise st = Resolved v) /\ length (chunks st) = n /\ 0 < n) ->
  (length (chunks st) = n /\ 0 < n <-> In (n - 1) seen) ->
  let st' := fold_left onmessage msgs st in
  length (chunks st') <= n
  /\ (promise st' = Pending /\ ~ In (n - 1) (seen ++ filled_indices msgs) \/
      (exists v, promise st' = Resolved v)
      /\ In (n - 1) (seen ++ filled_indices msgs)).
Proof.
  revert st seen. induction msgs as [|d msgs IH]; intros st seen Hall Hlen Hst Hseen.
  - cbn. rewrite app_nil_r. split; [exact Hlen|].
    destruct Hst as [[Hp Hne]|(Hv & Hfull & Hpos)].
    + left. split; [exact Hp|]. rewrite <- Hseen.
      intros [Hfull Hpos]. destruct Hp.
      destruct (Nat.eq_dec (length (chunks st)) n); [|tauto].
      destruct n; [lia|]. tauto.
    + right. split; [exact Hv|]. apply Hseen. tauto.
  - apply Forall_cons in Hall. destruct Hall as [Hd Hall].
    cbn [fold_left].
    destruct d as [c i total| |e|]; cbn in Hd.
    + (* a chunk for slot [i] *)
      destruct Hd as [-> Hi].
      replace (seen ++ filled_indices (fileChunk c i n :: msgs))
        with ((seen ++ [i]) ++ filled_indices msgs)
        by (rewrite <- app_assoc; reflexivity).
      pose proof (length_array_set (chunks st) i c) as Hset.
      apply IH; [exact Hall| | |].
      * cbn [onmessage]. case_decide; [destruct (copy_chunks _ _ _)|]; cbn; lia.
      * cbn [onmessage]. case_decide as Hfull.
        -- right. rewrite total_length_filled_bytes.
           pose proof (copy_chunks_any (array_set (chunks st) i c) []) as Hcopy.
           cbn [app length] in Hcopy. rewrite Hcopy. cbn [chunks promise].
           split; [|split; [exact Hfull|lia]].
           destruct Hst as [[-> _]|([v ->] & _)]; cbn; eauto.
        -- cbn [chunks promise]. left. split; [|exact Hfull].
           destruct Hst as [[Hp _]|(_ & Hlen' & _)]; [exact Hp|lia].
      * assert (Hchunks : chunks (onmessage st (fileChunk c i n))
                          = array_set (chunks st) i c).
        { cbn [onmessage]. case_decide; [destruct (copy_chunks _ _ _)|]; reflexivity. }
        rewrite Hchunks, in_app_iff. cbn [In]. split.
        -- intros [Hfull Hpos].
           destruct (Nat.eq_dec (length (chunks st)) n) as [Heq|Hne].
           ++ left. apply Hseen. tauto.
           ++ right. left. lia.
        -- intros [Hin|[->|[]]]; [apply Hseen in Hin|]; lia.
    + apply IH; assumption.
    + destruct Hd.
    + apply IH; assumption.
Qed.

Lemma chunk_messages_from_filled (n o k : nat) (l : list Buffer) :
  filled_indices (take k (imap (fun i c => fileChunk c (o + i) n) l))
  = seq o (Nat.min k (length l)).
Proof.
  revert o k. induction l as [|c l IH]; intros o k.
  - cbn. rewrite take_nil, Nat.min_0_r. reflexivity.
  - rewrite imap_cons. destruct k as [|k]; [reflexivity|].
    cbn [take length Nat.min seq filled_indices omap]. cbn.
    rewrite Nat.add_0_r. f_equal.
    rewrite (imap_ext _ (fun i c0 => fileChunk c0 (S o + i) n))
      by (intros; cbn; f_equal; lia).
    apply IH.
Qed.

Lemma chunk_messages_chunk_of (parts : list Buffer) :
  Forall (chunk_of (length parts)) (chunk_messages parts).
Proof.
  apply Forall_lookup. intros j d Hd. unfold chunk_messages in Hd.
  rewrite list_lookup_imap in Hd.
  destruct (parts !! j) as [c|] eqn:Hc; [|discriminate].
  cbn in Hd. injection Hd as <-. cbn. split; [reflexivity|].
  eapply lookup_lt_Some. exact Hc.
Qed.

(** Once the promise is settled no message changes it. *)
Lemma settled_is_final (msgs : list WorkerMessage) (st : Transfer) :
  promise st <> Pending ->
  promise (fold_left onmessage msgs st) = promise st.
Proof.
  revert st. induction msgs as [|d msgs IH]; intros st H; [reflexivity|].
  cbn [fold_left].
  assert (Hstep : promise (onmessage st d) = promise st).
  { destruct d as [chunk index total| |e|]; cbn [onmessage]; try reflexivity.
    - case_decide; [|reflexivity].
      destruct (copy_chunks _ _ _); [|reflexivity].
      cbn [promise]. destruct (promise st); [congruence|reflexivity..].
    - cbn [promise]. destruct (promise st); [congruence|reflexivity..]. }
  rewrite IH; [exact Hstep|]. rewrite Hstep. exact H.
Qed.

Lemma deliver_app (pre post : list WorkerMessage) :
  deliver (pre ++ post) = fold_left onmessage post (deliver pre).
Proof. unfold deliver. apply fold_left_app. Qed.

Lemma error_rejects (pre post : list WorkerMessage) (e : string) :
  promise (deliver pre) = Pending ->
  promise (deliver (pre ++ error e :: post)) = Rejected (Error e).
Proof.
  intros Hpre. rewrite deliver_app. cbn [fold_left].
  rewrite settled_is_final; cbn [onmessage promise]; rewrite Hpre; [reflexivity|].
  discriminate.
Qed.

(** With no slot to fill, every message is ignored. *)
Lemma no_slot_ignored (msgs : list WorkerMessage) (st : Transfer) :
  Forall (chunk_of 0) msgs ->
  fold_left onmessage msgs st = st /\ filled_indices msgs = [].
Proof.
  induction 1 as [|d msgs Hd _ IH]; [split; reflexivity|].
  destruct d as [c i total| |e|]; cbn in Hd; try (destruct Hd; lia);
    cbn [fold_left onmessage]; exact IH.
Qed.

Lemma start_invariant (n : nat) (msgs : list WorkerMessage) :
  Forall (chunk_of n) msgs ->
  promise (deliver msgs) = Pending /\ ~ In (n - 1) (filled_indices msgs) \/
  (exists v, promise (deliver msgs) = Resolved v)
  /\ In (n - 1) (filled_indices msgs).
Proof.
  intros Hall. destruct n as [|n].
  - destruct (no_slot_ignored msgs start Hall) as [Hrun Hnone].
    left. unfold deliver. rewrite Hrun, Hnone. split; [reflexivity|intros []].
  - refine (proj2 (transfer_invariant (S n) msgs start [] Hall _ _ _)); cbn.
    + lia.
    + left. split; [reflexivity|lia].
    + split; [lia|intros []].
Qed.

(** X1. Delivered in index order, the chunks of a non-empty chunk set are
    assembled into their concatenation, and the promise is still pending
    after any smaller number of these messages. *)
Theorem deliver_in_order_exact (parts : list Buffer) :
  parts <> [] ->
  promise (deliver (chunk_messages parts)) = Resolved (concat parts)
  /\ forall k, k < length parts ->
       promise (deliver (take k (chunk_messages parts))) = Pending.
Proof.
  intros Hne. split.
  - rewrite (ChunkedTransferFacts.deliver_in_order parts Hne). reflexivity.
  - intros k Hk.
    destruct (start_invariant (length parts) (take k (chunk_messages parts)))
      as [[Hp _]|[_ Hin]]; [|exact Hp|].
    + apply Forall_take, chunk_messages_chunk_of.
    + exfalso.
      assert (Hf : filled_indices (take k (chunk_messages parts))
                   = seq 0 (Nat.min k (length parts)))
        by exact (chunk_messages_from_filled (length parts) 0 k parts).
      rewrite Hf in Hin. apply in_seq in Hin. lia.
Qed.

(** X2. Assembling never writes outside the array: whenever a chunk brings
    the array to the announced length while the operation is pending, the
    promise is resolved with the bytes of the filled slots in index order,
    holes being skipped. *)
Theorem onmessage_assembles (st : Transfer) (chunk : Buffer) (index total : nat) :
  promise st = Pending ->
  length (array_set (chunks st) index chunk) = total ->
  promise (onmessage st (fileChunk chunk index total))
  = Resolved (filled_bytes (array_set (chunks st) index chunk)).
Proof.
  intros Hp Hfull. cbn [onmessage]. case_decide; [|congruence].
  rewrite total_length_filled_bytes.
  pose proof (copy_chunks_any (array_set (chunks st) index chunk) []) as Hcopy.
  cbn [app length] in Hcopy. rewrite Hcopy. cbn [promise]. rewrite Hp. reflexivity.
Qed.

(** X3. While the worker sends chunks for [n] slots and no error, the caller
    declares completion exactly when a chunk for the last slot, [n - 1], has
    arrived, whatever else has or has not. *)
Theorem completion_iff_last_index (n : nat) (msgs : list WorkerMessage) :
  Forall (chunk_of n) msgs ->
  declares_completion (deliver msgs) <-> In (n - 1) (filled_indices msgs).
Proof.
  intros Hall. unfold declares_completion.
  destruct (start_invariant n msgs Hall) as [[Hp Hnot]|[Hv Hin]].
  - rewrite Hp. split; [intros [v Hv]; discriminate|tauto].
  - tauto.
Qed.

(** X4. A settled promise is final: an error message rejects a pending
    operation with that error, whatever chunks follow; and once the promise
    is resolved or rejected, no later message changes it. *)
Theorem settlement_is_final (pre post : list WorkerMessage) :
  (forall e, promise (deliver pre) = Pending ->
             promise (deliver (pre ++ error e :: post)) = Rejected (Error e))
  /\ (promise (deliver pre) <> Pending ->
      promise (deliver (pre ++ post)) = promise (deliver pre)).
Proof.
  split.
  - intros e Hp. apply error_rejects, Hp.
  - intros Hs. rewrite deliver_app. apply settled_is_final, Hs.
Qed.

(** X5. [downloadFileViaWorker] hands [saveAs] exactly the assembled
    bytes and the given name when the chunks arrive in order, and returns
    when [saveAs] does; it throws the one error
    [Error creating downloadable] when there is no worker, when the worker
    reports an error, whatever that error says, and when [saveAs] throws;
    and it never returns while no chunk for the last slot has arrived, in
    particular for a transfer of zero chunks. *)
Theorem downloadFileViaWorker_outcomes
    (saveAs : Buffer -> JsString -> Outcome unit) (fileName : JsString) :
  downloadFileViaWorker saveAs None fileName
  = Some (Throw (Error "Error creating downloadable"))
  /\ (forall pre e post,
        promise (deliver pre) = Pending ->
        downloadFileViaWorker saveAs (Some (pre ++ error e :: post)) fileName
        = Some (Throw (Error "Error creating downloadable")))
  /\ (forall parts,
        parts <> [] ->
        downloadFileViaWorker saveAs (Some (chunk_messages parts)) fileName
        = Some (match saveAs (concat parts) fileName with
                | Ok _ => Ok tt
                | Throw _ => Throw (Error "Error creating downloadable")
                end))
  /\ (forall n msgs,
        Forall (chunk_of n) msgs ->
        ~ In (n - 1) (filled_indices msgs) ->
        downloadFileViaWorker saveAs (Some msgs) fileName = None).
Proof.
  split; [reflexivity|]. split; [|split].
  - intros pre e post Hp. unfold downloadFileViaWorker, createDownloadableFileViaWorker.
    rewrite (error_rejects pre post e Hp). reflexivity.
  - intros parts Hne. unfold downloadFileViaWorker, createDownloadableFileViaWorker.
    rewrite (ChunkedTransferFacts.deliver_in_order parts Hne). cbn [promise].
    destruct (saveAs (concat parts) fileName); reflexivity.
  - intros n msgs Hall Hnot. unfold downloadFileViaWorker, createDownloadableFileViaWorker.
    destruct (start_invariant n msgs Hall) as [[-> _]|[_ Hin]]; [reflexivity|tauto].
Qed.

End TransferFacts.

(** ** The names of archive entries *)

Module NameFacts.
Import SchemeSwitchingDataSerializer SchemeSwitchingDataDeserializer.

Lemma string_app_assoc (a b c : string) : (a +:+ b) +:+ c = a +:+ (b +:+ c).
Proof.
  induction a as [|x a IH]; [reflexivity|].
  change (String x ((a +:+ b) +:+ c) = String x (a +:+ (b +:+ c))).
  rewrite IH. reflexivity.
Qed.

Lemma string_app_empty_r (a : string) : a +:+ "" = a.
Proof.
  induction a as [|x a IH]; [reflexivity|].
  change (String x (a +:+ "") = String x a). rewrite IH. reflexivity.
Qed.

Lemma all_digits_app (a b : string) :
  all_digits (a +:+ b) = all_digits a && all_digits b.
Proof.
  induction a as [|x a IH]; [reflexivity|].
  change (is_digit x && all_digits (a +:+ b)
          = is_digit x && all_digits a && all_digits b).
  rewrite IH, andb_assoc. reflexivity.
Qed.

Lemma pretty_N_char_digit (x : N) : is_digit (pretty_N_char x) = true.
Proof. unfold pretty_N_char. repeat case_match; reflexivity. Qed.

(** The decimal printer only ever puts digits in front of its accumulator. *)
Lemma pretty_N_go_digits (x : N) (s : string) :
  exists d, pretty_N_go x s = d +:+ s /\ all_digits d = true
            /\ ((0 < x)%N -> d <> "").
Proof.
  revert s. induction (N.lt_wf_0 x) as [x _ IH]. intros s.
  destruct (decide (x = 0%N)) as [->|Hx].
  - exists "". rewrite pretty_N_go_0. split; [reflexivity|]. split; [reflexivity|lia].
  - rewrite pretty_N_go_step by lia.
    destruct (IH (x `div` 10)%N ltac:(apply N.div_lt; lia)
                 (String (pretty_N_char (x `mod` 10)) s)) as (d & -> & Hd & _).
    exists (d +:+ String (pretty_N_char (x `mod` 10)) "").
    rewrite string_app_assoc. split; [reflexivity|]. split.
    + rewrite all_digits_app, Hd. cbn. rewrite pretty_N_char_digit. reflexivity.
    + intros _. destruct d; discriminate.
Qed.

Lemma pretty_N_digits (n : N) : all_digits (pretty n) = true /\ pretty n <> "".
Proof.
  unfold pretty, pretty_N. case_decide as Hn; [split; [reflexivity|discriminate]|].
  destruct (pretty_N_go_digits n "") as (d & -> & Hd & Hne).
  rewrite string_app_empty_r. split; [exact Hd|apply Hne; lia].
Qed.

(** Two names made of digits, an underscore and a rest agree only if both
    parts agree. *)
Lemma digits_underscore_inj (d1 d2 t1 t2 : string) :
  all_digits d1 = true -> all_digits d2 = true ->
  d1 +:+ String "_" t1 = d2 +:+ String "_" t2 -> d1 = d2 /\ t1 = t2.
Proof.
  revert d2. induction d1 as [|a d1 IH]; intros [|b d2] H1 H2 Heq; cbn in *.
  - injection Heq as ->. split; reflexivity.
  - injection Heq as <- _. discriminate H2.
  - injection Heq as -> _. discriminate H1.
  - injection Heq as -> Heq.
    apply andb_prop in H1, H2. destruct H1 as [_ H1], H2 as [_ H2].
    destruct (IH d2 H1 H2 Heq) as [-> ->]. split; reflexivity.
Qed.

Lemma indexed_name_head (index : N) (baseFileName : string) :
  exists a rest,
    createMapFileNameDeserialize index baseFileName = String a rest
    /\ is_digit a = true.
Proof.
  unfold createMapFileNameDeserialize.
  destruct (pretty_N_digits index) as [Hd Hne].
  destruct (pretty index) as [|a rest]; [congruence|].
  exists a, (rest +:+ "_" +:+ baseFileName). split; [reflexivity|].
  cbn in Hd. apply andb_prop in Hd. tauto.
Qed.

Lemma indexed_name_inj (i j : N) (b b' : string) :
  createMapFileNameDeserialize i b = createMapFileNameDeserialize j b' ->
  i = j /\ b = b'.
Proof.
  intros Heq. unfold createMapFileNameDeserialize in Heq.
  destruct (pretty_N_digits i) as [Hi _], (pretty_N_digits j) as [Hj _].
  destruct (digits_underscore_inj _ _ _ _ Hi Hj Heq) as [Hp ->].
  split; [|reflexivity]. apply (inj pretty). exact Hp.
Qed.

Lemma indexed_name_not_top_level (i : N) (b name : string) :
  In name (List.map fst top_level_files) ->
  createMapFileNameDeserialize i b <> name.
Proof.
  intros Hin Heq.
  destruct (indexed_name_head i b) as (a & rest & Hname & Ha).
  rewrite Heq in Hname. cbn in Hin.
  repeat (destruct Hin as [<-|Hin];
          [injection Hname as <- _; discriminate Ha|]).
  destruct Hin.
Qed.

Lemma top_level_names_NoDup : NoDup (List.map fst top_level_files).
Proof. apply (bool_decide_unpack _). vm_compute. exact I. Qed.

(** X6. Entry names never collide: the ten top-level names are pairwise
    distinct; the name of an indexed entry determines its index and its base
    name; and no indexed name is a top-level name. *)
Theorem entry_names_distinct :
  NoDup (List.map fst top_level_files)
  /\ (forall i j b b',
        createMapFileNameDeserialize i b = createMapFileNameDeserialize j b' ->
        i = j /\ b = b')
  /\ (forall i b name,
        In name (List.map fst top_level_files) ->
        createMapFileNameDeserialize i b <> name).
Proof.
  split; [exact top_level_names_NoDup|]. split.
  - exact indexed_name_inj.
  - exact indexed_name_not_top_level.
Qed.

End NameFacts.

(** ** Packing an archive and reading it back *)

Module PackFacts.
Import SchemeSwitchingDataSerializer SchemeSwitchingDataDeserializer.
Import NameFacts.

Lemma addBufferToZip_lookup_ne buffer fileName zip (name : string) :
  name <> fileName -> addBufferToZip buffer fileName zip !! name = zip !! name.
Proof.
  intros Hne. unfold addBufferToZip. destruct buffer; [|reflexivity].
  case_decide; [reflexivity|]. apply lookup_insert_ne. congruence.
Qed.

Lemma addBufferToZip_lookup buffer fileName zip :
  fileName <> "" ->
  addBufferToZip buffer fileName zip !! fileName
  = match buffer with
    | Some b => Some (Readable b)
    | None => zip !! fileName
    end.
Proof.
  intros Hne. unfold addBufferToZip. destruct buffer; [|reflexivity].
  case_decide; [contradiction|]. apply lookup_insert_eq.
Qed.

(** The ten calls of [addBufferToZip] leave every other name alone. *)
Lemma add_buffers_other (bufs : CryptoContextBuffers)
    (l : list (string * (CryptoContextBuffers -> option Buffer)))
    (zip : gmap string ZipObject) (name : string) :
  ~ In name (List.map fst l) ->
  fold_left (fun zip '(fileName, field) => addBufferToZip (field bufs) fileName zip)
            l zip !! name = zip !! name.
Proof.
  revert zip. induction l as [|[fileName field] l IH]; intros zip Hnot; [reflexivity|].
  cbn [fold_left]. rewrite IH by (intros Hin; apply Hnot; right; exact Hin).
  apply addBufferToZip_lookup_ne. intros ->. apply Hnot. left. reflexivity.
Qed.

Lemma add_buffers_lookup (bufs : CryptoContextBuffers)
    (l : list (string * (CryptoContextBuffers -> option Buffer)))
    (zip : gmap string ZipObject) (name : string) field :
  NoDup (List.map fst l) -> In (name, field) l -> name <> "" ->
  fold_left (fun zip '(fileName, field) => addBufferToZip (field bufs) fileName zip)
            l zip !! name
  = match field bufs with
    | Some b => Some (Readable b)
    | None => zip !! name
    end.
Proof.
  revert zip. induction l as [|[fileName field'] l IH]; intros zip Hnd Hin Hne;
    [destruct Hin|].
  cbn [List.map fst] in Hnd. apply NoDup_cons in Hnd. destruct Hnd as [Hhd Hnd].
  cbn [fold_left]. destruct Hin as [Heq|Hin].
  - inversion Heq; subst. rewrite add_buffers_other.
    + apply addBufferToZip_lookup, Hne.
    + intros Hin. apply Hhd. apply list_elem_of_In. exact Hin.
  - rewrite (IH _ Hnd Hin Hne). destruct (field bufs); [reflexivity|].
    apply addBufferToZip_lookup_ne. intros ->. apply Hhd.
    apply list_elem_of_In. apply (in_map fst _ _ Hin).
Qed.

Lemma add_mapping_other (mp : KeyMapping) (zip : gmap string ZipObject) (name : string) :
  name <> createMapFileNameDeserialize (mapping_key mp) baseRefreshKeyFile ->
  name <> createMapFileNameDeserialize (mapping_key mp) baseSwitchingKeyFile ->
  add_mapping mp zip !! name = zip !! name.
Proof.
  intros H1 H2. unfold add_mapping.
  rewrite lookup_insert_ne by (intros E; apply H2; symmetry; exact E).
  apply lookup_insert_ne. intros E; apply H1; symmetry; exact E.
Qed.

Lemma add_mapping_refresh (mp : KeyMapping) (zip : gmap string ZipObject) :
  add_mapping mp zip !! createMapFileNameDeserialize (mapping_key mp) baseRefreshKeyFile
  = Some (Readable (mapping_BSkey mp)).
Proof.
  unfold add_mapping. rewrite lookup_insert_ne.
  - apply lookup_insert_eq.
  - intros E. apply indexed_name_inj in E. destruct E as [_ E]. discriminate E.
Qed.

Lemma add_mapping_switching (mp : KeyMapping) (zip : gmap string ZipObject) :
  add_mapping mp zip !! createMapFileNameDeserialize (mapping_key mp) baseSwitchingKeyFile
  = Some (Readable (mapping_KSkey mp)).
Proof. unfold add_mapping. apply lookup_insert_eq. Qed.

Lemma add_mappings_other (ms : list KeyMapping) (zip : gmap string ZipObject)
    (name : string) :
  (forall mp, In mp ms ->
     name <> createMapFileNameDeserialize (mapping_key mp) baseRefreshKeyFile
     /\ name <> createMapFileNameDeserialize (mapping_key mp) baseSwitchingKeyFile) ->
  fold_left (fun zip mapping => add_mapping mapping zip) ms zip !! name = zip !! name.
Proof.
  revert zip. induction ms as [|mp ms IH]; intros zip H; [reflexivity|].
  cbn [fold_left]. rewrite IH by (intros mp' Hin; apply H; right; exact Hin).
  destruct (H mp (or_introl eq_refl)) as [H1 H2]. apply add_mapping_other; assumption.
Qed.

(** A later mapping with the same index overwrites the entries of an
    earlier one; a mapping is found in the archive when no other mapping
    claims its index. *)
Lemma add_mappings_lookup (ms : list KeyMapping) (zip : gmap string ZipObject)
    (mp : KeyMapping) :
  In mp ms ->
  (forall mp', In mp' ms -> mapping_key mp' = mapping_key mp -> mp' = mp) ->
  let zip' := fold_left (fun zip mapping => add_mapping mapping zip) ms zip in
  zip' !! createMapFileNameDeserialize (mapping_key mp) baseRefreshKeyFile
    = Some (Readable (mapping_BSkey mp))
  /\ zip' !! createMapFileNameDeserialize (mapping_key mp) baseSwitchingKeyFile
    = Some (Readable (mapping_KSkey mp)).
Proof.
  cbn zeta. induction ms as [|x ms IH] using rev_ind; intros Hin Huniq; [destruct Hin|].
  rewrite fold_left_app. cbn [fold_left].
  destruct (decide (mapping_key x = mapping_key mp)) as [Hk|Hk].
  - assert (x = mp) as -> by (apply Huniq; [apply in_or_app; right; left; reflexivity|exact Hk]).
    split; [apply add_mapping_refresh|apply add_mapping_switching].
  - apply in_app_or in Hin. destruct Hin as [Hin|[->|[]]]; [|contradiction].
    assert (Hne : forall b b',
               createMapFileNameDeserialize (mapping_key mp) b
               <> createMapFileNameDeserialize (mapping_key x) b').
    { intros b b' E. apply indexed_name_inj in E. destruct E as [E _]. congruence. }
    rewrite !add_mapping_other by apply Hne.
    apply IH; [exact Hin|].
    intros mp' Hin' Hk'. apply Huniq; [apply in_or_app; left; exact Hin'|exact Hk'].
Qed.

(** Adding mappings to an archive is adding them to an empty one and
    putting the result in front. *)
Lemma add_mapping_union (mp : KeyMapping) (zip : gmap string ZipObject) :
  add_mapping mp zip = add_mapping mp ∅ ∪ zip.
Proof.
  unfold add_mapping. rewrite <- !insert_union_l, (left_id_L ∅ (∪)). reflexivity.
Qed.

Lemma add_mappings_union (ms : list KeyMapping) (zip : gmap string ZipObject) :
  fold_left (fun zip mapping => add_mapping mapping zip) ms zip
  = fold_left (fun zip mapping => add_mapping mapping zip) ms ∅ ∪ zip.
Proof.
  revert zip. induction ms as [|mp ms IH]; intros zip; cbn [fold_left].
  - rewrite (left_id_L ∅ (∪)). reflexivity.
  - rewrite IH, (IH (add_mapping mp ∅)), (add_mapping_union mp zip).
    rewrite (assoc_L (∪)). reflexivity.
Qed.

(** Adding the same mappings a second time changes nothing. *)
Lemma add_mappings_idemp (ms : list KeyMapping) (zip : gmap string ZipObject) :
  let add := fold_left (fun zip mapping => add_mapping mapping zip) ms in
  add (add zip) = add zip.
Proof.
  cbn zeta. rewrite (add_mappings_union ms (fold_left _ ms zip)).
  rewrite (add_mappings_union ms zip), (assoc_L (∪)), (idemp_L (∪)). reflexivity.
Qed.

(** An entry of the archive comes from a buffer or from a mapping. *)
Lemma add_buffers_lookup_inv (bufs : CryptoContextBuffers)
    (l : list (string * (CryptoContextBuffers -> option Buffer)))
    (zip : gmap string ZipObject) (name : string) (v : ZipObject) :
  fold_left (fun zip '(fileName, field) => addBufferToZip (field bufs) fileName zip)
            l zip !! name = Some v ->
  zip !! name = Some v
  \/ exists field buf, In (name, field) l /\ field bufs = Some buf /\ v = Readable buf.
Proof.
  revert zip. induction l as [|[fileName field] l IH]; intros zip H; [left; exact H|].
  cbn [fold_left] in H. destruct (IH _ H) as [H'|(field' & buf & Hin & Hf & Hv)].
  - unfold addBufferToZip in H'. destruct (field bufs) as [b|] eqn:Hb; [|left; exact H'].
    case_decide; [left; exact H'|].
    destruct (decide (fileName = name)) as [->|Hne].
    + rewrite lookup_insert_eq in H'. injection H' as <-.
      right. exists field, b. split; [left; reflexivity|]. split; [exact Hb|reflexivity].
    + rewrite lookup_insert_ne in H' by exact Hne. left. exact H'.
  - right. exists field', buf. split; [right; exact Hin|]. split; assumption.
Qed.

Lemma add_mappings_lookup_inv (ms : list KeyMapping) (zip : gmap string ZipObject)
    (name : string) (v : ZipObject) :
  fold_left (fun zip mapping => add_mapping mapping zip) ms zip !! name = Some v ->
  zip !! name = Some v
  \/ exists mapping,
       In mapping ms
       /\ ((name = createMapFileNameDeserialize (mapping_key mapping) baseRefreshKeyFile
            /\ v = Readable (mapping_BSkey mapping))
           \/ (name = createMapFileNameDeserialize (mapping_key mapping)
                        baseSwitchingKeyFile
               /\ v = Readable (mapping_KSkey mapping))).
Proof.
  revert zip. induction ms as [|mp ms IH]; intros zip H; [left; exact H|].
  cbn [fold_left] in H. destruct (IH _ H) as [H'|(mp' & Hin & Hmp)].
  - unfold add_mapping in H'.
    destruct (decide (createMapFileNameDeserialize (mapping_key mp) baseSwitchingKeyFile
                      = name)) as [<-|Hne1].
    { rewrite lookup_insert_eq in H'. injection H' as <-.
      right. exists mp. split; [left; reflexivity|]. right. split; reflexivity. }
    rewrite lookup_insert_ne in H' by exact Hne1.
    destruct (decide (createMapFileNameDeserialize (mapping_key mp) baseRefreshKeyFile
                      = name)) as [<-|Hne2].
    { rewrite lookup_insert_eq in H'. injection H' as <-.
      right. exists mp. split; [left; reflexivity|]. left. split; reflexivity. }
    rewrite lookup_insert_ne in H' by exact Hne2. left. exact H'.
  - right. exists mp'. split; [right; exact Hin|exact Hmp].
Qed.

Lemma packed_lookup_inv (this : DataAndLocation.t) (name : string) (v : ZipObject) :
  packed_entries this !! name = Some v ->
  (exists field buf,
     In (name, field) top_level_files
     /\ field (buffers this) = Some buf /\ v = Readable buf)
  \/ exists mapping,
       In mapping (EvalKeyMappings (buffers this))
       /\ ((name = createMapFileNameDeserialize (mapping_key mapping) baseRefreshKeyFile
            /\ v = Readable (mapping_BSkey mapping))
           \/ (name = createMapFileNameDeserialize (mapping_key mapping)
                        baseSwitchingKeyFile
               /\ v = Readable (mapping_KSkey mapping))).
Proof.
  intros H. unfold packed_entries in H.
  destruct (add_mappings_lookup_inv _ _ _ _ H) as [H'|H']; [|right; exact H'].
  destruct (add_buffers_lookup_inv _ _ _ _ _ H') as [H''|H'']; [|left; exact H''].
  rewrite lookup_empty in H''. discriminate.
Qed.

Lemma top_level_name_nonempty (name : string) field :
  In (name, field) top_level_files -> name <> "".
Proof.
  intros Hin. cbn in Hin.
  repeat (destruct Hin as [Hin|Hin]; [inversion Hin; subst; discriminate|]).
  destruct Hin.
Qed.

Lemma packed_top_level (this : DataAndLocation.t) (name : string) field :
  In (name, field) top_level_files ->
  packed_entries this !! name = Readable <$> field (buffers this).
Proof.
  intros Hin. unfold packed_entries. rewrite add_mappings_other.
  - rewrite (add_buffers_lookup _ _ _ name field top_level_names_NoDup Hin
               (top_level_name_nonempty _ _ Hin)).
    destruct (field (buffers this)); reflexivity.
  - intros mp _. split; apply not_eq_sym, indexed_name_not_top_level;
      apply (in_map fst _ _ Hin).
Qed.

Lemma packed_mapping (this : DataAndLocation.t) (mp : KeyMapping) :
  In mp (EvalKeyMappings (buffers this)) ->
  (forall mp', In mp' (EvalKeyMappings (buffers this)) ->
     mapping_key mp' = mapping_key mp -> mp' = mp) ->
  packed_entries this !! createMapFileNameDeserialize (mapping_key mp) baseRefreshKeyFile
    = Some (Readable (mapping_BSkey mp))
  /\ packed_entries this
       !! createMapFileNameDeserialize (mapping_key mp) baseSwitchingKeyFile
    = Some (Readable (mapping_KSkey mp)).
Proof. intros Hin Huniq. unfold packed_entries. apply add_mappings_lookup; assumption. Qed.

Lemma packed_other (this : DataAndLocation.t) (name : string) :
  ~ In name (List.map fst top_level_files) ->
  (forall mp, In mp (EvalKeyMappings (buffers this)) ->
     name <> createMapFileNameDeserialize (mapping_key mp) baseRefreshKeyFile
     /\ name <> createMapFileNameDeserialize (mapping_key mp) baseSwitchingKeyFile) ->
  packed_entries this !! name = None.
Proof.
  intros Htop Hmap. unfold packed_entries.
  rewrite add_mappings_other by exact Hmap.
  rewrite add_buffers_other by exact Htop. apply lookup_empty.
Qed.

(** X7. What the generated archive holds.  Each of the ten top-level files
    is there exactly when its buffer is present, with the buffer as content;
    the two entries of a key mapping hold its two buffers, provided no other
    mapping carries the same index with other buffers; and the archive has
    no entry under any other name. *)
Theorem createDownloadableFile_entries (this : DataAndLocation.t) :
  exists zip,
    createDownloadableFile this = ZipFile zip
    /\ (forall name field,
          In (name, field) top_level_files ->
          zip !! name = Readable <$> field (buffers this))
    /\ (forall mp,
          In mp (EvalKeyMappings (buffers this)) ->
          (forall mp', In mp' (EvalKeyMappings (buffers this)) ->
             mapping_key mp' = mapping_key mp -> mp' = mp) ->
          zip !! createMapFileNameDeserialize (mapping_key mp) baseRefreshKeyFile
            = Some (Readable (mapping_BSkey mp))
          /\ zip !! createMapFileNameDeserialize (mapping_key mp) baseSwitchingKeyFile
            = Some (Readable (mapping_KSkey mp)))
    /\ (forall name,
          ~ In name (List.map fst top_level_files) ->
          (forall mp, In mp (EvalKeyMappings (buffers this)) ->
             name <> createMapFileNameDeserialize (mapping_key mp) baseRefreshKeyFile
             /\ name <> createMapFileNameDeserialize (mapping_key mp)
                          baseSwitchingKeyFile) ->
          zip !! name = None).
Proof.
  exists (packed_entries this). split; [reflexivity|]. split; [|split].
  - apply packed_top_level.
  - apply packed_mapping.
  - apply packed_other.
Qed.

Lemma uploadFile_run (zip : gmap string ZipObject) (this : DataAndLocation.t) :
  uploadFile (ZipFile zip) this
  = (Ok tt,
     update_buffers (fun b =>
       {| cryptoContextBuffer := readFileFromZip zip cryptoContextFile;
          publicKeyBuffer := readFileFromZip zip pubKeyFile;
          secretKeyBuffer := secretKeyBuffer b;
          evalMultKeyBuffer := readFileFromZip zip multKeyFile;
          automorphismKeyBuffer := readFileFromZip zip rotKeyFile;
          FHEWtoCKKSSwitchKeyBuffer := readFileFromZip zip FHEWtoCKKSSwitchKeyFile;
          binfheCryptoContextBuffer := readFileFromZip zip binFHECryptoContextFile;
          binFHEBootRefreshKeyBuffer := readFileFromZip zip binFHEBootRefreshKeyFile;
          binFHEBootRotKeyBuffer := readFileFromZip zip binFHEBootRotKeyFile;
          keyIndexBuffer := readFileFromZip zip keyIndexFile;
          EvalKeyMappings := EvalKeyMappings b |}) this).
Proof. destruct this as [a b c d e f g h bufs]. destruct bufs. reflexivity. Qed.

Lemma readFileFromZip_packed (this : DataAndLocation.t) (name : string) field :
  In (name, field) top_level_files ->
  readFileFromZip (packed_entries this) name = field (buffers this).
Proof.
  intros Hin. unfold readFileFromZip. rewrite (packed_top_level this name field Hin).
  destruct (field (buffers this)); reflexivity.
Qed.

(** X8. Packing one object and unpacking the archive into another never
    throws and carries over nine of the ten top-level buffers, absent ones
    included.  The secret key and the key mappings do not make the trip,
    although the archive holds them: the receiving object keeps its own. *)
Theorem pack_unpack_round_trip (src dst : DataAndLocation.t) :
  let r := uploadFile (createDownloadableFile src) dst in
  r.1 = Ok tt
  /\ (forall name field,
        In (name, field) unpacked_files ->
        field (buffers r.2) = field (buffers src))
  /\ secretKeyBuffer (buffers r.2) = secretKeyBuffer (buffers dst)
  /\ EvalKeyMappings (buffers r.2) = EvalKeyMappings (buffers dst)
  /\ packed_entries src !! secretKeyFile = Readable <$> secretKeyBuffer (buffers src).
Proof.
  cbn zeta. unfold createDownloadableFile. rewrite uploadFile_run.
  split; [reflexivity|]. split; [|split; [|split]].
  - intros name field Hin. destruct dst as [a b c d e f g h bufs].
    cbn in Hin.
    repeat (destruct Hin as [Hin|Hin];
            [inversion Hin; subst; cbn;
             apply (readFileFromZip_packed src); cbn; tauto|]).
    destruct Hin.
  - destruct dst as [a b c d e f g h bufs]. reflexivity.
  - destruct dst as [a b c d e f g h bufs]. reflexivity.
  - apply packed_top_level. cbn; tauto.
Qed.

End PackFacts.

(** ** Reasoning about what a method leaves alone *)

Module FrameFacts.

Lemma preserves_bind {S A B} (P : S -> Prop) (m : M S A) (k : A -> M S B) :
  preserves P m -> (forall a, preserves P (k a)) -> preserves P (m ≫= k).
Proof.
  intros Hm Hk s r s' HP Hrun. rewrite run_bind in Hrun.
  destruct (m s) as [[a|e] s1] eqn:E.
  - exact (Hk a s1 r s' (Hm _ _ _ HP E) Hrun).
  - inversion Hrun; subst. exact (Hm _ _ _ HP E).
Qed.

Lemma preserves_ret {S A} (P : S -> Prop) (a : A) : preserves P (mret a : M S A).
Proof. intros s r s' HP Hrun. inversion Hrun; subst. exact HP. Qed.

Lemma preserves_throw {S A} (P : S -> Prop) (e : Thrown) :
  preserves P (throw e : M S A).
Proof. intros s r s' HP Hrun. inversion Hrun; subst. exact HP. Qed.

Lemma preserves_call {S A} (P : S -> Prop) (r : Outcome A) :
  preserves P (call r : M S A).
Proof. intros s r' s' HP Hrun. inversion Hrun; subst. exact HP. Qed.

Lemma preserves_get {S} (P : S -> Prop) : preserves P (get : M S S).
Proof. intros s r s' HP Hrun. inversion Hrun; subst. exact HP. Qed.

Lemma preserves_modify {S} (P : S -> Prop) (f : S -> S) :
  (forall s, P s -> P (f s)) -> preserves P (modify f).
Proof. intros Hf s r s' HP Hrun. inversion Hrun; subst. apply Hf, HP. Qed.

Create HintDb frame.

#[export] Hint Resolve preserves_ret preserves_throw preserves_call preserves_get
  : frame.

End FrameFacts.

(** ** What [Serialize] needs and what it leaves alone *)

Module SerializeFrameFacts.
Import SchemeSwitchingDataSerializer Construction.
Import SerializerFacts FrameFacts.

Lemma same_objects_update_buffers (this0 this : DataAndLocation.t) f :
  same_objects this0 this -> same_objects this0 (update_buffers f this).
Proof. destruct this. exact id. Qed.

Lemma same_objects_refl (this : DataAndLocation.t) : same_objects this this.
Proof. repeat split. Qed.

#[local] Hint Resolve same_objects_update_buffers : frame.

Lemma store_checked_frame this0 r set_field msg :
  preserves (same_objects this0) (store_checked r set_field msg).
Proof.
  unfold store_checked. apply preserves_bind; [auto with frame|]. intros b.
  apply preserves_bind; [apply preserves_modify; auto with frame|]. intros _.
  destruct b; auto with frame.
Qed.

Lemma checked_frame this0 r msg : preserves (same_objects this0) (checked r msg).
Proof.
  unfold checked. apply preserves_bind; [auto with frame|]. intros b.
  destruct b; auto with frame.
Qed.

Lemma serialize_key_pairs_frame this0 m ser map arr indices :
  preserves (same_objects this0) (serialize_key_pairs m ser map arr indices).
Proof.
  revert indices. induction arr as [|k arr IH]; intros indices; cbn [serialize_key_pairs];
    [auto with frame|].
  apply preserves_bind; [apply checked_frame|]. intros bs.
  apply preserves_bind; [apply checked_frame|]. intros ks.
  apply preserves_bind; [apply preserves_modify; auto with frame|]. intros _.
  apply IH.
Qed.

Lemma require_frame {A} this0 (field : option A) msg :
  preserves (same_objects this0) (require field msg).
Proof. destruct field; cbn; auto with frame. Qed.

(** [Serialize] writes to [this.buffers] and to nothing else. *)
Lemma Serialize_frame (this : DataAndLocation.t) r this' :
  Serialize this = (r, this') -> same_objects this this'.
Proof.
  intros Hrun.
  cut (preserves (same_objects this) Serialize);
    [intros H; exact (H this r this' (same_objects_refl this) Hrun)|].
  unfold Serialize.
  apply preserves_bind; [auto with frame|]. intros this1.
  repeat (apply preserves_bind; [apply require_frame|]; intros ?).
  cbn zeta.
  repeat (apply preserves_bind; [apply store_checked_frame|]; intros _).
  apply preserves_bind; [apply serialize_key_pairs_frame|]. intros indices.
  apply store_checked_frame.
Qed.

Lemma export_of_same_objects (this this' : DataAndLocation.t) (a : Artifact) :
  same_objects this this' -> export_of this' a = export_of this a.
Proof.
  intros (H1 & H2 & H3 & H4 & H5 & _ & H7 & H8). unfold export_of.
  rewrite H1, H2, H3, H4, H5, H7, H8. reflexivity.
Qed.

Lemma pairs_exported_same_objects (this this' : DataAndLocation.t) :
  same_objects this this' -> pairs_exported this -> pairs_exported this'.
Proof.
  intros (_ & _ & _ & H4 & _ & _ & H7 & H8) H m bincc Hm Hb.
  rewrite <- H8. apply H; congruence.
Qed.

(** The buffers of a pair are determined by its index. *)
Lemma pair_exported_functional m ser map (ms ms' : list KeyMapping) :
  Forall (pair_exported m ser map) ms ->
  Forall (pair_exported m ser map) ms' ->
  List.map mapping_key ms = List.map mapping_key ms' ->
  ms = ms'.
Proof.
  intros H. revert ms'. induction H as [|mp ms [Hb Hk] _ IH]; intros ms' H' Hkeys.
  - destruct ms'; [reflexivity|discriminate].
  - destruct H' as [|mp' ms' [Hb' Hk'] H']; [discriminate|].
    cbn in Hkeys. injection Hkeys as Hkey Hkeys.
    rewrite (IH ms' H' Hkeys). f_equal.
    destruct mp as [k bs ks], mp' as [k' bs' ks']. cbn in *. subst k'.
    congruence.
Qed.

Lemma pairs_exported_of_mappings (this : DataAndLocation.t) m bincc ms :
  module this = Some m -> binFHECryptoContext this = Some bincc ->
  List.map mapping_key ms = keys (GetBTKeyMap m bincc) ->
  Forall (pair_exported m (SERTYPE this) (GetBTKeyMap m bincc)) ms ->
  pairs_exported this.
Proof.
  intros Hm Hb Hkeys Hall m' bincc' Hm' Hb' index Hin.
  assert (m' = m) as -> by congruence. assert (bincc' = bincc) as -> by congruence.
  rewrite <- Hkeys in Hin. apply in_map_iff in Hin. destruct Hin as (mp & <- & Hin).
  rewrite Forall_forall in Hall. specialize (Hall mp (proj2 (list_elem_of_In _ _) Hin)).
  exists (mapping_BSkey mp), (mapping_KSkey mp). exact Hall.
Qed.

(** X9. A serializer can only export once it has been given the engine.
    Its constructor never sets [module], so [Serialize] on a newly
    constructed serializer throws [OPENFHE module is None] and leaves the
    object as constructed.  With the engine assigned, the remaining null
    checks fail in the order of the constructor's inputs: no context, no
    public key, no secret key, a context without binary context, a context
    without switching key; in each case nothing is exported. *)
Theorem Serialize_after_construction (getters : CryptoContextGetters) (ser : SerType)
    (cryptoContext0 publicKey0 privateKey0 : option Obj) (this : DataAndLocation.t) :
  new_serializer getters ser cryptoContext0 publicKey0 privateKey0 = Ok this ->
  Serialize this = (Throw (Error "OPENFHE module is None"), this)
  /\ buffers this = initial_buffers
  /\ forall m,
       let this' := set_module (Some m) this in
       (cryptoContext0 = None ->
        Serialize this' = (Throw (Error "cryptoContext is None"), this'))
       /\ (cryptoContext0 <> None -> publicKey0 = None ->
           Serialize this' = (Throw (Error "publicKey is None"), this'))
       /\ (cryptoContext0 <> None -> publicKey0 <> None -> privateKey0 = None ->
           Serialize this' = (Throw (Error "secretKey is None"), this'))
       /\ (forall cc,
             cryptoContext0 = Some cc -> publicKey0 <> None -> privateKey0 <> None ->
             GetBinCCForSchemeSwitch getters cc = Ok None ->
             Serialize this' = (Throw (Error "binFHECryptoContext is None"), this'))
       /\ (forall cc,
             cryptoContext0 = Some cc -> publicKey0 <> None -> privateKey0 <> None ->
             GetBinCCForSchemeSwitch getters cc <> Ok None ->
             GetSwkFC getters cc = Ok None ->
             Serialize this' = (Throw (Error "FHEWtoCKKSSwitchKey is None"), this')).
Proof.
  unfold new_serializer, serializer_constructor, get_or_null.
  rewrite !run_modify. intros Hnew.
  destruct cryptoContext0 as [cc|].
  - rewrite run_call in Hnew.
    destruct (GetBinCCForSchemeSwitch getters cc) as [bincc|e] eqn:Hb; [|discriminate].
    rewrite run_modify, run_call in Hnew.
    destruct (GetSwkFC getters cc) as [swk|e] eqn:Hs; [|discriminate].
    cbn in Hnew. injection Hnew as <-.
    split; [reflexivity|]. split; [reflexivity|]. intros m. cbn zeta.
    split; [discriminate|]. split; [|split; [|split]].
    + intros _ ->. reflexivity.
    + intros _ Hpk ->. destruct publicKey0; [reflexivity|congruence].
    + intros cc' Hcc Hpk Hsk Hnull. injection Hcc as <-.
      rewrite Hb in Hnull. injection Hnull as ->.
      destruct publicKey0; [|congruence]. destruct privateKey0; [|congruence].
      reflexivity.
    + intros cc' Hcc Hpk Hsk Hbin Hnull. injection Hcc as <-.
      rewrite Hs in Hnull. injection Hnull as ->.
      destruct publicKey0; [|congruence]. destruct privateKey0; [|congruence].
      destruct bincc; [reflexivity|]. rewrite Hb in Hbin. congruence.
  - rewrite run_ret, run_modify in Hnew. cbn in Hnew. injection Hnew as <-.
    split; [reflexivity|]. split; [reflexivity|]. intros m. cbn zeta.
    split; [reflexivity|]. split; [congruence|]. split; [congruence|].
    split; intros; discriminate.
Qed.

(** X10. [Serialize] returns exactly when the engine answers every one of
    the ten exports and every export of a bootstrap pair with a buffer. *)
Theorem Serialize_returns_iff (this : DataAndLocation.t) :
  (exists this', Serialize this = (Ok tt, this'))
  <-> (forall a, returns_buffer (export_of this a)) /\ pairs_exported this.
Proof.
  split.
  - intros [this' Hrun]. apply Serialize_ok_inv in Hrun.
    destruct Hrun as (m & bincc & ms & Hm & Hb & Hall & _ & Hkeys & Hpairs). split.
    + intros a. destruct (Hall a) as (buf & Hexp & _). exists buf. exact Hexp.
    + exact (pairs_exported_of_mappings this m bincc ms Hm Hb Hkeys Hpairs).
  - intros [Hexp Hpairs]. apply Serialize_succeeds; assumption.
Qed.

(** X11. [Serialize] appends to the key mappings and never clears them:
    when a first call returns, a second call on the same object, the
    engine answering the same exports alike, returns as well, rewrites the
    ten buffers with the same content and leaves every key mapping of the
    first call in the bundle twice.  The archive
    generated from the bundle is the same after both calls, the later
    copy of an entry replacing the earlier. *)
Theorem Serialize_twice (this this1 : DataAndLocation.t) :
  Serialize this = (Ok tt, this1) ->
  exists this2 ms,
    Serialize this1 = (Ok tt, this2)
    /\ EvalKeyMappings (buffers this1) = EvalKeyMappings (buffers this) ++ ms
    /\ EvalKeyMappings (buffers this2) = EvalKeyMappings (buffers this) ++ ms ++ ms
    /\ (forall a, field_of a (buffers this2) = field_of a (buffers this1))
    /\ createDownloadableFile this2 = createDownloadableFile this1.
Proof.
  intros Hrun. pose proof (Serialize_frame _ _ _ Hrun) as Hsame.
  pose proof (Serialize_ok_inv _ _ Hrun)
    as (m & bincc & ms & Hm & Hb & Hall & Hmaps & Hkeys & Hpairs).
  destruct (Serialize_succeeds this1) as [this2 Hrun2].
  { intros a. rewrite (export_of_same_objects _ _ a Hsame).
    destruct (Hall a) as (buf & Hexp & _). exists buf. exact Hexp. }
  { apply (pairs_exported_same_objects this this1 Hsame).
    exact (pairs_exported_of_mappings this m bincc ms Hm Hb Hkeys Hpairs). }
  pose proof (Serialize_ok_inv _ _ Hrun2)
    as (m' & bincc' & ms' & Hm' & Hb' & Hall' & Hmaps' & Hkeys' & Hpairs').
  destruct Hsame as (_ & _ & _ & Hs4 & _ & _ & Hs7 & Hs8).
  assert (m' = m) as -> by congruence. assert (bincc' = bincc) as -> by congruence.
  rewrite <- Hs8 in Hpairs'.
  assert (ms' = ms) as ->
    by (apply (pair_exported_functional _ _ _ _ _ Hpairs' Hpairs); congruence).
  assert (Hfields : forall a, field_of a (buffers this2) = field_of a (buffers this1)).
  { intros a. destruct (Hall a) as (buf & Hexp & Hfield).
    destruct (Hall' a) as (buf' & Hexp' & Hfield').
    rewrite (export_of_same_objects this this1 a) in Hexp'
      by (pose proof (Serialize_frame _ _ _ Hrun); assumption).
    congruence. }
  exists this2, ms. split; [exact Hrun2|]. split; [exact Hmaps|].
  split; [rewrite Hmaps', Hmaps, <- app_assoc; reflexivity|]. split; [exact Hfields|].
  unfold createDownloadableFile. f_equal. unfold packed_entries.
  rewrite Hmaps', Hmaps. rewrite !fold_left_app.
  rewrite PackFacts.add_mappings_idemp. f_equal. f_equal.
  unfold top_level_files. cbn [fold_left].
  pose proof (Hfields ArtCryptoContext) as H1. pose proof (Hfields ArtPublicKey) as H2.
  pose proof (Hfields ArtSecretKey) as H3. pose proof (Hfields ArtEvalMultKey) as H4.
  pose proof (Hfields ArtAutomorphismKey) as H5.
  pose proof (Hfields ArtFHEWtoCKKSSwitchKey) as H6.
  pose proof (Hfields ArtBinfheCryptoContext) as H7.
  pose proof (Hfields ArtBinFHEBootRefreshKey) as H8.
  pose proof (Hfields ArtBinFHEBootRotKey) as H9.
  pose proof (Hfields ArtKeyIndex) as H10.
  cbn [field_of] in *.
  rewrite H1, H2, H3, H4, H5, H6, H7, H8, H9, H10. reflexivity.
Qed.

End SerializeFrameFacts.

(** ** What [deserialize] leaves alone, and what it throws *)

Module DeserializeFrameFacts.
Import SchemeSwitchingDataSerializer SchemeSwitchingDataDeserializer Construction.
Import DeserializerFacts FrameFacts.

Lemma extends_refl (w : World) : extends w w.
Proof. split; [repeat split|]. exists []. rewrite app_nil_r. reflexivity. Qed.

Lemma assign_frame w0 (f : DataAndLocation.t -> DataAndLocation.t) :
  (forall obj, same_settings obj (f obj)) -> preserves (extends w0) (assign f).
Proof.
  intros Hf. apply preserves_modify. intros w [(H1 & H2 & H3 & H4) Hcalls].
  split; [|exact Hcalls]. cbn [this].
  destruct (Hf (this w)) as (G1 & G2 & G3 & G4). repeat split; congruence.
Qed.

Lemma invoke_frame {A} w0 (c : EngineCall) (r : Outcome A) :
  preserves (extends w0) (invoke c r).
Proof.
  intros w r' w' [Hset [calls Hcalls]] Hrun. rewrite invoke_run in Hrun.
  inversion Hrun; subst. split; [exact Hset|]. cbn [engine_calls].
  exists (calls ++ [c]). rewrite Hcalls, app_assoc. reflexivity.
Qed.

Lemma deserializeFile_frame {A} (P : World -> Prop) zip ser filename
    (f : Buffer -> SerType -> Outcome (option A)) :
  preserves P (deserializeFile zip ser filename f).
Proof.
  intros w r w' HP Hrun.
  pose proof (deserializeFile_state zip ser filename f w) as Hst.
  rewrite Hrun in Hst. cbn in Hst. subst w'. exact HP.
Qed.

Lemma install_if_present_frame w0 zip filename c install :
  preserves (extends w0) (install_if_present zip filename c install).
Proof.
  unfold install_if_present. destruct (zip !! filename); [|auto with frame].
  apply preserves_bind; [auto with frame|]. intros buf.
  apply preserves_bind; [apply invoke_frame|]. intros _. auto with frame.
Qed.

Lemma load_key_pairs_frame w0 m zip ser bincc indices :
  preserves (extends w0) (load_key_pairs m zip ser bincc indices).
Proof.
  induction indices as [|index indices IH]; cbn [load_key_pairs]; [auto with frame|].
  apply preserves_bind; [apply deserializeFile_frame|]. intros bs.
  apply preserves_bind; [apply deserializeFile_frame|]. intros ks.
  apply preserves_bind; [apply invoke_frame|]. intros _. exact IH.
Qed.

Ltac frame_step :=
  first
    [ apply deserializeFile_frame
    | apply invoke_frame
    | apply install_if_present_frame
    | apply load_key_pairs_frame
    | apply assign_frame; intros []; repeat split
    | solve [auto with frame] ].

Lemma deserialize_body_frame w0 file : preserves (extends w0) (deserialize_body file).
Proof.
  unfold deserialize_body.
  apply preserves_bind; [frame_step|]. intros zip.
  apply preserves_bind; [frame_step|]. intros w.
  apply preserves_bind; [destruct (module (this w)); frame_step|]. intros m.
  repeat (apply preserves_bind; [frame_step|]; intros ?).
  cbn zeta.
  apply preserves_bind; [case_decide; frame_step|]. intros _.
  apply preserves_bind; [frame_step|]. intros _. frame_step.
Qed.

Lemma deserialize_catch_state (e : Thrown) (w : World) :
  (deserialize_catch e w).2 = w.
Proof. destruct (deserialize_catch_throws e w) as [e' ->]. reflexivity. Qed.

Lemma deserialize_extends (file : File) (w : World) r w' :
  deserialize file w = (r, w') -> extends w w'.
Proof.
  unfold deserialize, try_catch. intros Hrun.
  destruct (deserialize_body file w) as [[[]|e] w1] eqn:Hbody.
  - inversion Hrun; subst.
    exact (deserialize_body_frame w file w _ _ (extends_refl w) Hbody).
  - pose proof (deserialize_catch_state e w1) as Hst. rewrite Hrun in Hst.
    cbn in Hst. subst w'.
    exact (deserialize_body_frame w file w _ _ (extends_refl w) Hbody).
Qed.

(** X12. Whatever the archive and the engine do, and whether it returns
    or throws, [deserialize] writes to nothing but the five object fields:
    the engine reference, the serialization type, the data directory and
    the buffers of the deserializer stay as they were, and the calls
    already made on engine objects are followed by the new ones. *)
Theorem deserialize_frame (file : File) (w : World) :
  let r := deserialize file w in
  module (this r.2) = module (this w)
  /\ SERTYPE (this r.2) = SERTYPE (this w)
  /\ dataDirectory (this r.2) = dataDirectory (this w)
  /\ buffers (this r.2) = buffers (this w)
  /\ exists calls, engine_calls r.2 = engine_calls w ++ calls.
Proof.
  cbn zeta. destruct (deserialize file w) as [r w'] eqn:Hrun.
  destruct (deserialize_extends file w r w' Hrun) as [(H1 & H2 & H3 & H4) Hcalls].
  cbn [snd]. split; [congruence|]. split; [congruence|]. split; [congruence|].
  split; [congruence|exact Hcalls].
Qed.

(** X13. A deserializer that holds an engine only ever throws [Error]
    objects: a number thrown by the engine comes out as an [Error] carrying
    the engine's message for it, and any other thrown value as an [Error]
    whose message is that value turned into a string, so that the message
    of an [Error] thrown inside is prefixed with its name. *)
Theorem deserialize_throws_Error (file : File) (w w' : World) (m : OpenFHEModule)
    (e : Thrown) :
  module (this w) = Some m ->
  deserialize file w = (Throw e, w') ->
  exists e0 w0,
    deserialize_body file w = (Throw e0, w0)
    /\ w' = w0
    /\ e = Error (match e0 with
                  | NumberVal code => getExceptionMessage m code
                  | ErrorObj name message => error_to_string name message
                  end).
Proof.
  intros Hm Hrun. unfold deserialize, try_catch in Hrun.
  destruct (deserialize_body file w) as [[[]|e0] w0] eqn:Hbody; [discriminate|].
  exists e0, w0. split; [reflexivity|].
  destruct (deserialize_body_frame w file w _ _ (extends_refl w) Hbody)
    as [(_ & Hmod & _ & _) _].
  destruct e0 as [name message|code]; cbn in Hrun.
  - inversion Hrun; subst. split; reflexivity.
  - rewrite run_get in Hrun. rewrite <- Hmod, Hm in Hrun.
    inversion Hrun; subst. split; reflexivity.
Qed.

End DeserializeFrameFacts.

(** ** From a bundle to a rebuilt context *)

Module PipelineFacts.
Import SchemeSwitchingDataSerializer SchemeSwitchingDataDeserializer.
Import DeserializerFacts PackFacts.

Lemma error_to_string_Error (msg : string) :
  msg <> "" -> error_to_string "Error" msg = "Error: " +:+ msg.
Proof.
  intros Hne. unfold error_to_string.
  case_decide; [discriminate|]. case_decide; [contradiction|reflexivity].
Qed.

Lemma deserialize_catch_Error (msg : string) (w : World) :
  msg <> "" ->
  deserialize_catch (Error msg) w = (Throw (Error ("Error: " +:+ msg)), w).
Proof.
  intros Hne. change (Error msg) with (ErrorObj "Error" msg) at 1.
  unfold deserialize_catch, thrown_to_string.
  rewrite (error_to_string_Error msg Hne). reflexivity.
Qed.

(** The loop stops at the first index whose refresh-key entry is missing,
    with the pairs before it loaded. *)
Lemma load_key_pairs_missing m zip ser bincc (key_of : N -> RingGSWBTKey)
    (loaded : list N) (index : N) (rest : list N) (w : World) :
  (forall i, In i loaded -> pair_accepted m zip ser bincc i (key_of i)) ->
  zip !! createMapFileNameDeserialize index baseRefreshKeyFile = None ->
  load_key_pairs m zip ser bincc (loaded ++ index :: rest) w
  = (Throw (Error ("File " +:+ createMapFileNameDeserialize index baseRefreshKeyFile
                   +:+ " not found in the zip")),
     {| this := this w;
        engine_calls :=
          engine_calls w
          ++ List.map (fun i => CallBTKeyMapLoadSingleElement bincc i (key_of i))
               loaded |}).
Proof.
  revert w. induction loaded as [|i loaded IH]; intros w Hacc Hmiss.
  - cbn [app load_key_pairs List.map]. rewrite run_bind.
    rewrite (deserializeFile_missing _ _ _ _ _ Hmiss), app_nil_r.
    destruct w; reflexivity.
  - destruct (Hacc i (or_introl eq_refl)) as (Hbs & Hks & Hload).
    cbn [app load_key_pairs].
    rewrite run_bind, (deserializeFile_accepted _ _ _ _ _ _ Hbs).
    rewrite run_bind, (deserializeFile_accepted _ _ _ _ _ _ Hks).
    rewrite run_bind, invoke_run.
    replace {| BSkey := BSkey (key_of i); KSkey := KSkey (key_of i) |}
      with (key_of i) by (destruct (key_of i); reflexivity).
    rewrite Hload.
    rewrite IH by (try exact Hmiss; intros j Hj; apply Hacc; right; exact Hj).
    cbn [this engine_calls List.map]. rewrite <- app_assoc. reflexivity.
Qed.

(** X14. An index listed in [key_indices.txt] whose refresh-key entry is
    missing from the archive makes [deserialize] throw the error naming
    that entry.  Nothing is rolled back: the deserializer keeps the five
    rebuilt objects, the pairs listed before the missing one have been
    loaded into the engine, and the secondary context is never bound to
    the primary one. *)
Theorem deserialize_missing_pair
    (m : OpenFHEModule) (zip : gmap string ZipObject) (w : World) (o : Reconstructed)
    (key_of : N -> RingGSWBTKey) (loaded : list N) (index : N) (rest : list N) :
  module (this w) = Some m ->
  mandatory_accepted m zip (SERTYPE (this w)) o ->
  optionals_accepted m zip (SERTYPE (this w)) o ->
  entry_accepted zip (SERTYPE (this w)) keyIndexFile
    (DeserializeSeedSeqVector m) (loaded ++ index :: rest) ->
  (forall i, In i loaded ->
     pair_accepted m zip (SERTYPE (this w)) (r_binFHECryptoContext o) i (key_of i)) ->
  zip !! createMapFileNameDeserialize index baseRefreshKeyFile = None ->
  let calls :=
    primary_calls zip o
    ++ List.map (fun i => CallBTKeyMapLoadSingleElement (r_binFHECryptoContext o)
                            i (key_of i)) loaded in
  deserialize (ZipFile zip) w
  = (Throw (Error ("Error: File "
                   +:+ createMapFileNameDeserialize index baseRefreshKeyFile
                   +:+ " not found in the zip")),
     {| this := with_reconstructed o (this w);
        engine_calls := engine_calls w ++ calls |})
  /\ ~ In (CallSetBinCCForSchemeSwitch (r_cryptoContext o) (r_binFHECryptoContext o))
          calls.
Proof.
  intros Hm Hmand Hopt Hidx Hacc Hmiss. cbn zeta. split.
  - unfold deserialize. eapply eq_trans.
    { apply try_catch_throw.
      rewrite (deserialize_body_primary m zip o w Hm Hmand Hopt).
      rewrite run_bind, (deserializeFile_accepted _ _ _ _ _ _ Hidx).
      cbn zeta. rewrite copyVecToJs_id.
      case_decide as Hlen;
        [rewrite length_app in Hlen; cbn in Hlen; lia|].
      rewrite run_ret, run_bind.
      rewrite (load_key_pairs_missing _ _ _ _ key_of _ _ _ _ Hacc Hmiss).
      cbn [this engine_calls]. rewrite <- app_assoc. reflexivity. }
    apply deserialize_catch_Error. discriminate.
  - unfold primary_calls, optional_calls. rewrite !in_app_iff, in_map_iff.
    destruct (zip !! multKeyFile) as [[c|r]|], (zip !! rotKeyFile) as [[c'|r']|];
      cbn [In]; intros H;
      repeat match goal with
             | H : _ \/ _ |- _ => destruct H
             | H : exists _, _ |- _ => destruct H as (? & ? & ?)
             | H : False |- _ => destruct H
             end; discriminate.
Qed.

Lemma entry_accepted_packed {A} (src : DataAndLocation.t) (ser : SerType)
    (name : string) field (f : Buffer -> SerType -> Outcome (option A)) (v : A) :
  In (name, field) top_level_files ->
  buffer_accepted (field (buffers src)) ser f v ->
  entry_accepted (packed_entries src) ser name f v.
Proof.
  intros Hin (content & Hbuf & Hf). exists content. split; [|exact Hf].
  rewrite (packed_top_level src name field Hin), Hbuf. reflexivity.
Qed.

Lemma optional_accepted_packed (src : DataAndLocation.t) (name : string) field
    (install : Buffer -> Outcome bool) :
  In (name, field) top_level_files ->
  (forall buf, field (buffers src) = Some buf -> exists r, install buf = Ok r) ->
  optional_accepted (packed_entries src) name install.
Proof.
  intros Hin Hinst. unfold optional_accepted.
  rewrite (packed_top_level src name field Hin).
  destruct (field (buffers src)) as [buf|]; cbn; [|exact I].
  apply Hinst. reflexivity.
Qed.

Lemma optional_calls_packed (src : DataAndLocation.t) (name : string) field
    (c : Buffer -> EngineCall) :
  In (name, field) top_level_files ->
  optional_calls (packed_entries src) name c
  = match field (buffers src) with Some buf => [c buf] | None => [] end.
Proof.
  intros Hin. unfold optional_calls. rewrite (packed_top_level src name field Hin).
  destruct (field (buffers src)); reflexivity.
Qed.

Lemma NoDup_keys_unique (ms : list KeyMapping) (mp mp' : KeyMapping) :
  NoDup (List.map mapping_key ms) ->
  In mp ms -> In mp' ms -> mapping_key mp' = mapping_key mp -> mp' = mp.
Proof.
  induction ms as [|x ms IH]; intros Hnd Hin Hin' Hk; [destruct Hin|].
  cbn in Hnd. apply NoDup_cons in Hnd. destruct Hnd as [Hx Hnd].
  destruct Hin as [->|Hin], Hin' as [->|Hin'].
  - reflexivity.
  - exfalso. apply Hx. rewrite <- Hk. apply list_elem_of_In, in_map, Hin'.
  - exfalso. apply Hx. rewrite Hk. apply list_elem_of_In, in_map, Hin.
  - exact (IH Hnd Hin Hin' Hk).
Qed.

Ltac top_level := cbn; tauto.

(** X15. The serializer and the deserializer agree on the layout of an
    archive.  Take a bundle whose key mappings have distinct indices and
    an engine that reads its buffers back: the top-level buffers as the
    objects [o], the index buffer as the indices of the mappings, and the
    two buffers of each mapping as a pair it loads.  Then deserializing
    the archive generated from the bundle returns; the deserializer holds
    the objects [o], and the engine has installed the multiplication and
    rotation keys, the switching key, the primary bootstrap key, one pair
    per mapping in bundle order, and last bound the two contexts. *)
Theorem pack_then_deserialize
    (src : DataAndLocation.t) (w : World) (m : OpenFHEModule) (o : Reconstructed)
    (key_of : N -> RingGSWBTKey) (multKey rotKey : Buffer) :
  module (this w) = Some m ->
  bundle_accepted m (SERTYPE (this w)) (buffers src) o ->
  evalMultKeyBuffer (buffers src) = Some multKey ->
  automorphismKeyBuffer (buffers src) = Some rotKey ->
  EvalKeyMappings (buffers src) <> [] ->
  NoDup (List.map mapping_key (EvalKeyMappings (buffers src))) ->
  buffer_accepted (keyIndexBuffer (buffers src)) (SERTYPE (this w))
    (DeserializeSeedSeqVector m)
    (List.map mapping_key (EvalKeyMappings (buffers src))) ->
  (forall mapping, In mapping (EvalKeyMappings (buffers src)) ->
     mapping_accepted m (SERTYPE (this w)) (r_binFHECryptoContext o) mapping
       (key_of (mapping_key mapping))) ->
  deserialize (createDownloadableFile src) w
  = (Ok tt,
     {| this := with_reconstructed o (this w);
        engine_calls :=
          engine_calls w
          ++ [ CallDeserializeEvalMultKey (r_cryptoContext o) multKey;
               CallDeserializeEvalAutomorphismKey (r_cryptoContext o) rotKey;
               CallSetSwkFC (r_cryptoContext o) (r_FHEWtoCKKSSwitchKey o);
               CallBTKeyLoad (r_binFHECryptoContext o) (r_BTKey o) ]
          ++ List.map (fun mapping =>
               CallBTKeyMapLoadSingleElement (r_binFHECryptoContext o)
                 (mapping_key mapping) (key_of (mapping_key mapping)))
               (EvalKeyMappings (buffers src))
          ++ [ CallSetBinCCForSchemeSwitch (r_cryptoContext o)
                 (r_binFHECryptoContext o) ] |}).
Proof.
  intros Hm (Hcc & Hpk & Hsk & Hmult & Hrot & Hswk & Hset & Hbincc & Hbs & Hks
             & Hload & Hbind) HmultKey HrotKey Hne Hnd Hidx Hmaps.
  cbn zeta in *.
  assert (Hmand : mandatory_accepted m (packed_entries src) (SERTYPE (this w)) o).
  { repeat split; try assumption;
      match goal with
      | |- entry_accepted _ _ _ _ _ =>
          eapply entry_accepted_packed; [|eassumption]; top_level
      end. }
  assert (Hopt : optionals_accepted m (packed_entries src) (SERTYPE (this w)) o).
  { split.
    - apply (optional_accepted_packed src multKeyFile evalMultKeyBuffer);
        [top_level|exact Hmult].
    - apply (optional_accepted_packed src rotKeyFile automorphismKeyBuffer);
        [top_level|exact Hrot]. }
  assert (Hidx' : entry_accepted (packed_entries src) (SERTYPE (this w)) keyIndexFile
                    (DeserializeSeedSeqVector m)
                    (List.map mapping_key (EvalKeyMappings (buffers src))))
    by (eapply entry_accepted_packed; [|exact Hidx]; top_level).
  assert (Hpairs : forall index,
             In index (List.map mapping_key (EvalKeyMappings (buffers src))) ->
             pair_accepted m (packed_entries src) (SERTYPE (this w))
               (r_binFHECryptoContext o) index (key_of index)).
  { intros index Hin. apply in_map_iff in Hin. destruct Hin as (mp & <- & Hin).
    destruct (Hmaps mp Hin) as (Hb & Hk & Hl).
    destruct (packed_mapping src mp Hin) as [Hpb Hpks].
    { intros mp' Hin' Hkey. exact (NoDup_keys_unique _ _ _ Hnd Hin Hin' Hkey). }
    split; [|split; [|exact Hl]].
    - exists (mapping_BSkey mp). split; [exact Hpb|exact Hb].
    - exists (mapping_KSkey mp). split; [exact Hpks|exact Hk]. }
  unfold createDownloadableFile, deserialize. apply try_catch_ok.
  rewrite (deserialize_body_primary m _ o w Hm Hmand Hopt).
  rewrite run_bind, (deserializeFile_accepted _ _ _ _ _ _ Hidx').
  cbn zeta. rewrite copyVecToJs_id.
  case_decide as Hlen.
  { destruct (EvalKeyMappings (buffers src)); [congruence|discriminate Hlen]. }
  rewrite run_ret, run_bind.
  rewrite (load_key_pairs_accepted _ _ _ _ key_of _ _ Hpairs).
  rewrite invoke_run, Hbind. cbn [this engine_calls].
  unfold primary_calls.
  rewrite (optional_calls_packed src multKeyFile evalMultKeyBuffer) by top_level.
  rewrite (optional_calls_packed src rotKeyFile automorphismKeyBuffer) by top_level.
  rewrite HmultKey, HrotKey, List.map_map. cbn [app].
  rewrite <- !app_assoc. reflexivity.
Qed.

(** X16. An archive that went through [uploadFile] cannot be
    deserialized.  Unpack the archive of a bundle into an object that has
    no secret-key buffer, as a new one, and generate an archive from that
    object: its secret-key entry is missing although the first archive
    had one, and [deserialize] throws the error naming [key_secret.txt]
    once the engine has accepted the context and the public key. *)
Theorem relayed_archive_lacks_secret_key
    (src dst : DataAndLocation.t) (w : World) (m : OpenFHEModule) (cc pk : Obj) :
  secretKeyBuffer (buffers dst) = None ->
  module (this w) = Some m ->
  buffer_accepted (cryptoContextBuffer (buffers src)) (SERTYPE (this w))
    (DeserializeCryptoContextFromBuffer m) cc ->
  buffer_accepted (publicKeyBuffer (buffers src)) (SERTYPE (this w))
    (DeserializePublicKeyFromBuffer m) pk ->
  let relayed := (uploadFile (createDownloadableFile src) dst).2 in
  packed_entries src !! secretKeyFile = Readable <$> secretKeyBuffer (buffers src)
  /\ packed_entries relayed !! secretKeyFile = None
  /\ deserialize (createDownloadableFile relayed) w
     = (Throw (Error "Error: File key_secret.txt not found in the zip"),
        {| this := set_publicKey (Some pk) (set_cryptoContext (Some cc) (this w));
           engine_calls := engine_calls w |}).
Proof.
  intros Hnone Hm Hcc Hpk. cbn zeta.
  unfold createDownloadableFile. rewrite uploadFile_run. cbn [snd].
  set (relayed := update_buffers _ dst).
  assert (Hrcc : cryptoContextBuffer (buffers relayed)
                 = cryptoContextBuffer (buffers src)).
  { subst relayed. destruct dst; cbn.
    apply (readFileFromZip_packed src cryptoContextFile cryptoContextBuffer).
    top_level. }
  assert (Hrpk : publicKeyBuffer (buffers relayed) = publicKeyBuffer (buffers src)).
  { subst relayed. destruct dst; cbn.
    apply (readFileFromZip_packed src pubKeyFile publicKeyBuffer). top_level. }
  assert (Hrsk : secretKeyBuffer (buffers relayed) = None)
    by (subst relayed; destruct dst; cbn in *; exact Hnone).
  assert (Hmiss : packed_entries relayed !! secretKeyFile = None).
  { rewrite (packed_top_level relayed secretKeyFile secretKeyBuffer) by top_level.
    rewrite Hrsk. reflexivity. }
  split; [apply packed_top_level; top_level|]. split; [exact Hmiss|].
  assert (Hcc' : entry_accepted (packed_entries relayed) (SERTYPE (this w))
                   cryptoContextFile (DeserializeCryptoContextFromBuffer m) cc).
  { apply (entry_accepted_packed relayed _ cryptoContextFile cryptoContextBuffer);
      [top_level|]. rewrite Hrcc. exact Hcc. }
  assert (Hpk' : entry_accepted (packed_entries relayed) (SERTYPE (this w))
                   pubKeyFile (DeserializePublicKeyFromBuffer m) pk).
  { apply (entry_accepted_packed relayed _ pubKeyFile publicKeyBuffer);
      [top_level|]. rewrite Hrpk. exact Hpk. }
  unfold deserialize. eapply eq_trans.
  { apply try_catch_throw. unfold deserialize_body, assign. cbn [loadAsync].
    rewrite run_call, run_get, Hm, run_ret.
    rewrite run_bind, (deserializeFile_accepted _ _ _ _ _ _ Hcc'), run_modify.
    rewrite run_bind, (deserializeFile_accepted _ _ _ _ _ _ Hpk'), run_modify.
    rewrite run_bind, (deserializeFile_missing _ _ _ _ _ Hmiss). reflexivity. }
  reflexivity.
Qed.

End PipelineFacts.

(** ** The bundle written to disk *)

Module DiskExportFacts.
Import SchemeSwitchingDataSerializer SchemeSwitchingDataDeserializer DiskExport.
Import FrameFacts NameFacts PackFacts.

Lemma lit_app (a b : string) : lit (a +:+ b) = lit a ++ lit b.
Proof.
  unfold lit. induction a as [|x a IH]; [reflexivity|].
  change (String x a +:+ b) with (String x (a +:+ b)).
  cbn [list_ascii_of_string List.map app]. rewrite IH. reflexivity.
Qed.

Lemma lit_inj (a b : string) : lit a = lit b -> a = b.
Proof.
  unfold lit. revert b. induction a as [|x a IH]; intros [|y b] H;
    try discriminate; [reflexivity|].
  cbn in H. injection H as Hx H. f_equal; [|apply IH, H].
  rewrite <- (ascii_N_embedding x), <- (ascii_N_embedding y), Hx. reflexivity.
Qed.

Lemma createMapFileName_path (this : DataAndLocation.t) (index : N) (base : string) :
  createMapFileName this index base
  = path_of this (createMapFileNameDeserialize index base).
Proof.
  unfold createMapFileName, path_of, createMapFileNameDeserialize.
  rewrite !lit_app. reflexivity.
Qed.

Lemma path_of_inj (this : DataAndLocation.t) (a b : string) :
  path_of this a = path_of this b -> a = b.
Proof.
  unfold path_of. intros H. apply app_inv_head in H. apply app_inv_head in H.
  apply lit_inj, H.
Qed.

Lemma wrote_only_refl ok (written : Written) : wrote_only ok written written.
Proof. exists []. rewrite app_nil_r. split; [reflexivity|constructor]. Qed.

Lemma write_frame ok written0 fs path buffer :
  ok (path, buffer) -> preserves (wrote_only ok written0) (write fs path buffer).
Proof.
  intros Hok. unfold write. apply preserves_bind; [auto with frame|]. intros _.
  apply preserves_modify. intros written (new & -> & Hall).
  exists (new ++ [(path, buffer)]). rewrite app_assoc. split; [reflexivity|].
  apply Forall_app. split; [exact Hall|]. constructor; [exact Hok|constructor].
Qed.

Lemma writeToFile_frame ok written0 fs this buffer fileName :
  (forall b, buffer = Some b -> ok (path_of this fileName, b)) ->
  preserves (wrote_only ok written0) (writeToFile fs this buffer fileName).
Proof.
  intros Hok. unfold writeToFile. destruct buffer as [b|]; [|auto with frame].
  case_decide; [auto with frame|]. apply write_frame. apply Hok. reflexivity.
Qed.

Lemma forEach_frame {S A} (P : S -> Prop) (f : A -> M S unit) (l : list A) :
  (forall x, In x l -> preserves P (f x)) -> preserves P (forEach f l).
Proof.
  induction l as [|x l IH]; intros Hf; cbn [forEach]; [auto with frame|].
  apply preserves_bind; [apply Hf; left; reflexivity|]. intros _.
  apply IH. intros y Hy. apply Hf. right. exact Hy.
Qed.

(** Every write goes to the path of an entry name that is not the secret
    key's, and carries the buffer the archive holds under that name unless
    a later mapping claims it. *)
Lemma writeBuffersToFile_wrote_only (fs : FileSystem) (this : DataAndLocation.t)
    (written0 : Written) :
  preserves
    (wrote_only
       (fun e => exists name,
          e.1 = path_of this name /\ name <> secretKeyFile
          /\ ((exists field, In (name, field) unpacked_files
                             /\ field (buffers this) = Some e.2)
              \/ exists mapping,
                   In mapping (EvalKeyMappings (buffers this))
                   /\ ((name = createMapFileNameDeserialize (mapping_key mapping)
                                 baseRefreshKeyFile
                        /\ e.2 = mapping_BSkey mapping)
                       \/ (name = createMapFileNameDeserialize (mapping_key mapping)
                                    baseSwitchingKeyFile
                           /\ e.2 = mapping_KSkey mapping))))
       written0)
    (writeBuffersToFile fs this).
Proof.
  unfold writeBuffersToFile. cbn zeta.
  repeat (apply preserves_bind;
          [apply writeToFile_frame; intros b Hb; eexists; cbn [fst snd];
           split; [reflexivity|]; split; [discriminate|]; left;
           eexists; split; [|exact Hb]; cbn; tauto|]; intros _).
  apply forEach_frame. intros mapping Hin. unfold writeKeyMappingToFile. cbn zeta.
  assert (Hsecret : forall base,
             createMapFileNameDeserialize (mapping_key mapping) base <> secretKeyFile).
  { intros base. apply indexed_name_not_top_level. cbn; tauto. }
  apply preserves_bind; [|intros _]; apply write_frame; eexists; cbn [fst snd];
    (split; [apply createMapFileName_path|]); (split; [apply Hsecret|]);
    right; exists mapping; (split; [exact Hin|]); [left|right]; split; reflexivity.
Qed.

(** What has been written once the export has ended, one way or the
    other. *)
Lemma writeBuffersToFile_written (fs : FileSystem) (this : DataAndLocation.t)
    (path : JsString) (buffer : Buffer) :
  In (path, buffer) (writeBuffersToFile fs this []).2 ->
  exists name,
    path = path_of this name /\ name <> secretKeyFile
    /\ ((exists field, In (name, field) unpacked_files
                       /\ field (buffers this) = Some buffer)
        \/ exists mapping,
             In mapping (EvalKeyMappings (buffers this))
             /\ ((name = createMapFileNameDeserialize (mapping_key mapping)
                           baseRefreshKeyFile
                  /\ buffer = mapping_BSkey mapping)
                 \/ (name = createMapFileNameDeserialize (mapping_key mapping)
                              baseSwitchingKeyFile
                     /\ buffer = mapping_KSkey mapping))).
Proof.
  destruct (writeBuffersToFile fs this []) as [r written] eqn:Hrun.
  destruct (writeBuffersToFile_wrote_only fs this [] [] r written
              (wrote_only_refl _ []) Hrun) as (new & -> & Hall).
  cbn [snd app]. rewrite Forall_forall in Hall. intros Hin.
  apply list_elem_of_In in Hin. exact (Hall _ Hin).
Qed.

Lemma secret_key_never_written (fs : FileSystem) (this : DataAndLocation.t)
    (buffer : Buffer) :
  ~ In (path_of this secretKeyFile, buffer) (writeBuffersToFile fs this []).2.
Proof.
  intros Hin. destruct (writeBuffersToFile_written fs this _ _ Hin)
    as (name & Hpath & Hne & _).
  apply path_of_inj in Hpath. congruence.
Qed.

(** X17. [writeBuffersToFile] never writes the secret key.  Whatever the
    file system does, and whether the export completes or a write throws,
    no completed write went to [key_secret.txt] in the data directory, and
    every completed write went to the path, inside the data directory, of
    one of the nine other top-level files, with the buffer of that file as
    content, or of one of the two entries of a key mapping, with the
    buffer of that mapping. *)
Theorem writeBuffersToFile_skips_secretKey (fs : FileSystem) (this : DataAndLocation.t) :
  let written := (writeBuffersToFile fs this []).2 in
  (forall buffer, ~ In (path_of this secretKeyFile, buffer) written)
  /\ forall path buffer,
       In (path, buffer) written ->
       (exists name field,
          In (name, field) unpacked_files
          /\ path = path_of this name /\ field (buffers this) = Some buffer)
       \/ (exists mapping,
             In mapping (EvalKeyMappings (buffers this))
             /\ ((path = createMapFileName this (mapping_key mapping) baseRefreshKeyFile
                  /\ buffer = mapping_BSkey mapping)
                 \/ (path = createMapFileName this (mapping_key mapping)
                              baseSwitchingKeyFile
                     /\ buffer = mapping_KSkey mapping))).
Proof.
  cbn zeta. split; [apply secret_key_never_written|].
  intros path buffer Hin.
  destruct (writeBuffersToFile_written fs this _ _ Hin)
    as (name & -> & _ & [(field & Hf & Hb)|(mp & Hmp & H)]).
  - left. exists name, field. auto.
  - right. exists mp. split; [exact Hmp|]. rewrite !createMapFileName_path.
    destruct H as [[-> ->]|[-> ->]]; [left|right]; auto.
Qed.

Lemma write_ok (fs : FileSystem) path buffer (written : Written) :
  writeFileSync fs path buffer = Ok tt ->
  write fs path buffer written = (Ok tt, written ++ [(path, buffer)]).
Proof. intros H. unfold write. rewrite run_call, H. reflexivity. Qed.

Lemma writeToFile_ok (fs : FileSystem) this buffer fileName (written : Written) :
  (forall path b, writeFileSync fs path b = Ok tt) ->
  fileName <> "" ->
  writeToFile fs this buffer fileName written
  = (Ok tt, written ++ match buffer with
                       | Some b => [(path_of this fileName, b)]
                       | None => []
                       end).
Proof.
  intros Hfs Hne. unfold writeToFile. destruct buffer as [b|].
  - case_decide; [contradiction|]. apply write_ok, Hfs.
  - rewrite app_nil_r. reflexivity.
Qed.

Lemma writeKeyMappingToFile_ok (fs : FileSystem) this mapping (written : Written) :
  (forall path b, writeFileSync fs path b = Ok tt) ->
  writeKeyMappingToFile fs this mapping written
  = (Ok tt,
     written
     ++ [ (createMapFileName this (mapping_key mapping) baseRefreshKeyFile,
           mapping_BSkey mapping);
          (createMapFileName this (mapping_key mapping) baseSwitchingKeyFile,
           mapping_KSkey mapping) ]).
Proof.
  intros Hfs. unfold writeKeyMappingToFile. cbn zeta.
  rewrite run_bind, (write_ok _ _ _ _ (Hfs _ _)), (write_ok _ _ _ _ (Hfs _ _)).
  rewrite <- app_assoc. reflexivity.
Qed.

Lemma forEach_cons {S A} (f : A -> M S unit) (x : A) (l : list A) (s : S) :
  forEach f (x :: l) s
  = match f x s with
    | (Ok _, s') => forEach f l s'
    | (Throw e, s') => (Throw e, s')
    end.
Proof. reflexivity. Qed.

Lemma forEach_mappings_ok (fs : FileSystem) this (ms : list KeyMapping)
    (written : Written) :
  (forall path b, writeFileSync fs path b = Ok tt) ->
  forEach (writeKeyMappingToFile fs this) ms written
  = (Ok tt,
     written
     ++ flat_map (fun mapping =>
          [ (createMapFileName this (mapping_key mapping) baseRefreshKeyFile,
             mapping_BSkey mapping);
            (createMapFileName this (mapping_key mapping) baseSwitchingKeyFile,
             mapping_KSkey mapping) ]) ms).
Proof.
  intros Hfs. revert written. induction ms as [|mp ms IH]; intros written.
  - cbn. rewrite app_nil_r. reflexivity.
  - rewrite forEach_cons, (writeKeyMappingToFile_ok fs this mp written Hfs), IH.
    cbn [flat_map]. rewrite <- !app_assoc. reflexivity.
Qed.

(** With a file system that accepts every write, the export completes and
    writes the nine files that have a buffer, then two files per mapping. *)
Lemma writeBuffersToFile_ok (fs : FileSystem) (this : DataAndLocation.t) :
  (forall path b, writeFileSync fs path b = Ok tt) ->
  writeBuffersToFile fs this []
  = (Ok tt,
     omap (fun '(name, field) =>
             (fun b => (path_of this name, b)) <$> field (buffers this))
          unpacked_files
     ++ flat_map (fun mapping =>
          [ (createMapFileName this (mapping_key mapping) baseRefreshKeyFile,
             mapping_BSkey mapping);
            (createMapFileName this (mapping_key mapping) baseSwitchingKeyFile,
             mapping_KSkey mapping) ]) (EvalKeyMappings (buffers this))).
Proof.
  intros Hfs. unfold writeBuffersToFile. cbn zeta.
  do 9 (rewrite run_bind, (writeToFile_ok fs this _ _ _ Hfs) by discriminate).
  rewrite (forEach_mappings_ok fs this _ _ Hfs). f_equal.
  rewrite <- !app_assoc. unfold unpacked_files.
  destruct (buffers this) as [b1 b2 b3 b4 b5 b6 b7 b8 b9 b10 ms].
  cbn [cryptoContextBuffer publicKeyBuffer evalMultKeyBuffer automorphismKeyBuffer
       FHEWtoCKKSSwitchKeyBuffer binfheCryptoContextBuffer binFHEBootRefreshKeyBuffer
       binFHEBootRotKeyBuffer keyIndexBuffer EvalKeyMappings].
  destruct b1, b2, b4, b5, b6, b7, b8, b9, b10; reflexivity.
Qed.

Lemma unpacked_of_top_level (name : string) field :
  In (name, field) top_level_files -> name <> secretKeyFile ->
  In (name, field) unpacked_files.
Proof.
  intros Hin Hne. cbn in Hin. cbn.
  repeat (destruct Hin as [Hin|Hin];
          [inversion Hin; subst; try congruence; tauto|]).
  destruct Hin.
Qed.

Lemma top_level_of_unpacked (name : string) field :
  In (name, field) unpacked_files -> In (name, field) top_level_files.
Proof. cbn. tauto. Qed.

(** X18. The files on disk are the entries of the archive, less the secret
    key.  When the file system accepts every write and the key mappings
    have distinct indices, [writeBuffersToFile] completes, and a file of
    the data directory is written with some content exactly when the
    archive generated from the same bundle has an entry of that name and
    content other than [key_secret.txt]. *)
Theorem writeBuffersToFile_matches_archive
    (fs : FileSystem) (this : DataAndLocation.t) :
  (forall path b, writeFileSync fs path b = Ok tt) ->
  NoDup (List.map mapping_key (EvalKeyMappings (buffers this))) ->
  let r := writeBuffersToFile fs this [] in
  r.1 = Ok tt
  /\ forall name buffer,
       In (path_of this name, buffer) r.2
       <-> name <> secretKeyFile
           /\ packed_entries this !! name = Some (Readable buffer).
Proof.
  intros Hfs Hnd. cbn zeta. split; [rewrite (writeBuffersToFile_ok fs this Hfs); reflexivity|].
  intros name buffer. split.
  - intros Hin.
    destruct (writeBuffersToFile_written fs this _ _ Hin)
      as (name' & Hpath & Hne & Hsrc).
    apply path_of_inj in Hpath. subst name'. split; [exact Hne|].
    destruct Hsrc as [(field & Hf & Hb)|(mp & Hmp & H)].
    + rewrite (packed_top_level this name field (top_level_of_unpacked _ _ Hf)), Hb.
      reflexivity.
    + destruct (packed_mapping this mp Hmp) as [Hbs Hks].
      { intros mp' Hin' Hkey.
        exact (PipelineFacts.NoDup_keys_unique _ _ _ Hnd Hmp Hin' Hkey). }
      destruct H as [[-> ->]|[-> ->]]; assumption.
  - intros [Hne Hlook]. rewrite (writeBuffersToFile_ok fs this Hfs). cbn [snd].
    apply in_or_app.
    destruct (packed_lookup_inv this name _ Hlook)
      as [(field & buf & Hin & Hf & Hv)|(mp & Hmp & H)].
    + left. injection Hv as <-. apply list_elem_of_In, list_elem_of_omap.
      exists (name, field). split.
      * apply list_elem_of_In. exact (unpacked_of_top_level name field Hin Hne).
      * cbn. rewrite Hf. reflexivity.
    + right. apply in_flat_map. exists mp. split; [exact Hmp|].
      rewrite !createMapFileName_path.
      destruct H as [[-> Hv]|[-> Hv]]; injection Hv as <-; cbn; tauto.
Qed.

End DiskExportFacts.

(** ** Padding and the encoding of strings *)

Module PaddingFacts.

Lemma Array_from_length_fill_ok (n : Z) (v : Num) :
  (n <= max_array_length)%Z ->
  Array_from_length_fill (Int n) v = Ok (replicate (Z.to_nat n) v).
Proof.
  intros Hn. unfold Array_from_length_fill, ToLength, max_array_length in *.
  case_decide as H; [|lia]. f_equal. f_equal. lia.
Qed.

Lemma Array_from_length_fill_large (n : Z) (v : Num) :
  (max_array_length < n)%Z ->
  Array_from_length_fill (Int n) v = Throw (RangeError "Invalid array length").
Proof.
  intros Hn. unfold Array_from_length_fill, ToLength, max_array_length in *.
  case_decide as H; [lia|reflexivity].
Qed.

(** What both padding functions add: [max(slots - length, 0)] zeros. *)
Lemma padding_length (len : nat) (slots : Z) :
  Math_max (Num_sub (Int slots) (Int (Z.of_nat len))) (Int 0)
  = Int (Z.max (slots - Z.of_nat len) 0).
Proof. reflexivity. Qed.

(** X19. [padArray] pads in front and never truncates.  For an integer
    [slots] it returns exactly when [slots] and the length of the input
    are within the largest array length, and otherwise throws a
    [RangeError]; the result is the input preceded by [slots - length]
    zeros, so it has [max(slots, length)] elements, and a shorter input
    ends up in the last slots: with room to spare the first element of the
    result is [0].  When [slots] is not a number the input comes back
    unchanged. *)
Theorem padArray_spec (inputVal : list Num) (slots : Z) :
  (Z.of_nat (length inputVal) <= max_array_length)%Z ->
  let zeros := replicate (Z.to_nat (slots - Z.of_nat (length inputVal))) (Int 0) in
  ((slots <= max_array_length)%Z ->
   padArray inputVal (Int slots) = Ok (zeros ++ inputVal)
   /\ Z.of_nat (length (zeros ++ inputVal)) = Z.max slots (Z.of_nat (length inputVal))
   /\ ((Z.of_nat (length inputVal) < slots)%Z ->
       (zeros ++ inputVal) !! 0 = Some (Int 0)
       /\ forall i, (zeros ++ inputVal)
                      !! (Z.to_nat (slots - Z.of_nat (length inputVal)) + i)
                    = inputVal !! i))
  /\ ((max_array_length < slots)%Z ->
      padArray inputVal (Int slots) = Throw (RangeError "Invalid array length"))
  /\ padArray inputVal NaN = Ok inputVal.
Proof.
  intros Hlen. cbn zeta. split; [|split].
  - intros Hslots. split; [|split].
    + unfold padArray. cbn zeta. rewrite padding_length.
      rewrite Array_from_length_fill_ok by lia. unfold Array_concat.
      rewrite length_replicate. case_decide as H; [|lia].
      do 3 f_equal. lia.
    + rewrite length_app, length_replicate. lia.
    + intros Hroom. split.
      * destruct (Z.to_nat (slots - Z.of_nat (length inputVal))) as [|k] eqn:Hk;
          [lia|reflexivity].
      * intros i. rewrite lookup_app_r by (rewrite length_replicate; lia).
        rewrite length_replicate. f_equal. lia.
  - intros Hslots. unfold padArray. cbn zeta. rewrite padding_length.
    destruct (decide (Z.max (slots - Z.of_nat (length inputVal)) 0
                      <= max_array_length)%Z) as [Hfit|Hbig].
    + rewrite Array_from_length_fill_ok by exact Hfit. unfold Array_concat.
      rewrite length_replicate. case_decide as H; [lia|reflexivity].
    + rewrite Array_from_length_fill_large by lia. reflexivity.
  - unfold padArray, Array_from_length_fill. cbn [Num_sub Math_max ToLength].
    case_decide as H; [|unfold max_array_length in H; lia].
    unfold Array_concat. cbn [Z.to_nat replicate length app Nat.add].
    case_decide as H'; [reflexivity|]. exfalso. apply H'. exact Hlen.
Qed.

Lemma intToString_app (a b : list Num) :
  intToString (a ++ b) = intToString a ++ intToString b.
Proof.
  unfold intToString, join_empty. rewrite map_app, concat_app. reflexivity.
Qed.





Lemma stringToInt_app (a b : JsString) :
  stringToInt (a ++ b) = stringToInt a ++ stringToInt b.
Proof. unfold stringToInt, split_empty. rewrite !map_app. reflexivity. Qed.

Lemma stringToInt_fromCharCode (num : Num) :
  stringToInt (fromCharCode num) = [ToUint16 num].
Proof.
  destruct num as [|z]; [reflexivity|].
  unfold stringToInt, split_empty, fromCharCode, charCodeAt, ToUint16. cbn.
  rewrite Z2N.id by (apply Z.mod_pos_bound; lia). reflexivity.
Qed.

Lemma length_intToString (intList : list Num) :
  length (intToString intList) = length intList.
Proof.
  induction intList as [|num l IH]; [reflexivity|].
  change (num :: l) with ([num] ++ l). rewrite intToString_app, !length_app, IH.
  destruct num; reflexivity.
Qed.

Lemma wf_intToString (intList : list Num) : wf_string (intToString intList).
Proof.
  unfold wf_string. induction intList as [|num l IH]; [constructor|].
  change (num :: l) with ([num] ++ l). rewrite intToString_app.
  apply Forall_app. split; [|exact IH].
  destruct num as [|z]; unfold intToString, join_empty; cbn [List.map concat fromCharCode app];
    (constructor; [|constructor]); [lia|].
  pose proof (Z.mod_pos_bound z 65536 ltac:(lia)). lia.
Qed.

Lemma stringToInt_intToString_map (intList : list Num) :
  stringToInt (intToString intList) = List.map ToUint16 intList.
Proof.
  induction intList as [|num l IH]; [reflexivity|].
  change (num :: l) with ([num] ++ l).
  rewrite intToString_app, stringToInt_app, IH.
  unfold intToString at 1, join_empty. cbn [List.map concat].
  rewrite app_nil_r, stringToInt_fromCharCode. reflexivity.
Qed.

Lemma ToUint16_fixed (intList : list Num) :
  List.map ToUint16 intList = intList <-> Forall is_code_unit intList.
Proof.
  split.
  - intros Heq. induction intList as [|num l IH]; [constructor|].
    cbn in Heq. injection Heq as Hnum Hl. constructor; [|apply IH, Hl].
    destruct num as [|z]; [discriminate|]. cbn in *. injection Hnum as Hz.
    pose proof (Z.mod_pos_bound z 65536 ltac:(lia)). lia.
  - intros Hall. induction Hall as [|num l Hnum _ IH]; [reflexivity|].
    cbn. rewrite IH. f_equal. destruct num as [|z]; [destruct Hnum|].
    cbn in *. rewrite Z.mod_small by lia. reflexivity.
Qed.

(** X21. Decoding then encoding a vector reduces it to code units.  Every
    number of the vector becomes exactly one unit of the string, a number
    that is not a number becoming NUL; the string is well formed; and
    encoding it again gives each number modulo [65536], which is the
    vector itself exactly when all its numbers are codes of units. *)
Theorem stringToInt_intToString (intList : list Num) :
  length (intToString intList) = length intList
  /\ wf_string (intToString intList)
  /\ stringToInt (intToString intList) = List.map ToUint16 intList
  /\ (stringToInt (intToString intList) = intList
      <-> Forall is_code_unit intList).
Proof.
  split; [apply length_intToString|]. split; [apply wf_intToString|].
  split; [apply stringToInt_intToString_map|].
  rewrite stringToInt_intToString_map. apply ToUint16_fixed.
Qed.

End PaddingFacts.

(** ** The class [OpenFHE] *)

Module OpenFHEFacts.
Import OpenFHE.

Lemma engine_call_run {A} (c : Call) (r : Outcome A) (w : State) :
  engine_call c r w = (r, {| this := this w; calls := calls w ++ [c] |}).
Proof. reflexivity. Qed.

Lemma engine_call_bind {A B} (c : Call) (r : Outcome A) (k : A -> M State B) (w : State) :
  (engine_call c r ≫= k) w
  = match r with
    | Ok a => k a {| this := this w; calls := calls w ++ [c] |}
    | Throw e => (Throw e, {| this := this w; calls := calls w ++ [c] |})
    end.
Proof. rewrite run_bind, engine_call_run. destruct r; reflexivity. Qed.

Lemma override_number_truthy (given : option Num) (current : Num) :
  truthy current = true -> truthy (override_number given current) = true.
Proof.
  intros H. unfold override_number. destruct given as [n|]; [|exact H].
  destruct (truthy n) eqn:Hn; assumption.
Qed.

(** X22. What the constructor of [OpenFHE] guarantees.  Whatever
    arguments it is given, no numeric setting of the new object is [0] or
    not a number, since such an argument is ignored in favour of the
    default; the object holds no engine, no context and no keys; a
    usable [slots] argument is taken over; and the batch size is [32]
    unless a usable batch size is given: it is initialised from the
    default number of slots, not from the [slots] argument. *)
Theorem constructor_settings
    (scTech0 : option ScalingTechnique)
    (multDepth0 scaleModSize0 firstModSize0 ringDim0 : option Num)
    (sl0 : option SecurityLevel) (slBin0 : option BINFHEParamSet)
    (logQ_ccLWE0 slots0 batchSize0 : option Num) (sertype0 : option SerType) :
  let o := constructor scTech0 multDepth0 scaleModSize0 firstModSize0 ringDim0
             sl0 slBin0 logQ_ccLWE0 slots0 batchSize0 sertype0 in
  Forall (fun n => truthy n = true)
    [ multDepth o; scaleModSize o; firstModSize o; ringDim o; logQ_ccLWE o;
      slots o; batchSize o ]
  /\ openFHEModule o = None /\ cc o = None /\ keys o = None
  /\ (forall n, slots0 = Some n -> truthy n = true -> slots o = n)
  /\ ((forall n, batchSize0 = Some n -> truthy n = false) -> batchSize o = Int 32).
Proof.
  cbn zeta. split; [|split; [reflexivity|split; [reflexivity|split; [reflexivity|split]]]].
  - repeat constructor; apply override_number_truthy; reflexivity.
  - intros n -> Hn. cbn. rewrite Hn. reflexivity.
  - intros Hb. cbn. destruct batchSize0 as [n|]; [|reflexivity].
    cbn. rewrite (Hb n eq_refl). reflexivity.
Qed.

Lemma keys_secretKey_run (w : State) :
  keys_secretKey w
  = match keys (this w) with
    | None => (Throw (ErrorObj "TypeError"
                        "Cannot read properties of null (reading 'secretKey')"), w)
    | Some keypair => (Ok (kp_secretKey keypair), w)
    end.
Proof. unfold keys_secretKey. rewrite run_get. destruct (keys (this w)); reflexivity. Qed.

Lemma generateKey_run (objs : Objects) (w : State) (context : Obj) :
  cc (this w) = Some context ->
  generateKey objs w
  = let w1 := {| this := this w; calls := calls w ++ [KeyGen context] |} in
    match answer_KeyGen objs context with
    | Throw e => (Throw e, w1)
    | Ok _ =>
        match keys (this w) with
        | None => (Throw (ErrorObj "TypeError"
                            "Cannot read properties of null (reading 'secretKey')"), w1)
        | Some old =>
            let sum := EvalSumKeyGen context (kp_secretKey old) in
            let mult := EvalMultKeyGen context (kp_secretKey old) in
            let w2 := {| this := this w; calls := calls w1 ++ [sum] |} in
            match perform objs sum with
            | Throw e => (Throw e, w2)
            | Ok _ => (perform objs mult,
                       {| this := this w; calls := calls w2 ++ [mult] |})
            end
        end
    end.
Proof.
  intros Hcc. unfold generateKey. rewrite run_get, Hcc, run_bind.
  unfold generateKeyPair. rewrite run_get, Hcc, engine_call_run. cbn zeta.
  destruct (answer_KeyGen objs context) as [generated|e]; [|reflexivity].
  rewrite run_bind, keys_secretKey_run. cbn [this].
  destruct (keys (this w)) as [old|] eqn:Hkeys; [|reflexivity].
  rewrite engine_call_bind.
  destruct (perform objs (EvalSumKeyGen context (kp_secretKey old))) as [[]|e];
    [|reflexivity].
  rewrite run_bind, keys_secretKey_run. cbn [this]. rewrite Hkeys, engine_call_run.
  reflexivity.
Qed.

(** X23. [generateKey] never stores the key pair it generates.  The
    object is the same after the call as before, whatever the outcome.
    Without a context it throws before calling the engine.  On an object
    that holds a context but no keys it always throws, having asked the
    engine for a key pair and nothing else: when [KeyGen] returns, the
    throw is the [TypeError] of reading [secretKey] of [null].  When it
    returns, the object held keys before the call, and the sum and
    multiplication keys have been generated for the secret key of those,
    not of the pair just generated. *)
Theorem generateKey_keeps_keys (objs : Objects) (w : State) :
  let r := generateKey objs w in
  this r.2 = this w
  /\ (cc (this w) = None ->
      r = (Throw (Error "CKKSContext is not initialized"), w))
  /\ (forall context,
        cc (this w) = Some context -> keys (this w) = None ->
        exists e,
          r = (Throw e, {| this := this w; calls := calls w ++ [KeyGen context] |})
          /\ (forall generated,
                answer_KeyGen objs context = Ok generated ->
                e = ErrorObj "TypeError"
                      "Cannot read properties of null (reading 'secretKey')"))
  /\ (r.1 = Ok tt ->
      exists context old,
        cc (this w) = Some context /\ keys (this w) = Some old
        /\ calls r.2
           = calls w ++ [ KeyGen context;
                          EvalSumKeyGen context (kp_secretKey old);
                          EvalMultKeyGen context (kp_secretKey old) ]).
Proof.
  cbn zeta. destruct (cc (this w)) as [context|] eqn:Hcc.
  - rewrite (generateKey_run objs w context Hcc). cbn zeta.
    split; [|split; [discriminate|split]].
    + destruct (answer_KeyGen objs context); [|reflexivity].
      destruct (keys (this w)); [|reflexivity].
      destruct (perform objs _) as [[]|]; reflexivity.
    + intros context' Hc Hkeys. injection Hc as <-. rewrite Hkeys.
      destruct (answer_KeyGen objs context) as [generated|e].
      * eexists. split; [reflexivity|]. intros; reflexivity.
      * exists e. split; [reflexivity|]. intros; discriminate.
    + intros Hok. exists context.
      destruct (answer_KeyGen objs context); [|discriminate Hok].
      destruct (keys (this w)) as [old|]; [|discriminate Hok].
      exists old. split; [reflexivity|]. split; [reflexivity|].
      destruct (perform objs (EvalSumKeyGen context (kp_secretKey old))) as [[]|];
        [|discriminate Hok].
      cbn [snd calls]. rewrite <- !app_assoc. reflexivity.
  - assert (Hrun : generateKey objs w
                   = (Throw (Error "CKKSContext is not initialized"), w))
      by (unfold generateKey; rewrite run_get, Hcc; reflexivity).
    rewrite Hrun. split; [reflexivity|]. split; [reflexivity|].
    split; [discriminate|]. discriminate.
Qed.

(** Runs the [try] block up to the reading of the ring dimension, when
    the engine makes the two objects and every call made for its effect
    returns. *)
Lemma initializeCryptoContext_body_run (objs : Objects) (w : State)
    (m : Module_) (parameters context : Obj) :
  new_CCParamsCryptoContextCKKSRNS m = Ok parameters ->
  new_GenCryptoContextCKKS m parameters = Ok context ->
  (forall c, In c (context_setup m (this w) parameters context) ->
             perform objs c = Ok tt) ->
  initializeCryptoContext_body objs m w
  = (match answer_GetRingDimension objs context with
     | Ok _ => Ok tt
     | Throw e => Throw e
     end,
     {| this := set_cc (Some context) (this w);
        calls := calls w ++ context_setup m (this w) parameters context |}).
Proof.
  intros Hparams Hcontext Hall.
  assert (HF : Forall (fun c => perform objs c = Ok tt)
                 (context_setup m (this w) parameters context)).
  { apply Forall_forall. intros c Hc. apply Hall, list_elem_of_In, Hc. }
  unfold context_setup in HF. cbn zeta in HF.
  repeat match type of HF with
         | Forall _ (_ :: _) =>
             let H := fresh "Hc" in
             apply Forall_cons in HF; destruct HF as [H HF]
         end.
  clear HF Hall.
  unfold initializeCryptoContext_body, update.
  rewrite run_get. cbn zeta. rewrite engine_call_bind, Hparams. cbn [this calls].
  rewrite engine_call_bind, Hc0. cbn [this calls].
  rewrite engine_call_bind, Hc1. cbn [this calls].
  rewrite engine_call_bind, Hc2. cbn [this calls].
  rewrite engine_call_bind, Hc3. cbn [this calls].
  rewrite engine_call_bind, Hc4. cbn [this calls].
  rewrite engine_call_bind, Hc5. cbn [this calls].
  rewrite engine_call_bind, Hc6. cbn [this calls].
  rewrite engine_call_bind, Hc7. cbn [this calls].
  rewrite engine_call_bind, Hc8. cbn [this calls].
  rewrite engine_call_bind, Hc9. cbn [this calls].
  rewrite engine_call_bind, Hcontext, run_modify. cbn [this calls].
  rewrite engine_call_bind, Hc11. cbn [this calls].
  rewrite engine_call_bind, Hc12. cbn [this calls].
  rewrite engine_call_bind, Hc13. cbn [this calls].
  rewrite engine_call_bind, Hc14. cbn [this calls].
  rewrite engine_call_bind, Hc15. cbn [this calls].
  rewrite engine_call_bind, Hc16. cbn [this calls].
  rewrite engine_call_bind. cbn [this calls].
  unfold context_setup. rewrite <- !app_assoc. cbn [app].
  destruct (answer_GetRingDimension objs context); reflexivity.
Qed.

(** X24. Setting up the context.  [initializeCryptoContext] needs the
    engine: on a new object, and whenever the object holds no engine, it
    throws [openFHEModule is not initialized] and calls nothing.  With the
    engine, and every call made for its effect returning, it makes the
    calls of [context_setup] in that order: the multiplicative depth is
    raised by one exactly when the engine's value for the scaling
    technique of the object is its value for [FLEXIBLEAUTOEXT], and the
    batch size passed is the object's batch size, not its slots.  The
    context is assigned before the ring dimension is read for the log
    line: when that read throws a number, the method throws the engine's
    message for it although the object holds the finished context. *)
Theorem initializeCryptoContext_spec (objs : Objects) (w : State) :
  (openFHEModule (this w) = None ->
   initializeCryptoContext objs w
   = (Throw (Error "openFHEModule is not initialized"), w))
  /\ (forall scTech0 multDepth0 scaleModSize0 firstModSize0 ringDim0 sl0 slBin0
             logQ_ccLWE0 slots0 batchSize0 sertype0,
        this w = constructor scTech0 multDepth0 scaleModSize0 firstModSize0 ringDim0
                   sl0 slBin0 logQ_ccLWE0 slots0 batchSize0 sertype0 ->
        initializeCryptoContext objs w
        = (Throw (Error "openFHEModule is not initialized"), w))
  /\ forall m parameters context,
       openFHEModule (this w) = Some m ->
       new_CCParamsCryptoContextCKKSRNS m = Ok parameters ->
       new_GenCryptoContextCKKS m parameters = Ok context ->
       (forall c, In c (context_setup m (this w) parameters context) ->
                  perform objs c = Ok tt) ->
       let w' := {| this := set_cc (Some context) (this w);
                    calls := calls w
                             ++ context_setup m (this w) parameters context |} in
       (forall dim,
          answer_GetRingDimension objs context = Ok dim ->
          initializeCryptoContext objs w = (Ok tt, w'))
       /\ (forall code,
             answer_GetRingDimension objs context = Throw (NumberVal code) ->
             initializeCryptoContext objs w
             = (Throw (Error (getExceptionMessage m code)), w')).
Proof.
  assert (Hnone : openFHEModule (this w) = None ->
                  initializeCryptoContext objs w
                  = (Throw (Error "openFHEModule is not initialized"), w))
    by (intros H; unfold initializeCryptoContext; rewrite run_get, H; reflexivity).
  split; [exact Hnone|]. split.
  - intros. apply Hnone. match goal with H : this w = _ |- _ => rewrite H end.
    reflexivity.
  - intros m parameters context Hm Hparams Hcontext Hall. cbn zeta.
    pose proof (initializeCryptoContext_body_run objs w m parameters context
                  Hparams Hcontext Hall) as Hbody.
    split.
    + intros dim Hdim. rewrite Hdim in Hbody.
      unfold initializeCryptoContext. rewrite run_get, Hm.
      apply DeserializerFacts.try_catch_ok. exact Hbody.
    + intros code Hdim. rewrite Hdim in Hbody.
      unfold initializeCryptoContext. rewrite run_get, Hm.
      rewrite (DeserializerFacts.try_catch_throw _ _ _ _ _ Hbody). reflexivity.
Qed.

Lemma initializeOpenFHE_run (loaded : Outcome Module_) (w : State) :
  initializeOpenFHE loaded w
  = match loaded with
    | Ok m => (Ok tt, {| this := set_openFHEModule (Some m) (this w);
                         calls := calls w |})
    | Throw e => (Throw e, w)
    end.
Proof. destruct loaded; reflexivity. Qed.

(** X28. How the command-line tool sets up its context.  When loading the
    engine fails, the setup throws what the loader threw and calls
    nothing.  When the engine loads, makes the two objects and answers
    every call, and its values for the two scaling techniques differ, the
    setup returns having configured the context with the defaults of the
    class: multiplicative depth [17], scaling modulus size [50], first
    modulus size [57], fixed automatic scaling, no set security level,
    ring dimension [4096], batch size [32], and having enabled the six
    features. *)
Theorem main_setup_spec (objs : Objects) :
  (forall e,
     main_setup objs (Throw e)
     = (Throw e,
        {| this := constructor None None None None None None None None None None None;
           calls := [] |}))
  /\ forall m parameters context dim,
       new_CCParamsCryptoContextCKKSRNS m = Ok parameters ->
       new_GenCryptoContextCKKS m parameters = Ok context ->
       (forall c, perform objs c = Ok tt) ->
       answer_GetRingDimension objs context = Ok dim ->
       ScalingTechnique_FIXEDAUTO m <> ScalingTechnique_FLEXIBLEAUTOEXT m ->
       exists o,
         main_setup objs (Ok m)
         = (Ok tt,
            {| this := o;
               calls :=
                 [ NewCCParams;
                   SetMultiplicativeDepth parameters (Int 17);
                   SetScalingModSize parameters (Int 50);
                   SetFirstModSize parameters (Int 57);
                   SetScalingTechnique parameters (ScalingTechnique_FIXEDAUTO m);
                   SetSecurityLevel parameters (SecurityLevel_HEStd_NotSet m);
                   SetRingDim parameters (Int 4096);
                   SetBatchSize parameters (Int 32);
                   SetSecretKeyDist parameters (SecretKeyDist_UNIFORM_TERNARY m);
                   SetKeySwitchTechnique parameters (KeySwitchTechnique_HYBRID m);
                   SetNumLargeDigits parameters (Int 3);
                   GenCryptoContextCKKS parameters;
                   Enable context (PKESchemeFeature_PKE m);
                   Enable context (PKESchemeFeature_KEYSWITCH m);
                   Enable context (PKESchemeFeature_LEVELEDSHE m);
                   Enable context (PKESchemeFeature_ADVANCEDSHE m);
                   Enable context (PKESchemeFeature_SCHEMESWITCH m);
                   Enable context (PKESchemeFeature_PRE m);
                   GetRingDimension context ] |})
         /\ openFHEModule o = Some m /\ cc o = Some context /\ keys o = None
         /\ slots o = Int 32.
Proof.
  split; [reflexivity|].
  intros m parameters context dim Hparams Hcontext Hall Hdim Hdiff.
  eexists. split.
  - unfold main_setup. rewrite run_bind, initializeOpenFHE_run. cbn [this calls].
    unfold initializeCryptoContext. rewrite run_get. cbn [this openFHEModule set_openFHEModule constructor].
    eapply eq_trans.
    { apply DeserializerFacts.try_catch_ok.
      rewrite (initializeCryptoContext_body_run objs _ m parameters context
                 Hparams Hcontext (fun c _ => Hall c)).
      rewrite Hdim. reflexivity. }
    cbn [this calls app]. unfold context_setup.
    cbn [scTech multDepth scaleModSize firstModSize ringDim sl batchSize
         override override_number initial getScalingTechniques getSecurityLevels].
    rewrite decide_False by exact Hdiff. reflexivity.
  - repeat split.
Qed.

End OpenFHEFacts.

(** ** The bundle read from disk *)

Module BackendFacts.
Import SchemeSwitchingDataSerializer DiskExport Backend.

Lemma location_path_of (this : DataAndLocation.t) (fileName : string) :
  location this fileName = path_of this fileName.
Proof. reflexivity. Qed.



Lemma catch_never_returns (this : DataAndLocation.t) (r : Raised) :
  deserializeInBackend_catch this r <> Returned.
Proof.
  destruct r as [[name message|code]|filePath]; cbn; try discriminate.
  destruct (module this); discriminate.
Qed.

(** The [try] block, with the paths and the serialization type read from
    the object it starts from: the three assignments change neither. *)
Lemma deserializeInBackend_body_run (readFile : JsString -> Outcome Buffer)
    (this : DataAndLocation.t) (m : OpenFHEModule) :
  module this = Some m ->
  deserializeInBackend_body readFile this
  = match deserializeFile readFile (SERTYPE this) (location this cryptoContextFile)
            (DeserializeCryptoContextFromBuffer m) with
    | inl r => (Some r, this)
    | inr cc =>
        match deserializeFile readFile (SERTYPE this) (location this pubKeyFile)
                (DeserializePublicKeyFromBuffer m) with
        | inl r => (Some r, set_cryptoContext (Some cc) this)
        | inr pk =>
            match deserializeFile readFile (SERTYPE this)
                    (location this secretKeyFile)
                    (DeserializePrivateKeyFromBuffer m) with
            | inl r => (Some r, set_publicKey (Some pk)
                                  (set_cryptoContext (Some cc) this))
            | inr sk => (None, set_secretKey (Some sk)
                                 (set_publicKey (Some pk)
                                    (set_cryptoContext (Some cc) this)))
            end
        end
    end.
Proof.
  intros Hm. destruct this as [cc0 pk0 sk0 bincc0 swk0 dir m0 ser bufs].
  cbn [module] in Hm. subst m0. reflexivity.
Qed.


Lemma set_cryptoContext_frame (this : DataAndLocation.t) (cc : option Obj) :
  let this' := set_cryptoContext cc this in
  FHEWtoCKKSSwitchKey this' = FHEWtoCKKSSwitchKey this
  /\ binFHECryptoContext this' = binFHECryptoContext this
  /\ same_settings this this' /\ secretKey this' = secretKey this.
Proof. destruct this. repeat split. Qed.

Lemma set_publicKey_frame (this : DataAndLocation.t) (cc pk : option Obj) :
  let this' := set_publicKey pk (set_cryptoContext cc this) in
  FHEWtoCKKSSwitchKey this' = FHEWtoCKKSSwitchKey this
  /\ binFHECryptoContext this' = binFHECryptoContext this
  /\ same_settings this this' /\ secretKey this' = secretKey this.
Proof. destruct this. repeat split. Qed.



(** X26. What [writeBuffersToFile] puts on disk, [deserializeInBackend]
    cannot read back.  Take any way of reading files that fails on a
    path to which the export wrote nothing.  Then reading the bundle from
    the directory it was exported to never returns, because the export
    leaves out the secret-key file that the reading requires; the object
    gets no secret key. *)
Theorem disk_export_not_read_back (fs : FileSystem) (src this : DataAndLocation.t)
    (readFile : JsString -> Outcome Buffer) :
  dataDirectory this = dataDirectory src ->
  (forall path,
     (forall buffer, ~ In (path, buffer) (writeBuffersToFile fs src []).2) ->
     exists e, readFile path = Throw e) ->
  let r := deserializeInBackend readFile this in
  r.1 <> Returned /\ secretKey r.2 = secretKey this.
Proof.
  intros Hdir Hfs. cbn zeta.
  destruct (Hfs (path_of src secretKeyFile)
              (DiskExportFacts.secret_key_never_written fs src)) as [e He].
  assert (Hloc : location this secretKeyFile = path_of src secretKeyFile)
    by (unfold location, path_of; rewrite Hdir; reflexivity).
  unfold deserializeInBackend.
  destruct (module this) as [m|] eqn:Hm.
  - rewrite (deserializeInBackend_body_run readFile this m Hm).
    destruct (deserializeFile readFile (SERTYPE this)
                (location this cryptoContextFile) _) as [r1|cc];
      [split; [apply catch_never_returns|reflexivity]|].
    destruct (deserializeFile readFile (SERTYPE this) (location this pubKeyFile) _)
      as [r2|pk].
    { split; [apply catch_never_returns|].
      apply (set_cryptoContext_frame this (Some cc)). }
    assert (H3 : deserializeFile readFile (SERTYPE this) (location this secretKeyFile)
                   (DeserializePrivateKeyFromBuffer m) = inl (ThrownValue e))
      by (unfold deserializeFile; rewrite Hloc, He; reflexivity).
    rewrite H3. split; [apply catch_never_returns|].
    apply (set_publicKey_frame this (Some cc) (Some pk)).
  - unfold deserializeInBackend_body. rewrite Hm.
    split; [apply catch_never_returns|reflexivity].
Qed.

End BackendFacts.

(** ** The rows of the encrypted table *)

Module EncryptCsvFacts.
Import EncryptCsv.

Lemma object_set_app_notin (key v w : JsString) (o rest : Row) :
  key ∉ List.map fst o ->
  object_set key v (o ++ (key, w) :: rest) = o ++ (key, v) :: rest.
Proof.
  induction o as [|[k x] o IH]; intros Hnot; cbn [app object_set].
  - case_decide; [reflexivity|congruence].
  - cbn [List.map fst] in Hnot. apply not_elem_of_cons in Hnot.
    destruct Hnot as [Hne Hnot]. case_decide; [congruence|].
    rewrite (IH Hnot). reflexivity.
Qed.

Lemma object_set_keys (key v : JsString) (o : Row) :
  List.map fst (object_set key v o)
  = List.map fst o ++ (if decide (key ∈ List.map fst o) then [] else [key]).
Proof.
  induction o as [|[k x] o IH]; [reflexivity|]. cbn [object_set List.map fst].
  destruct (decide (k = key)) as [->|Hne].
  - rewrite decide_True by apply list_elem_of_here. rewrite app_nil_r. reflexivity.
  - cbn [List.map fst app]. rewrite IH. f_equal.
    destruct (decide (key ∈ List.map fst o)) as [Hin|Hnot].
    + rewrite decide_True by (apply list_elem_of_further, Hin). reflexivity.
    + rewrite decide_False; [reflexivity|].
      intros Hin. apply elem_of_cons in Hin. destruct Hin; [congruence|contradiction].
Qed.

Lemma object_set_In (key v : JsString) (o : Row) : In (key, v) (object_set key v o).
Proof.
  induction o as [|[k x] o IH]; cbn [object_set]; [left; reflexivity|].
  case_decide; [left; congruence|right; exact IH].
Qed.

Lemma object_set_other (key v k w : JsString) (o : Row) :
  k <> key -> In (k, w) o -> In (k, w) (object_set key v o).
Proof.
  intros Hne. induction o as [|[k' x] o IH]; intros Hin; [destruct Hin|].
  cbn [object_set]. destruct Hin as [Heq|Hin].
  - injection Heq as -> ->. case_decide; [congruence|left; reflexivity].
  - case_decide; right; [exact Hin|exact (IH Hin)].
Qed.

(** The loop replaces the values in place: it computes what [map_values]
    describes column by column. *)
Lemma encrypt_entries_run {number Key} (f : Functions number Key)
    (skipColumns : list JsString) (encryptionKey : Key) (entries done : Row) :
  NoDup (List.map fst (done ++ entries)) ->
  encrypt_entries f skipColumns encryptionKey entries (done ++ entries)
  = match map_values (encrypted_value f skipColumns encryptionKey) entries with
    | Ok cells => Ok (done ++ cells)
    | Throw e => Throw e
    end.
Proof.
  revert done. induction entries as [|[key value] entries IH]; intros done Hnd.
  - reflexivity.
  - assert (Hnot : key ∉ List.map fst done).
    { rewrite map_app in Hnd. apply NoDup_app in Hnd.
      destruct Hnd as (_ & Hdisj & _). intros Hin. apply (Hdisj key Hin).
      apply list_elem_of_here. }
    assert (Hnext : forall v, NoDup (List.map fst ((done ++ [(key, v)]) ++ entries))).
    { intros v. rewrite <- app_assoc. rewrite !map_app in *. exact Hnd. }
    assert (Hstep : forall v,
               encrypt_entries f skipColumns encryptionKey entries
                 (done ++ (key, v) :: entries)
               = match map_values (encrypted_value f skipColumns encryptionKey)
                         entries with
                 | Ok cells => Ok (done ++ (key, v) :: cells)
                 | Throw e => Throw e
                 end).
    { intros v. replace (done ++ (key, v) :: entries)
        with ((done ++ [(key, v)]) ++ entries) by (rewrite <- app_assoc; reflexivity).
      rewrite (IH _ (Hnext v)).
      destruct (map_values _ entries); [rewrite <- app_assoc|]; reflexivity. }
    cbn [encrypt_entries map_values]. unfold encrypt_entry, encrypted_value.
    destruct (decide (key ∈ skipColumns));
      [rewrite Hstep; destruct (map_values _ entries); reflexivity|].
    destruct (decide (value = []));
      [rewrite Hstep; destruct (map_values _ entries); reflexivity|].
    destruct (negb (isNaN f (Number f value))).
    + destruct (encryptNumber f (Number f value) encryptionKey) as [ct|e];
        [|reflexivity].
      rewrite (object_set_app_notin key ct value done entries Hnot), Hstep.
      destruct (map_values _ entries); reflexivity.
    + destruct (encryptString f value encryptionKey) as [ct|e]; [|reflexivity].
      rewrite (object_set_app_notin key ct value done entries Hnot), Hstep.
      destruct (map_values _ entries); reflexivity.
Qed.

Lemma map_values_keys g (row cells : Row) :
  map_values g row = Ok cells -> List.map fst cells = List.map fst row.
Proof.
  revert cells. induction row as [|[k v] row IH]; intros cells H; cbn in H.
  - injection H as <-. reflexivity.
  - destruct (g k v) as [v'|e]; [|discriminate].
    destruct (map_values g row) as [rest|e]; [|discriminate].
    injection H as <-. cbn. rewrite (IH rest eq_refl). reflexivity.
Qed.

Lemma map_values_In g (row cells : Row) (k v : JsString) :
  map_values g row = Ok cells -> In (k, v) row ->
  exists v', g k v = Ok v' /\ In (k, v') cells.
Proof.
  revert cells. induction row as [|[k0 v0] row IH]; intros cells H Hin;
    [destruct Hin|]. cbn in H.
  destruct (g k0 v0) as [v0'|e] eqn:Hg; [|discriminate].
  destruct (map_values g row) as [rest|e]; [|discriminate].
  injection H as <-. destruct Hin as [Heq|Hin].
  - injection Heq as -> ->. exists v0'. split; [exact Hg|left; reflexivity].
  - destruct (IH rest eq_refl Hin) as (v' & Hv & Hin'). exists v'.
    split; [exact Hv|right; exact Hin'].
Qed.

(** X27. What a row of the output table holds.  When the function mapped
    over the rows returns for a row with distinct column names, the new
    row has the columns of the row in their order, followed by [PRE_key]
    unless the row has a column of that name; the [PRE_key] column holds
    the PRE key generated for the key of this row, also when the input has
    such a column and even when it is listed among the columns to skip;
    every other column holds its old value when it is listed to skip or
    empty, the number ciphertext when [Number] of the value is a number,
    and the string ciphertext otherwise. *)
Theorem processRow_spec {number Key} (f : Functions number Key)
    (skipColumns : list JsString) (row newRow : Row) :
  NoDup (List.map fst row) ->
  processRow f skipColumns row = Ok newRow ->
  exists encryptionKey pre,
    generateKey f = Ok encryptionKey
    /\ generatePREKey f encryptionKey = Ok pre
    /\ List.map fst newRow
       = List.map fst row
         ++ (if decide (PRE_key ∈ List.map fst row) then [] else [PRE_key])
    /\ In (PRE_key, pre) newRow
    /\ forall key value,
         In (key, value) row -> key <> PRE_key ->
         exists value',
           In (key, value') newRow
           /\ encrypted_value f skipColumns encryptionKey key value = Ok value'
           /\ (key ∈ skipColumns \/ value = [] -> value' = value)
           /\ (key ∉ skipColumns -> value <> [] ->
               (if negb (isNaN f (Number f value))
                then encryptNumber f (Number f value) encryptionKey
                else encryptString f value encryptionKey) = Ok value').
Proof.
  intros Hnd Hrun. unfold processRow in Hrun.
  destruct (generateKey f) as [encryptionKey|e]; [|discriminate].
  pose proof (encrypt_entries_run f skipColumns encryptionKey row [] Hnd) as Hloop.
  cbn [app] in Hloop. rewrite Hloop in Hrun.
  destruct (map_values (encrypted_value f skipColumns encryptionKey) row)
    as [cells|e] eqn:Hcells; [|discriminate].
  destruct (generatePREKey f encryptionKey) as [pre|e] eqn:Hpre; [|discriminate].
  injection Hrun as <-. exists encryptionKey, pre.
  split; [reflexivity|]. split; [exact Hpre|]. split; [|split].
  - rewrite object_set_keys, (map_values_keys _ _ _ Hcells). reflexivity.
  - apply object_set_In.
  - intros key value Hin Hne.
    destruct (map_values_In _ _ _ key value Hcells Hin) as (value' & Hv & Hin').
    exists value'. split; [apply object_set_other; assumption|].
    split; [exact Hv|]. unfold encrypted_value in Hv. split.
    + intros [Hskip|Hempty].
      * rewrite decide_True in Hv by exact Hskip. congruence.
      * destruct (decide (key ∈ skipColumns)); [congruence|].
        rewrite decide_True in Hv by exact Hempty. congruence.
    + intros Hskip Hempty. rewrite decide_False in Hv by exact Hskip.
      rewrite decide_False in Hv by exact Hempty. exact Hv.
Qed.

End EncryptCsvFacts.

(** ** More theorems at work on concrete inputs *)

Module MoreWitnesses.
Import SchemeSwitchingDataSerializer SchemeSwitchingDataDeserializer.
Import Download Construction DiskExport.

Lemma deliver_in_order_exact_witness :
  [[x01; x02]; [x03]] <> ([] : list Buffer)
  /\ promise (deliver (chunk_messages [[x01; x02]; [x03]])) = Resolved [x01; x02; x03]
  /\ promise (deliver (take 1 (chunk_messages [[x01; x02]; [x03]]))) = Pending.
Proof.
  assert (Hne : [[x01; x02]; [x03]] <> ([] : list Buffer)) by discriminate.
  split; [exact Hne|].
  destruct (TransferFacts.deliver_in_order_exact _ Hne) as [Hall Hpart].
  split; [exact Hall|]. apply (Hpart 1). simpl. lia.
Defined.

Lemma onmessage_assembles_witness :
  let st := deliver [fileChunk [x01] 0 3] in
  promise st = Pending
  /\ length (array_set (chunks st) 2 [x03]) = 3
  /\ promise (onmessage st (fileChunk [x03] 2 3)) = Resolved [x01; x03].
Proof.
  cbn zeta.
  assert (Hp : promise (deliver [fileChunk [x01] 0 3]) = Pending) by reflexivity.
  assert (Hl : length (array_set (chunks (deliver [fileChunk [x01] 0 3])) 2 [x03]) = 3)
    by reflexivity.
  split; [exact Hp|]. split; [exact Hl|].
  exact (TransferFacts.onmessage_assembles _ [x03] 2 3 Hp Hl).
Defined.

Lemma completion_iff_last_index_witness :
  Forall (chunk_of 3) [fileChunk [x03] 2 3; fileCreated]
  /\ declares_completion (deliver [fileChunk [x03] 2 3; fileCreated]).
Proof.
  assert (Hall : Forall (chunk_of 3) [fileChunk [x03] 2 3; fileCreated])
    by (repeat constructor).
  split; [exact Hall|].
  apply (TransferFacts.completion_iff_last_index 3 _ Hall). simpl. tauto.
Defined.

Lemma settlement_is_final_witness :
  promise (deliver [fileChunk [x01] 0 2]) = Pending
  /\ promise (deliver ([fileChunk [x01] 0 2]
                       ++ error "no space" :: [fileChunk [x02] 1 2]))
     = Rejected (Error "no space").
Proof.
  assert (Hp : promise (deliver [fileChunk [x01] 0 2]) = Pending) by reflexivity.
  split; [exact Hp|].
  destruct (TransferFacts.settlement_is_final [fileChunk [x01] 0 2]
              [fileChunk [x02] 1 2]) as [Herr _].
  exact (Herr "no space" Hp).
Defined.

Lemma downloadFileViaWorker_outcomes_witness :
  let saveAs := fun (_ : Buffer) (_ : JsString) => Ok tt in
  [[x01; x02]; [x03]] <> ([] : list Buffer)
  /\ downloadFileViaWorker saveAs (Some (chunk_messages [[x01; x02]; [x03]]))
       (lit "keys.zip")
     = Some (Ok tt).
Proof.
  cbn zeta.
  assert (Hne : [[x01; x02]; [x03]] <> ([] : list Buffer)) by discriminate.
  split; [exact Hne|].
  destruct (TransferFacts.downloadFileViaWorker_outcomes
              (fun _ _ => Ok tt) (lit "keys.zip")) as (_ & _ & Hordered & _).
  exact (Hordered _ Hne).
Defined.

Lemma entry_names_distinct_witness :
  In keyIndexFile (List.map fst top_level_files)
  /\ createMapFileNameDeserialize 3 baseRefreshKeyFile <> keyIndexFile.
Proof.
  assert (Hin : In keyIndexFile (List.map fst top_level_files)) by (simpl; tauto).
  split; [exact Hin|].
  destruct NameFacts.entry_names_distinct as (_ & _ & Htop).
  exact (Htop 3%N baseRefreshKeyFile keyIndexFile Hin).
Defined.

Lemma createDownloadableFile_entries_witness :
  In (pubKeyFile, publicKeyBuffer) top_level_files
  /\ exists zip,
       createDownloadableFile Samples.bundle = ZipFile zip
       /\ zip !! pubKeyFile = Readable <$> publicKeyBuffer (buffers Samples.bundle).
Proof.
  assert (Hin : In (pubKeyFile, publicKeyBuffer) top_level_files) by (simpl; tauto).
  split; [exact Hin|].
  destruct (PackFacts.createDownloadableFile_entries Samples.bundle)
    as (zip & Hzip & Htop & _).
  exists zip. split; [exact Hzip|]. exact (Htop _ _ Hin).
Defined.

Lemma pack_unpack_round_trip_witness :
  In (keyIndexFile, keyIndexBuffer) unpacked_files
  /\ keyIndexBuffer
       (buffers (uploadFile (createDownloadableFile Samples.bundle)
                   (fresh BINARY)).2)
     = keyIndexBuffer (buffers Samples.bundle).
Proof.
  assert (Hin : In (keyIndexFile, keyIndexBuffer) unpacked_files) by (simpl; tauto).
  split; [exact Hin|].
  destruct (PackFacts.pack_unpack_round_trip Samples.bundle (fresh BINARY))
    as (_ & Hfields & _).
  exact (Hfields _ _ Hin).
Defined.

Lemma Serialize_after_construction_witness :
  let this :=
    {| cryptoContext := Some 1%N; publicKey := Some 2%N; secretKey := Some 3%N;
       binFHECryptoContext := Some 7%N; FHEWtoCKKSSwitchKey := Some 6%N;
       dataDirectory := lit "demoData"; module := None; SERTYPE := BINARY;
       buffers := initial_buffers |} in
  new_serializer Samples.getters BINARY (Some 1%N) (Some 2%N) (Some 3%N) = Ok this
  /\ Serialize this = (Throw (Error "OPENFHE module is None"), this).
Proof.
  cbn zeta.
  assert (Hnew : new_serializer Samples.getters BINARY (Some 1%N) (Some 2%N) (Some 3%N)
                 = Ok {| cryptoContext := Some 1%N; publicKey := Some 2%N;
                         secretKey := Some 3%N; binFHECryptoContext := Some 7%N;
                         FHEWtoCKKSSwitchKey := Some 6%N;
                         dataDirectory := lit "demoData"; module := None;
                         SERTYPE := BINARY; buffers := initial_buffers |})
    by reflexivity.
  split; [exact Hnew|].
  destruct (SerializeFrameFacts.Serialize_after_construction _ _ _ _ _ _ Hnew)
    as [Hrun _].
  exact Hrun.
Defined.

Lemma Serialize_returns_iff_witness :
  (forall a, returns_buffer (export_of (Sample.serializer true [3; 7]%N) a))
  /\ pairs_exported (Sample.serializer true [3; 7]%N)
  /\ exists this', Serialize (Sample.serializer true [3; 7]%N) = (Ok tt, this').
Proof.
  assert (Hexp : forall a,
             returns_buffer (export_of (Sample.serializer true [3; 7]%N) a))
    by (intros a; destruct a; eexists; reflexivity).
  assert (Hpairs : pairs_exported (Sample.serializer true [3; 7]%N)).
  { intros m bincc Hm Hb index Hin. simpl in Hm. injection Hm as <-.
    exists [x08], [x09]. split; reflexivity. }
  split; [exact Hexp|]. split; [exact Hpairs|].
  apply (SerializeFrameFacts.Serialize_returns_iff (Sample.serializer true [3; 7]%N)).
  split; [exact Hexp|exact Hpairs].
Defined.

Lemma Serialize_twice_witness :
  Serialize (Sample.serializer true [3; 7]%N) = (Ok tt, Samples.bundle)
  /\ exists this2 ms,
       Serialize Samples.bundle = (Ok tt, this2)
       /\ EvalKeyMappings (buffers Samples.bundle)
          = EvalKeyMappings (buffers (Sample.serializer true [3; 7]%N)) ++ ms
       /\ EvalKeyMappings (buffers this2)
          = EvalKeyMappings (buffers (Sample.serializer true [3; 7]%N)) ++ ms ++ ms
       /\ (forall a, field_of a (buffers this2) = field_of a (buffers Samples.bundle))
       /\ createDownloadableFile this2 = createDownloadableFile Samples.bundle.
Proof.
  assert (Hrun : Serialize (Sample.serializer true [3; 7]%N) = (Ok tt, Samples.bundle))
    by reflexivity.
  split; [exact Hrun|].
  exact (SerializeFrameFacts.Serialize_twice _ _ Hrun).
Defined.

Lemma deserialize_throws_Error_witness :
  let w := Sample.deserializer [3%N] in
  module (this w) = Some (Sample.engine true [3%N])
  /\ deserialize (NotZip "not a zip file") w
     = (Throw (Error "Error: not a zip file"), w)
  /\ exists e0 w0,
       deserialize_body (NotZip "not a zip file") w = (Throw e0, w0)
       /\ w = w0
       /\ Error "Error: not a zip file"
          = Error (match e0 with
                   | NumberVal code =>
                       getExceptionMessage (Sample.engine true [3%N]) code
                   | ErrorObj name message => error_to_string name message
                   end).
Proof.
  cbn zeta.
  assert (Hm : module (this (Sample.deserializer [3%N]))
               = Some (Sample.engine true [3%N])) by reflexivity.
  assert (Hrun : deserialize (NotZip "not a zip file") (Sample.deserializer [3%N])
                 = (Throw (Error "Error: not a zip file"), Sample.deserializer [3%N]))
    by reflexivity.
  split; [exact Hm|]. split; [exact Hrun|].
  exact (DeserializeFrameFacts.deserialize_throws_Error _ _ _ _ _ Hm Hrun).
Defined.

Ltac accept := eexists; split; [vm_compute; reflexivity|reflexivity].

Lemma deserialize_missing_pair_witness :
  let m := Sample.engine true [3; 7]%N in
  let w := Sample.deserializer [3; 7]%N in
  let zip := Sample.archive [x03; x07] [3%N] in
  let key_of := fun _ : N => {| BSkey := 8%N; KSkey := 9%N |} in
  module (this w) = Some m
  /\ mandatory_accepted m zip BINARY Sample.rebuilt
  /\ optionals_accepted m zip BINARY Sample.rebuilt
  /\ entry_accepted zip BINARY keyIndexFile (DeserializeSeedSeqVector m)
       ([3%N] ++ 7%N :: [])
  /\ (forall i, In i [3%N] -> pair_accepted m zip BINARY 7%N i (key_of i))
  /\ zip !! createMapFileNameDeserialize 7 baseRefreshKeyFile = None
  /\ deserialize (ZipFile zip) w
     = (Throw (Error ("Error: File "
                      +:+ createMapFileNameDeserialize 7 baseRefreshKeyFile
                      +:+ " not found in the zip")),
        {| this := with_reconstructed Sample.rebuilt (this w);
           engine_calls :=
             engine_calls w
             ++ primary_calls zip Sample.rebuilt
             ++ [CallBTKeyMapLoadSingleElement 7%N 3%N (key_of 3%N)] |}).
Proof.
  cbn zeta.
  assert (Hm : module (this (Sample.deserializer [3; 7]%N))
               = Some (Sample.engine true [3; 7]%N)) by reflexivity.
  assert (Hmand : mandatory_accepted (Sample.engine true [3; 7]%N)
                    (Sample.archive [x03; x07] [3%N]) BINARY Sample.rebuilt)
    by (repeat split; try accept).
  assert (Hopt : optionals_accepted (Sample.engine true [3; 7]%N)
                   (Sample.archive [x03; x07] [3%N]) BINARY Sample.rebuilt).
  { split; vm_compute; [exact I|]. exists true. reflexivity. }
  assert (Hidx : entry_accepted (Sample.archive [x03; x07] [3%N]) BINARY keyIndexFile
                   (DeserializeSeedSeqVector (Sample.engine true [3; 7]%N))
                   ([3%N] ++ 7%N :: [])) by accept.
  assert (Hpairs : forall i, In i [3%N] ->
             pair_accepted (Sample.engine true [3; 7]%N)
               (Sample.archive [x03; x07] [3%N]) BINARY 7%N i
               {| BSkey := 8%N; KSkey := 9%N |}).
  { intros i [<-|[]]; repeat split; accept. }
  assert (Hmiss : Sample.archive [x03; x07] [3%N]
                    !! createMapFileNameDeserialize 7 baseRefreshKeyFile = None)
    by (vm_compute; reflexivity).
  split; [exact Hm|]. split; [exact Hmand|]. split; [exact Hopt|].
  split; [exact Hidx|]. split; [exact Hpairs|]. split; [exact Hmiss|].
  destruct (PipelineFacts.deserialize_missing_pair _ _ _ _
              (fun _ => {| BSkey := 8%N; KSkey := 9%N |}) _ _ _
              Hm Hmand Hopt Hidx Hpairs Hmiss) as [Hrun _].
  exact Hrun.
Defined.

Ltac accept_buffer := eexists; split; vm_compute; reflexivity.

Lemma pack_then_deserialize_witness :
  let m := Sample.engine true [3; 7]%N in
  let w := Sample.deserializer [3; 7]%N in
  let key_of := fun _ : N => {| BSkey := 8%N; KSkey := 9%N |} in
  module (this w) = Some m
  /\ bundle_accepted m BINARY (buffers Samples.bundle) Sample.rebuilt
  /\ evalMultKeyBuffer (buffers Samples.bundle) = Some [x04]
  /\ automorphismKeyBuffer (buffers Samples.bundle) = Some [x05]
  /\ EvalKeyMappings (buffers Samples.bundle) <> []
  /\ NoDup (List.map mapping_key (EvalKeyMappings (buffers Samples.bundle)))
  /\ buffer_accepted (keyIndexBuffer (buffers Samples.bundle)) BINARY
       (DeserializeSeedSeqVector m)
       (List.map mapping_key (EvalKeyMappings (buffers Samples.bundle)))
  /\ (forall mapping, In mapping (EvalKeyMappings (buffers Samples.bundle)) ->
        mapping_accepted m BINARY 7%N mapping (key_of (mapping_key mapping)))
  /\ (deserialize (createDownloadableFile Samples.bundle) w).1 = Ok tt.
Proof.
  cbn zeta.
  assert (Hm : module (this (Sample.deserializer [3; 7]%N))
               = Some (Sample.engine true [3; 7]%N)) by reflexivity.
  assert (Hacc : bundle_accepted (Sample.engine true [3; 7]%N) BINARY
                   (buffers Samples.bundle) Sample.rebuilt).
  { repeat split; try accept_buffer; intros buf _; exists true; reflexivity. }
  assert (Hmult : evalMultKeyBuffer (buffers Samples.bundle) = Some [x04])
    by reflexivity.
  assert (Hrot : automorphismKeyBuffer (buffers Samples.bundle) = Some [x05])
    by reflexivity.
  assert (Hne : EvalKeyMappings (buffers Samples.bundle) <> []) by discriminate.
  assert (Hnd : NoDup (List.map mapping_key (EvalKeyMappings (buffers Samples.bundle)))).
  { apply (bool_decide_unpack _). vm_compute. exact I. }
  assert (Hidx : buffer_accepted (keyIndexBuffer (buffers Samples.bundle)) BINARY
                   (DeserializeSeedSeqVector (Sample.engine true [3; 7]%N))
                   (List.map mapping_key (EvalKeyMappings (buffers Samples.bundle))))
    by accept_buffer.
  assert (Hmaps : forall mapping,
             In mapping (EvalKeyMappings (buffers Samples.bundle)) ->
             mapping_accepted (Sample.engine true [3; 7]%N) BINARY 7%N mapping
               {| BSkey := 8%N; KSkey := 9%N |}).
  { intros mapping [<-|[<-|[]]]; repeat split. }
  split; [exact Hm|]. split; [exact Hacc|]. split; [exact Hmult|].
  split; [exact Hrot|]. split; [exact Hne|]. split; [exact Hnd|].
  split; [exact Hidx|]. split; [exact Hmaps|].
  rewrite (PipelineFacts.pack_then_deserialize Samples.bundle _ _ Sample.rebuilt
             (fun _ => {| BSkey := 8%N; KSkey := 9%N |}) [x04] [x05]
             Hm Hacc Hmult Hrot Hne Hnd Hidx Hmaps).
  reflexivity.
Defined.

Lemma relayed_archive_lacks_secret_key_witness :
  let m := Sample.engine true [3; 7]%N in
  let w := Sample.deserializer [3; 7]%N in
  let relayed :=
    (uploadFile (createDownloadableFile Samples.bundle) (fresh BINARY)).2 in
  secretKeyBuffer (buffers (fresh BINARY)) = None
  /\ module (this w) = Some m
  /\ buffer_accepted (cryptoContextBuffer (buffers Samples.bundle)) BINARY
       (DeserializeCryptoContextFromBuffer m) 1%N
  /\ buffer_accepted (publicKeyBuffer (buffers Samples.bundle)) BINARY
       (DeserializePublicKeyFromBuffer m) 2%N
  /\ deserialize (createDownloadableFile relayed) w
     = (Throw (Error "Error: File key_secret.txt not found in the zip"),
        {| this := set_publicKey (Some 2%N) (set_cryptoContext (Some 1%N) (this w));
           engine_calls := engine_calls w |}).
Proof.
  cbn zeta.
  assert (Hnone : secretKeyBuffer (buffers (fresh BINARY)) = None) by reflexivity.
  assert (Hm : module (this (Sample.deserializer [3; 7]%N))
               = Some (Sample.engine true [3; 7]%N)) by reflexivity.
  assert (Hcc : buffer_accepted (cryptoContextBuffer (buffers Samples.bundle)) BINARY
                  (DeserializeCryptoContextFromBuffer (Sample.engine true [3; 7]%N))
                  1%N) by accept_buffer.
  assert (Hpk : buffer_accepted (publicKeyBuffer (buffers Samples.bundle)) BINARY
                  (DeserializePublicKeyFromBuffer (Sample.engine true [3; 7]%N))
                  2%N) by accept_buffer.
  split; [exact Hnone|]. split; [exact Hm|]. split; [exact Hcc|]. split; [exact Hpk|].
  destruct (PipelineFacts.relayed_archive_lacks_secret_key Samples.bundle
              (fresh BINARY) _ _ 1%N 2%N Hnone Hm Hcc Hpk) as (_ & _ & Hrun).
  exact Hrun.
Defined.

Lemma writeBuffersToFile_skips_secretKey_witness :
  In (path_of Samples.bundle pubKeyFile, [x02])
     (writeBuffersToFile Samples.disk Samples.bundle []).2
  /\ ~ In (path_of Samples.bundle secretKeyFile, [x03])
         (writeBuffersToFile Samples.disk Samples.bundle []).2.
Proof.
  split; [vm_compute; tauto|].
  destruct (DiskExportFacts.writeBuffersToFile_skips_secretKey Samples.disk
              Samples.bundle) as [Hsecret _].
  exact (Hsecret [x03]).
Defined.

Lemma writeBuffersToFile_matches_archive_witness :
  (forall path b, writeFileSync Samples.disk path b = Ok tt)
  /\ NoDup (List.map mapping_key (EvalKeyMappings (buffers Samples.bundle)))
  /\ (writeBuffersToFile Samples.disk Samples.bundle []).1 = Ok tt
  /\ (In (path_of Samples.bundle keyIndexFile, [x03; x07])
         (writeBuffersToFile Samples.disk Samples.bundle []).2
      <-> keyIndexFile <> secretKeyFile
          /\ packed_entries Samples.bundle !! keyIndexFile
             = Some (Readable [x03; x07])).
Proof.
  assert (Hfs : forall path b, writeFileSync Samples.disk path b = Ok tt)
    by (intros; reflexivity).
  assert (Hnd : NoDup (List.map mapping_key (EvalKeyMappings (buffers Samples.bundle)))).
  { apply (bool_decide_unpack _). vm_compute. exact I. }
  split; [exact Hfs|]. split; [exact Hnd|].
  destruct (DiskExportFacts.writeBuffersToFile_matches_archive Samples.disk
              Samples.bundle Hfs Hnd) as [Hok Hiff].
  split; [exact Hok|]. exact (Hiff keyIndexFile [x03; x07]).
Defined.

Lemma padArray_spec_witness :
  (Z.of_nat (length [Int 5]) <= max_array_length)%Z
  /\ (4 <= max_array_length)%Z
  /\ padArray [Int 5] (Int 4) = Ok [Int 0; Int 0; Int 0; Int 5]
  /\ [Int 0; Int 0; Int 0; Int 5] !! 0 = Some (Int 0).
Proof.
  assert (Hlen : (Z.of_nat (length [Int 5]) <= max_array_length)%Z)
    by (unfold max_array_length; simpl; lia).
  assert (Hslots : (4 <= max_array_length)%Z) by (unfold max_array_length; lia).
  split; [exact Hlen|]. split; [exact Hslots|].
  destruct (PaddingFacts.padArray_spec [Int 5] 4 Hlen) as [Hfit _].
  destruct (Hfit Hslots) as (Hrun & _ & Hroom).
  split; [exact Hrun|].
  destruct (Hroom ltac:(simpl; lia)) as [Hfirst _]. exact Hfirst.
Defined.


Lemma constructor_settings_witness :
  (forall n, (None : option Num) = Some n -> OpenFHE.truthy n = false)
  /\ OpenFHE.slots (OpenFHE.this Samples.openFHE) = Int 64
  /\ OpenFHE.batchSize (OpenFHE.this Samples.openFHE) = Int 32.
Proof.
  assert (Hnone : forall n, (None : option Num) = Some n -> OpenFHE.truthy n = false)
    by (intros n Hn; discriminate Hn).
  split; [exact Hnone|].
  destruct (OpenFHEFacts.constructor_settings None None None None None None None None
              (Some (Int 64)) None None) as (_ & _ & _ & _ & Hslots & Hbatch).
  split; [exact (Hslots (Int 64) eq_refl eq_refl)|exact (Hbatch Hnone)].
Defined.

Lemma generateKey_keeps_keys_witness :
  let w := {| OpenFHE.this := OpenFHE.set_cc (Some 1%N) (OpenFHE.this Samples.openFHE);
              OpenFHE.calls := [] |} in
  OpenFHE.cc (OpenFHE.this w) = Some 1%N
  /\ OpenFHE.keys (OpenFHE.this w) = None
  /\ exists e,
       OpenFHE.generateKey Samples.objects w
       = (Throw e, {| OpenFHE.this := OpenFHE.this w;
                      OpenFHE.calls := OpenFHE.calls w ++ [OpenFHE.KeyGen 1%N] |})
       /\ (forall generated,
             OpenFHE.answer_KeyGen Samples.objects 1%N = Ok generated ->
             e = ErrorObj "TypeError"
                   "Cannot read properties of null (reading 'secretKey')").
Proof.
  cbn zeta.
  destruct (OpenFHEFacts.generateKey_keeps_keys Samples.objects
              {| OpenFHE.this := OpenFHE.set_cc (Some 1%N) (OpenFHE.this Samples.openFHE);
                 OpenFHE.calls := [] |}) as (_ & _ & Hnokeys & _).
  split; [reflexivity|]. split; [reflexivity|].
  exact (Hnokeys 1%N eq_refl eq_refl).
Defined.

Lemma initializeCryptoContext_spec_witness :
  let w := {| OpenFHE.this :=
                OpenFHE.set_openFHEModule (Some Samples.module_)
                  (OpenFHE.this Samples.openFHE);
              OpenFHE.calls := [] |} in
  OpenFHE.openFHEModule (OpenFHE.this w) = Some Samples.module_
  /\ OpenFHE.new_CCParamsCryptoContextCKKSRNS Samples.module_ = Ok 70%N
  /\ OpenFHE.new_GenCryptoContextCKKS Samples.module_ 70%N = Ok 1%N
  /\ (forall c,
        In c (OpenFHE.context_setup Samples.module_ (OpenFHE.this w) 70%N 1%N) ->
        OpenFHE.perform Samples.objects c = Ok tt)
  /\ OpenFHE.answer_GetRingDimension Samples.objects 1%N = Ok (Int 4096)
  /\ OpenFHE.initializeCryptoContext Samples.objects w
     = (Ok tt,
        {| OpenFHE.this := OpenFHE.set_cc (Some 1%N) (OpenFHE.this w);
           OpenFHE.calls :=
             OpenFHE.calls w
             ++ OpenFHE.context_setup Samples.module_ (OpenFHE.this w) 70%N 1%N |})
  /\ In (OpenFHE.SetBatchSize 70%N (Int 32))
        (OpenFHE.context_setup Samples.module_ (OpenFHE.this w) 70%N 1%N).
Proof.
  cbn zeta.
  set (w := {| OpenFHE.this :=
                 OpenFHE.set_openFHEModule (Some Samples.module_)
                   (OpenFHE.this Samples.openFHE);
               OpenFHE.calls := [] |}).
  assert (Hall : forall c,
             In c (OpenFHE.context_setup Samples.module_ (OpenFHE.this w) 70%N 1%N) ->
             OpenFHE.perform Samples.objects c = Ok tt) by (intros; reflexivity).
  split; [reflexivity|]. split; [reflexivity|]. split; [reflexivity|].
  split; [exact Hall|]. split; [reflexivity|].
  destruct (OpenFHEFacts.initializeCryptoContext_spec Samples.objects w)
    as (_ & _ & Hrun).
  destruct (Hrun Samples.module_ 70%N 1%N eq_refl eq_refl eq_refl Hall) as [Hok _].
  split; [exact (Hok (Int 4096) eq_refl)|]. vm_compute. tauto.
Defined.


Lemma disk_export_not_read_back_witness :
  let this := SchemeSwitchingDataDeserializer.this (Sample.deserializer [3; 7]%N) in
  dataDirectory this = dataDirectory Samples.bundle
  /\ (forall path,
        (forall buffer,
           ~ In (path, buffer) (writeBuffersToFile Samples.disk Samples.bundle []).2) ->
        exists e, Samples.exported path = Throw e)
  /\ (Backend.deserializeInBackend Samples.exported this).1 <> Backend.Returned.
Proof.
  cbn zeta.
  assert (Hdir : dataDirectory
                   (SchemeSwitchingDataDeserializer.this (Sample.deserializer [3; 7]%N))
                 = dataDirectory Samples.bundle) by reflexivity.
  assert (Hfs : forall path,
             (forall buffer,
                ~ In (path, buffer)
                     (writeBuffersToFile Samples.disk Samples.bundle []).2) ->
             exists e, Samples.exported path = Throw e).
  { intros path Hnot. unfold Samples.exported.
    destruct (List.find _ _) as [[path' buffer]|] eqn:Hfind; [|eexists; reflexivity].
    apply find_some in Hfind. destruct Hfind as [Hin Heq].
    apply bool_decide_eq_true in Heq. simpl in Heq. subst path'.
    destruct (Hnot buffer Hin). }
  split; [exact Hdir|]. split; [exact Hfs|].
  destruct (BackendFacts.disk_export_not_read_back Samples.disk Samples.bundle
              _ Samples.exported Hdir Hfs) as [Hnever _].
  exact Hnever.
Defined.

Lemma processRow_spec_witness :
  let newRow :=
    [ (lit "id", lit "7"); (lit "note", []); (lit "age", lit "ct-number");
      (lit "name", lit "ct-string"); (lit "PRE_key", lit "1,2,3") ] in
  NoDup (List.map fst Samples.csv_row)
  /\ EncryptCsv.processRow Samples.csv_functions [lit "id"; lit "PRE_key"]
       Samples.csv_row = Ok newRow
  /\ exists encryptionKey pre,
       EncryptCsv.generateKey Samples.csv_functions = Ok encryptionKey
       /\ EncryptCsv.generatePREKey Samples.csv_functions encryptionKey = Ok pre
       /\ In (EncryptCsv.PRE_key, pre) newRow.
Proof.
  cbn zeta.
  assert (Hnd : NoDup (List.map fst Samples.csv_row)).
  { apply (bool_decide_unpack _). vm_compute. exact I. }
  assert (Hrun : EncryptCsv.processRow Samples.csv_functions
                   [lit "id"; lit "PRE_key"] Samples.csv_row
                 = Ok [ (lit "id", lit "7"); (lit "note", []);
                        (lit "age", lit "ct-number");
                        (lit "name", lit "ct-string");
                        (lit "PRE_key", lit "1,2,3") ])
    by (vm_compute; reflexivity).
  split; [exact Hnd|]. split; [exact Hrun|].
  destruct (EncryptCsvFacts.processRow_spec Samples.csv_functions _ _ _ Hnd Hrun)
    as (encryptionKey & pre & Hkey & Hpre & _ & Hin & _).
  exists encryptionKey, pre. split; [exact Hkey|]. split; [exact Hpre|exact Hin].
Defined.

Lemma main_setup_spec_witness :
  OpenFHE.new_CCParamsCryptoContextCKKSRNS Samples.module_ = Ok 70%N
  /\ OpenFHE.new_GenCryptoContextCKKS Samples.module_ 70%N = Ok 1%N
  /\ (forall c, OpenFHE.perform Samples.objects c = Ok tt)
  /\ OpenFHE.answer_GetRingDimension Samples.objects 1%N = Ok (Int 4096)
  /\ OpenFHE.ScalingTechnique_FIXEDAUTO Samples.module_
     <> OpenFHE.ScalingTechnique_FLEXIBLEAUTOEXT Samples.module_
  /\ (OpenFHE.main_setup Samples.objects (Ok Samples.module_)).1 = Ok tt.
Proof.
  assert (Hall : forall c, OpenFHE.perform Samples.objects c = Ok tt)
    by (intros; reflexivity).
  assert (Hdiff : OpenFHE.ScalingTechnique_FIXEDAUTO Samples.module_
                  <> OpenFHE.ScalingTechnique_FLEXIBLEAUTOEXT Samples.module_)
    by (simpl; lia).
  split; [reflexivity|]. split; [reflexivity|]. split; [exact Hall|].
  split; [reflexivity|]. split; [exact Hdiff|].
  destruct (OpenFHEFacts.main_setup_spec Samples.objects) as [_ Hloaded].
  destruct (Hloaded Samples.module_ 70%N 1%N (Int 4096) eq_refl eq_refl Hall eq_refl
              Hdiff) as (o & Hrun & _).
  rewrite Hrun. reflexivity.
Defined.

End MoreWitnesses.
